(** * pyplate: paper microplate layouts

    A shallow embedding of [pyplate/plate.py]: the class [PaperPlate], which
    draws a well plate into an SVG document, its two presets [Plate96] and
    [Plate384], and the export method [to_pdf_inkscape].

    Python values are modelled as the interpreter has them:
    - an [int] is an unbounded integer ([Z]) and a [float] an IEEE 754
      binary64 number (the primitive type [float]); mixed arithmetic converts
      the [int] operand, and raises [OverflowError] when it is too large;
    - a [str] is a sequence of Unicode code points;
    - a [list] is an object in a heap, reached through a reference, so that
      aliasing between the caller's fill matrix and the plate's is visible;
    - an exception is a value of [exn]; a computation that may raise returns a
      [result];
    - [str] of a [float] is left to the interpreter: it is a parameter,
      [repr_float], of whatever depends on it.

    The drawing backend (svgwrite) is not part of the repository.  A drawing
    is modelled by what the constructor hands to it: the size strings, the
    view box and the sequence of elements passed to [add], each with the
    keyword arguments of the call. *)

From Stdlib Require Import ZArith Floats String Ascii DecimalString DecimalZ DecimalPos.
From stdpp Require Import gmap list.

Set Warnings "-inexact-float".
Local Open Scope Z_scope.

(** ** Exceptions and results *)

(** [InvalidLayoutError] and [ConversionFailedError] are the error names of
    the design document; no statement of the source raises them. *)
Inductive exn :=
| OverflowError
| ValueError
| IndexError
| TypeError
| ZeroDivisionError
| OSError
| InvalidLayoutError
| ConversionFailedError.

Inductive result (A : Type) :=
| Ok (a : A)
| Raise (e : exn).
Arguments Ok {A} a.
Arguments Raise {A} e.

Class Monad (m : Type -> Type) := {
  ret : forall {A}, A -> m A;
  bind : forall {A B}, m A -> (A -> m B) -> m B
}.

Notation "x <- e ;; k" := (bind e (fun x => k))
  (at level 100, e at next level, right associativity).

#[global] Instance result_monad : Monad result := {
  ret := fun A a => Ok a;
  bind := fun A B r k => match r with Ok a => k a | Raise e => Raise e end
}.

Definition is_ok {A} (r : result A) : bool :=
  match r with Ok _ => true | Raise _ => false end.

(** ** Strings *)

(** A Python [str]: its code points, in order. *)
Definition pystr := list N.

(** A string literal of the source (ASCII). *)
Definition lit (s : string) : pystr :=
  map N_of_ascii (list_ascii_of_string s).

(** [chr(i)]: the one-character string of code point [i]; [ValueError]
    outside [range(0x110000)]. *)
Definition chr (i : Z) : result pystr :=
  if (0 <=? i) && (i <? 1114112) then Ok [Z.to_N i] else Raise ValueError.

(** [str(z)] for an [int]: its decimal digits, with a minus sign when negative. *)
Definition str_int (z : Z) : pystr :=
  lit (NilZero.string_of_int (Z.to_int z)).

(** [str.isalpha] on the ASCII range: the letters A-Z and a-z. *)
Definition is_ascii_letter (c : N) : bool :=
  ((65 <=? c) && (c <=? 90) || (97 <=? c) && (c <=? 122))%N.

(** ** Numbers *)

Inductive number :=
| PyInt (z : Z)
| PyFloat (f : float).

(** The binary64 number nearest to an integer (ties to even). *)
Definition Z2F (z : Z) : float :=
  SF2Prim (binary_normalize prec emax z 0 false).

(** The first integer whose nearest binary64 number is not finite: half an
    ulp above the largest finite one. *)
Definition float_limit : Z := 2 ^ 1024 - 2 ^ 970.

(** [float(z)]: the conversion raises [OverflowError] when the rounded value
    would not be finite. *)
Definition float_of_int (z : Z) : result float :=
  if Z.abs z <? float_limit then Ok (Z2F z) else Raise OverflowError.

Definition to_float (n : number) : result float :=
  match n with
  | PyInt z => float_of_int z
  | PyFloat f => Ok f
  end.

(** A binary operator [+], [-] or [*]: exact on two [int]s, and in binary64
    after conversion as soon as one operand is a [float]. *)
Definition arith (iop : Z -> Z -> Z) (fop : float -> float -> float)
    (a b : number) : result number :=
  match a, b with
  | PyInt x, PyInt y => Ok (PyInt (iop x y))
  | _, _ => x <- to_float a;; y <- to_float b;; Ok (PyFloat (fop x y))
  end.

Definition py_add : number -> number -> result number := arith Z.add PrimFloat.add.
Definition py_sub : number -> number -> result number := arith Z.sub PrimFloat.sub.
Definition py_mul : number -> number -> result number := arith Z.mul PrimFloat.mul.

(** [a / d] for a [float] divisor [d], the only form of division in the source. *)
Definition py_truediv (a : number) (d : float) : result number :=
  x <- to_float a;;
  if PrimFloat.eqb d 0 then Raise ZeroDivisionError else Ok (PyFloat (x / d)).

(** [range(n)] *)
Definition range (n : Z) : list Z :=
  map Z.of_nat (seq 0 (Z.to_nat n)).

(** [l[i]]: a negative index counts from the end; [IndexError] out of range. *)
Definition getitem {A} (l : list A) (i : Z) : result A :=
  let j := if i <? 0 then i + Z.of_nat (length l) else i in
  if j <? 0 then Raise IndexError
  else match l !! Z.to_nat j with
       | Some a => Ok a
       | None => Raise IndexError
       end.

(** ** Lists on the heap *)

(** A reference to an object.  The fill matrix is a list of rows and a row is
    a list of strings, each kind in a map of its own; a reference that holds
    no list stands for an object that is not a list: it is copied as it is
    and subscripting it raises [TypeError]. *)
Definition loc := positive.

Record heap := {
  matrices : gmap loc (list loc);
  rowlists : gmap loc (list pystr)
}.

(** The [well_fill] argument: a [str], or a reference to anything else. *)
Inductive fill_arg :=
| FillStr (s : pystr)
| FillRef (l : loc).

Definition alloc_row (cells : list pystr) (h : heap) : loc * heap :=
  let r := fresh (dom (rowlists h)) in
  (r, {| matrices := matrices h; rowlists := <[r := cells]> (rowlists h) |}).

Definition alloc_matrix (rs : list loc) (h : heap) : loc * heap :=
  let m := fresh (dom (matrices h)) in
  (m, {| matrices := <[m := rs]> (matrices h); rowlists := rowlists h |}).

(** [[f(j) for j in js]] where each [f(j)] builds a new row. *)
Fixpoint alloc_rows {A} (js : list A) (cells : list pystr) (h : heap)
    : list loc * heap :=
  match js with
  | [] => ([], h)
  | _ :: js' =>
      let (r, h1) := alloc_row cells h in
      let (rs, h2) := alloc_rows js' cells h1 in
      (r :: rs, h2)
  end.

(** [[[well_fill for i in range(n_cols)] for j in range(n_rows)]] *)
Definition broadcast (well_fill : pystr) (n_rows n_cols : Z) (h : heap)
    : loc * heap :=
  let (rs, h1) := alloc_rows (range n_rows) (map (fun _ => well_fill) (range n_cols)) h in
  alloc_matrix rs h1.

(** [copy.deepcopy] of one element of the outer list.  The memo maps the
    objects already copied to their copies; a [str] inside a row is
    immutable and is shared; an object that is not a list is returned as it is. *)
Definition deepcopy_row (memo : gmap loc loc) (h : heap) (r : loc)
    : loc * gmap loc loc * heap :=
  match memo !! r with
  | Some r' => (r', memo, h)
  | None =>
      match rowlists h !! r with
      | Some cells =>
          let (r', h') := alloc_row cells h in
          (r', <[r := r']> memo, h')
      | None => (r, memo, h)
      end
  end.

Fixpoint deepcopy_rows (memo : gmap loc loc) (h : heap) (rs : list loc)
    : list loc * gmap loc loc * heap :=
  match rs with
  | [] => ([], memo, h)
  | r :: rs' =>
      let '(r', memo1, h1) := deepcopy_row memo h r in
      let '(rs'', memo2, h2) := deepcopy_rows memo1 h1 rs' in
      (r' :: rs'', memo2, h2)
  end.

(** [copy.deepcopy(well_fill)] *)
Definition deepcopy (h : heap) (m : loc) : loc * heap :=
  match matrices h !! m with
  | Some rs =>
      let '(rs', _, h1) := deepcopy_rows ∅ h rs in
      alloc_matrix rs' h1
  | None => (m, h)
  end.

(** [fill_matrix[row][col]] *)
Definition subscript2 (h : heap) (m : loc) (row col : Z) : result pystr :=
  match matrices h !! m with
  | None => Raise TypeError
  | Some rs =>
      r <- getitem rs row;;
      match rowlists h !! r with
      | None => Raise TypeError
      | Some cells => getitem cells col
      end
  end.

(** The matrix a reference denotes, when it denotes one. *)
Definition matrix_at (h : heap) (m : loc) : option (list (list pystr)) :=
  match matrices h !! m with
  | None => None
  | Some rs => mapM (fun r => rowlists h !! r) rs
  end.

(** ** The drawing *)

Definition point := (number * number)%type.

Inductive element :=
| Rect (insert size : point) (rx stroke_width : number) (stroke fill : pystr)
| Circle (center : point) (r stroke_width : number) (stroke fill : pystr)
| Text (text : pystr) (insert : point) (text_anchor : pystr)
       (font_size : number) (alignment_baseline font_family : pystr).

(** The state of a [svgwrite.Drawing]: the arguments it was created with,
    the view box ([minx], [miny], [width], [height]) once set, and the
    elements added so far, oldest first. *)
Record Drawing := {
  filename : pystr;
  size : pystr * pystr;
  viewBox : option (number * number * number * number);
  elements : list element
}.

Definition new_Drawing (filename : pystr) (size : pystr * pystr) : Drawing :=
  {| filename := filename; size := size; viewBox := None; elements := [] |}.

(** [svg.viewbox(width=w, height=h)]; [minx] and [miny] default to 0. *)
Definition viewbox (w h : number) (d : Drawing) : Drawing :=
  {| filename := filename d; size := size d;
     viewBox := Some (PyInt 0, PyInt 0, w, h); elements := elements d |}.

Definition add (e : element) (d : Drawing) : Drawing :=
  {| filename := filename d; size := size d; viewBox := viewBox d;
     elements := elements d ++ [e] |}.

(** A method that draws: it may raise, and what it added before raising stays
    in the drawing. *)
Definition M (A : Type) : Type := Drawing -> result A * Drawing.

#[global] Instance M_monad : Monad M := {
  ret := fun A a d => (Ok a, d);
  bind := fun A B m k d =>
    match m d with
    | (Ok a, d') => k a d'
    | (Raise e, d') => (Raise e, d')
    end
}.

(** [self._svg.add(e)] where evaluating the argument [e] may raise. *)
Definition svg_add (e : result element) : M unit :=
  fun d => match e with
           | Ok x => (Ok tt, add x d)
           | Raise ex => (Raise ex, d)
           end.

(** [for x in xs: body(x)] *)
Fixpoint for_ {A} (xs : list A) (body : A -> M unit) : M unit :=
  match xs with
  | [] => ret tt
  | x :: xs' => _ <- body x;; for_ xs' body
  end.

Definition lift {A} (r : result A) : M A := fun d => (r, d).

(** ** class PaperPlate *)

(** The attributes of a plate.  [_fill_matrix] refers to a list on the heap;
    the drawing that [_svg] refers to is threaded through the methods. *)
Record PaperPlate := {
  _n_rows : Z;
  _n_cols : Z;
  _plate_length : number;
  _plate_width : number;
  _barrier_thickness : number;
  _well_diameter : number;
  _well_separation : number;
  _margin : number;
  _edge_corner_radius : number;
  _edge_thickness : number;
  _edges_distance : number;
  _label_font_size : number;
  _fill_matrix : loc;
  _top_y : number;
  _left_x : number
}.

(** What a call of the constructor leaves: the new plate with its drawing,
    or an exception.  In the second case no plate is returned; [svg] records
    the drawing as it stood when the exception was raised, if it had been
    created. *)
Inductive outcome :=
| Constructed (self : PaperPlate) (svg : Drawing) (h : heap)
| Failed (e : exn) (svg : option Drawing) (h : heap).

Section PaperPlate.

(** [str(f)] for a [float] belongs to the interpreter; the size of the
    drawing is the only place that depends on it. *)
Variable repr_float : float -> pystr.

Definition str (n : number) : pystr :=
  match n with
  | PyInt z => str_int z
  | PyFloat f => repr_float f
  end.

Definition _draw_edges (self : PaperPlate) : M unit :=
  let fill := lit "white" in
  let stroke := lit "black" in
  (* Outer edge *)
  _ <- svg_add (Ok (Rect (_margin self, _margin self)
                         (_plate_length self, _plate_width self)
                         (_edge_corner_radius self)
                         (_edge_thickness self) stroke fill));;
  (* Inner edge *)
  insert_coord <- lift (py_add (_margin self) (_edges_distance self));;
  inner_size <- lift (
    w <- (t <- py_mul (PyInt 2) (_edges_distance self);; py_sub (_plate_length self) t);;
    h <- (t <- py_mul (PyInt 2) (_edges_distance self);; py_sub (_plate_width self) t);;
    Ok (w, h));;
  svg_add (
    rx <- py_sub (_edge_corner_radius self) (_edges_distance self);;
    Ok (Rect (insert_coord, insert_coord) inner_size rx
             (_edge_thickness self) stroke fill)).

Definition _draw_wells (h : heap) (self : PaperPlate) : M unit :=
  let stroke := lit "black" in
  for_ (range (_n_rows self)) (fun row =>
    for_ (range (_n_cols self)) (fun col =>
      svg_add (
        cx <- (t <- py_mul (PyInt col) (_well_separation self);; py_add (_left_x self) t);;
        cy <- (t <- py_mul (PyInt row) (_well_separation self);; py_add (_top_y self) t);;
        r <- py_truediv (_well_diameter self) 2;;
        fill <- subscript2 h (_fill_matrix self) row col;;
        Ok (Circle (cx, cy) r (_barrier_thickness self) stroke fill)))).

Definition _draw_labels (self : PaperPlate) : M unit :=
  let font_size := _label_font_size self in
  _ <- for_ (range (_n_rows self)) (fun row =>
    svg_add (
      text <- chr (row + 65);;
      x <- (t <- py_mul (PyFloat (-0.75)) (_well_separation self);; py_add t (_left_x self));;
      y <- (t <- py_mul (PyInt row) (_well_separation self);;
            u <- py_add t (_top_y self);;
            v <- py_truediv font_size 8;;
            py_add u v);;
      Ok (Text text (x, y) (lit "middle") font_size (lit "middle") (lit "Futura"))));;
  for_ (range (_n_cols self)) (fun col =>
    svg_add (
      x <- (t <- py_mul (PyInt col) (_well_separation self);; py_add t (_left_x self));;
      y <- (t <- py_mul (PyFloat (-0.55)) (_well_separation self);;
            u <- py_add t (_top_y self);;
            v <- py_truediv font_size 8;;
            py_sub u v);;
      Ok (Text (str (PyInt (col + 1))) (x, y) (lit "middle") font_size
               (lit "middle") (lit "Futura")))).

Definition __init__ (n_rows n_cols : Z)
    (plate_length plate_width barrier_thickness well_diameter well_separation
     margin left_padding top_padding edge_corner_radius edge_thickness
     edges_distance label_font_size : number)
    (well_fill : fill_arg) (h : heap) : outcome :=
  let (fill_matrix, h1) :=
    match well_fill with
    | FillStr s => broadcast s n_rows n_cols h
    | FillRef m => deepcopy h m
    end in
  match
    (* Coordinates of the top left well center *)
    top_y <- py_add margin top_padding;;
    left_x <- py_add margin left_padding;;
    (* Create SVG figure *)
    vw <- (t <- py_mul (PyInt 2) margin;; py_add plate_length t);;
    vh <- (t <- py_mul (PyInt 2) margin;; py_add plate_width t);;
    Ok (top_y, left_x, vw, vh)
  with
  | Raise e => Failed e None h1
  | Ok (top_y, left_x, vw, vh) =>
      let viewport_dim := (str vw ++ lit "mm", str vh ++ lit "mm") in
      let svg := new_Drawing (lit "paper-plate.svg") viewport_dim in
      (* Modify ViewBox so that each user unit is equal to 1mm *)
      let svg := viewbox vw vh svg in
      let self :=
        {| _n_rows := n_rows; _n_cols := n_cols;
           _plate_length := plate_length; _plate_width := plate_width;
           _barrier_thickness := barrier_thickness;
           _well_diameter := well_diameter;
           _well_separation := well_separation;
           _margin := margin;
           _edge_corner_radius := edge_corner_radius;
           _edge_thickness := edge_thickness;
           _edges_distance := edges_distance;
           _label_font_size := label_font_size;
           _fill_matrix := fill_matrix;
           _top_y := top_y; _left_x := left_x |} in
      (* Draw plate *)
      match (_ <- _draw_edges self;; _ <- _draw_wells h1 self;; _draw_labels self) svg with
      | (Ok _, svg') => Constructed self svg' h1
      | (Raise e, svg') => Failed e (Some svg') h1
      end
  end.

(** ** class Plate96, class Plate384 *)

(** The defaults of the optional arguments [edge_thickness], [edge_distance]
    and [well_fill]. *)
Definition default_edge_thickness : number := PyFloat 0.75.
Definition default_edge_distance : number := PyFloat 1.0.
Definition default_well_fill : fill_arg := FillStr (lit "white").

Definition Plate96 (barrier_tickness well_diameter margin
    edge_thickness edge_distance : number) (well_fill : fill_arg) : heap -> outcome :=
  __init__ 8 12 (PyFloat 127.76) (PyFloat 85.48) barrier_tickness well_diameter
    (PyInt 9) margin (PyFloat 14.38) (PyFloat 11.24) (PyFloat 3.18)
    edge_thickness edge_distance (PyInt 4) well_fill.

Definition Plate384 (barrier_tickness well_diameter margin
    edge_thickness edge_distance : number) (well_fill : fill_arg) : heap -> outcome :=
  __init__ 16 24 (PyFloat 127.76) (PyFloat 85.48) barrier_tickness well_diameter
    (PyFloat 4.5) margin (PyFloat 12.7) (PyFloat 8.99) (PyFloat 3.18)
    edge_thickness edge_distance (PyInt 3) well_fill.

End PaperPlate.

(** ** PaperPlate.to_pdf_inkscape *)

(** The operating system as one call of the method meets it: the functions
    of [os.path], whether [os.makedirs] and [Drawing.saveas] succeed (they
    raise [OSError] otherwise), what [shutil.which] finds, and the exit
    status [os.system] returns for a command line. *)
Record OS := {
  abspath : pystr -> pystr;
  dirname : pystr -> pystr;
  basename : pystr -> pystr;
  splitext : pystr -> pystr * pystr;
  join : pystr -> pystr -> pystr;
  makedirs : pystr -> bool;
  saveas : Drawing -> pystr -> bool;
  which : pystr -> option pystr;
  system : pystr -> Z
}.

(** The calls that reach the file system or start a process, in order. *)
Inductive call :=
| Makedirs (path : pystr)
| Saveas (svg : Drawing) (path : pystr)
| System (command : pystr) (status : Z).

Definition to_pdf_inkscape (os : OS) (svg : Drawing) (pdf_file_path : pystr)
    : result unit * list call :=
  (* Make directory *)
  let file_dir := dirname os (abspath os pdf_file_path) in
  if negb (makedirs os file_dir) then (Raise OSError, [Makedirs file_dir])
  else
    (* Save SVG *)
    let file_name := fst (splitext os (basename os pdf_file_path)) in
    let svg_path := join os file_dir (file_name ++ lit ".svg") in
    if negb (saveas os svg svg_path)
    then (Raise OSError, [Makedirs file_dir; Saveas svg svg_path])
    else
      (* Find Inkscape *)
      let inkscape_path :=
        match which os (lit "inkscape") with
        | None => lit "/Applications/Inkscape.app/Contents/Resources/bin/inkscape"
        | Some _ => lit "inkscape"
        end in
      let pdf_path := abspath os pdf_file_path in
      let command := inkscape_path ++ lit " -f " ++ svg_path ++ lit " -A " ++ pdf_path in
      (* the value of os.system(...) is dropped *)
      let status := system os command in
      (Ok tt, [Makedirs file_dir; Saveas svg svg_path; System command status]).

(** * Specification

    What follows is not a translation of the source: the vocabulary in which
    the behaviour of the constructor is stated, and the proofs. *)

(** ** What a method adds to the drawing *)

Definition extend (d : Drawing) (es : list element) : Drawing :=
  {| filename := filename d; size := size d; viewBox := viewBox d;
     elements := elements d ++ es |}.

(** [emit es]: add the elements of [es] one after the other, stopping at the
    first whose evaluation raises. *)
Definition emit (es : list (result element)) : M unit := for_ es svg_add.

(** The elements added by [emit es] and the exception that stopped it. *)
Fixpoint emitted (es : list (result element)) : list element * option exn :=
  match es with
  | [] => ([], None)
  | Ok v :: es' => let (vs, e) := emitted es' in (v :: vs, e)
  | Raise e :: _ => ([], Some e)
  end.

Definition finish (e : option exn) : result unit :=
  match e with None => Ok tt | Some ex => Raise ex end.

(** ** The elements of a plate

    The argument of each [self._svg.add(...)] of the source, as a function
    of the plate and of the position. *)

Section Shape.
Variable repr_float : float -> pystr.

Definition outer_edge (self : PaperPlate) : element :=
  Rect (_margin self, _margin self) (_plate_length self, _plate_width self)
       (_edge_corner_radius self) (_edge_thickness self) (lit "black") (lit "white").

Definition inner_edge (self : PaperPlate) : result element :=
  insert_coord <- py_add (_margin self) (_edges_distance self);;
  inner_size <- (
    w <- (t <- py_mul (PyInt 2) (_edges_distance self);; py_sub (_plate_length self) t);;
    h <- (t <- py_mul (PyInt 2) (_edges_distance self);; py_sub (_plate_width self) t);;
    Ok (w, h));;
  rx <- py_sub (_edge_corner_radius self) (_edges_distance self);;
  Ok (Rect (insert_coord, insert_coord) inner_size rx
           (_edge_thickness self) (lit "black") (lit "white")).

Definition well (h : heap) (self : PaperPlate) (row col : Z) : result element :=
  cx <- (t <- py_mul (PyInt col) (_well_separation self);; py_add (_left_x self) t);;
  cy <- (t <- py_mul (PyInt row) (_well_separation self);; py_add (_top_y self) t);;
  r <- py_truediv (_well_diameter self) 2;;
  fill <- subscript2 h (_fill_matrix self) row col;;
  Ok (Circle (cx, cy) r (_barrier_thickness self) (lit "black") fill).

Definition row_label (self : PaperPlate) (row : Z) : result element :=
  text <- chr (row + 65);;
  x <- (t <- py_mul (PyFloat (-0.75)) (_well_separation self);; py_add t (_left_x self));;
  y <- (t <- py_mul (PyInt row) (_well_separation self);;
        u <- py_add t (_top_y self);;
        v <- py_truediv (_label_font_size self) 8;;
        py_add u v);;
  Ok (Text text (x, y) (lit "middle") (_label_font_size self) (lit "middle") (lit "Futura")).

Definition col_label (self : PaperPlate) (col : Z) : result element :=
  x <- (t <- py_mul (PyInt col) (_well_separation self);; py_add t (_left_x self));;
  y <- (t <- py_mul (PyFloat (-0.55)) (_well_separation self);;
        u <- py_add t (_top_y self);;
        v <- py_truediv (_label_font_size self) 8;;
        py_sub u v);;
  Ok (Text (str repr_float (PyInt (col + 1))) (x, y) (lit "middle")
           (_label_font_size self) (lit "middle") (lit "Futura")).

Definition edges (self : PaperPlate) : list (result element) :=
  [Ok (outer_edge self); inner_edge self].

Definition wells (h : heap) (self : PaperPlate) : list (result element) :=
  flat_map (fun row => map (well h self row) (range (_n_cols self)))
           (range (_n_rows self)).

Definition row_labels (self : PaperPlate) : list (result element) :=
  map (row_label self) (range (_n_rows self)).

Definition col_labels (self : PaperPlate) : list (result element) :=
  map (col_label self) (range (_n_cols self)).

(** Everything the constructor asks the drawing to add, in order. *)
Definition plate_elements (h : heap) (self : PaperPlate) : list (result element) :=
  edges self ++ wells h self ++ row_labels self ++ col_labels self.

End Shape.

(** ** The steps of the constructor *)

Section Steps.
Variable repr_float : float -> pystr.
Variables n_rows n_cols : Z.
Variables plate_length plate_width barrier_thickness well_diameter
  well_separation margin left_padding top_padding edge_corner_radius
  edge_thickness edges_distance label_font_size : number.
Variable well_fill : fill_arg.
Variable h : heap.

(** Lines 78-81: the fill matrix of the new plate and the heap that holds it. *)
Definition fill_step : loc * heap :=
  match well_fill with
  | FillStr s => broadcast s n_rows n_cols h
  | FillRef m => deepcopy h m
  end.

(** Lines 83-95: the origin of the grid and the size of the viewport. *)
Definition geometry : result (number * number * number * number) :=
  top_y <- py_add margin top_padding;;
  left_x <- py_add margin left_padding;;
  vw <- (t <- py_mul (PyInt 2) margin;; py_add plate_length t);;
  vh <- (t <- py_mul (PyInt 2) margin;; py_add plate_width t);;
  Ok (top_y, left_x, vw, vh).

Definition plate (top_y left_x : number) : PaperPlate :=
  {| _n_rows := n_rows; _n_cols := n_cols;
     _plate_length := plate_length; _plate_width := plate_width;
     _barrier_thickness := barrier_thickness;
     _well_diameter := well_diameter;
     _well_separation := well_separation;
     _margin := margin;
     _edge_corner_radius := edge_corner_radius;
     _edge_thickness := edge_thickness;
     _edges_distance := edges_distance;
     _label_font_size := label_font_size;
     _fill_matrix := fst fill_step;
     _top_y := top_y; _left_x := left_x |}.

Definition blank (vw vh : number) : Drawing :=
  viewbox vw vh (new_Drawing (lit "paper-plate.svg")
                             (str repr_float vw ++ lit "mm", str repr_float vh ++ lit "mm")).

End Steps.

(** ** Kinds of elements *)

Definition is_rect (e : element) : bool :=
  match e with Rect _ _ _ _ _ _ => true | _ => false end.
Definition is_circle (e : element) : bool :=
  match e with Circle _ _ _ _ _ => true | _ => false end.
Definition is_text (e : element) : bool :=
  match e with Text _ _ _ _ _ _ => true | _ => false end.

(** The centre of the circle drawn for the well at [(row, col)] of a plate
    with [n_cols] columns. *)
Definition well_center (svg : Drawing) (n_cols row col : Z) : option point :=
  match List.filter is_circle (elements svg) !! Z.to_nat (row * n_cols + col) with
  | Some (Circle center _ _ _ _) => Some center
  | _ => None
  end.

Definition text_of (e : element) : pystr :=
  match e with Text t _ _ _ _ _ => t | _ => [] end.

(** Where an element is placed: the [insert] of a rectangle or of a text,
    the [center] of a circle. *)
Definition position (e : element) : point :=
  match e with
  | Rect insert _ _ _ _ _ => insert
  | Circle center _ _ _ _ => center
  | Text _ insert _ _ _ _ => insert
  end.

(** The [fill] of a rectangle or of a circle. *)
Definition fill_of (e : element) : pystr :=
  match e with
  | Rect _ _ _ _ _ fill => fill
  | Circle _ _ _ _ fill => fill
  | Text _ _ _ _ _ _ => []
  end.

(** ** Matrices and heaps *)

(** [M[row][col]] on a matrix given as a value. *)
Definition matrix_get (M : list (list pystr)) (row col : Z) : result pystr :=
  cells <- getitem M row;; getitem cells col.

(** [h2] is [h1] after any change to objects that already existed in [old]. *)
Definition changes_only (old h1 h2 : heap) : Prop :=
  (forall l, l ∉ dom (matrices old) -> matrices h2 !! l = matrices h1 !! l) /\
  (forall l, l ∉ dom (rowlists old) -> rowlists h2 !! l = rowlists h1 !! l).

Record extends (h h' : heap) : Prop := {
  ext_matrices : matrices h ⊆ matrices h';
  ext_rowlists : rowlists h ⊆ rowlists h'
}.

(** The memo of a deep copy in progress: each entry maps a row of the
    original heap [h0] to a copy with the same cells that is new in [h]. *)
Definition memo_ok (h0 h : heap) (memo : gmap loc loc) : Prop :=
  forall r r', memo !! r = Some r' ->
    exists cells, rowlists h0 !! r = Some cells /\
                  rowlists h !! r' = Some cells /\
                  r' ∉ dom (rowlists h0).

(** The fill argument provides a colour for every well: a string does, and
    a matrix does when it has an entry at every grid position. *)
Definition fill_covers (h : heap) (well_fill : fill_arg) (n_rows n_cols : Z) : Prop :=
  match well_fill with
  | FillStr _ => True
  | FillRef m =>
      exists M, matrix_at h m = Some M /\
        forall row col, 0 <= row < n_rows -> 0 <= col < n_cols ->
          is_ok (matrix_get M row col) = true
  end.

Definition empty_heap : heap := {| matrices := ∅; rowlists := ∅ |}.

(** A heap with the 1 x 2 matrix [[["red", "blue"]]] at reference 1. *)
Definition heap_1x2 : heap :=
  {| matrices := {[ 1%positive := [1%positive] ]};
     rowlists := {[ 1%positive := [lit "red"; lit "blue"] ]} |}.

(** The heap [h] after the caller has overwritten the row at [r]. *)
Definition overwrite_row (r : loc) (cells : list pystr) (h : heap) : heap :=
  {| matrices := matrices h; rowlists := <[r := cells]> (rowlists h) |}.

(** The heap a call of the constructor leaves. *)
Definition heap_of (o : outcome) : heap :=
  match o with
  | Constructed _ _ h => h
  | Failed _ _ h => h
  end.

(** ** Numbers that do not overflow *)

(** [small K n]: an [int] of magnitude at most [K], or any [float]. *)
Definition small (K : Z) (n : number) : Prop :=
  match n with
  | PyInt z => Z.abs z <= K
  | PyFloat _ => True
  end.

(** The largest magnitude of an [int] argument the success theorems consider. *)
Definition bound : Z := 2 ^ 500.

Definition modest (n : number) : Prop := small bound n.

(** ** Exceptions of the constructor *)

(** The exceptions a statement of the constructor can raise. *)
Definition python_exn (e : exn) : Prop :=
  e = OverflowError \/ e = ValueError \/ e = IndexError \/ e = TypeError \/
  e = ZeroDivisionError.

(** ** Operating systems *)

(** The same operating system with another answer of [os.system]. *)
Definition with_system (os : OS) (answer : pystr -> Z) : OS :=
  {| abspath := abspath os; dirname := dirname os; basename := basename os;
     splitext := splitext os; join := join os; makedirs := makedirs os;
     saveas := saveas os; which := which os; system := answer |}.

(** An operating system where every command exits with status 1. *)
Definition failing_os : OS :=
  {| abspath := fun p => lit "/" ++ p;
     dirname := fun _ => lit "/";
     basename := fun p => p;
     splitext := fun p => (take (length p - 4) p, drop (length p - 4) p);
     join := fun d f => d ++ f;
     makedirs := fun _ => true;
     saveas := fun _ _ => true;
     which := fun _ => Some (lit "/usr/bin/inkscape");
     system := fun _ => 1 |}.

(** ** Concrete plates *)

(** [str(f)] stand-in for the examples: the size strings of the drawing are
    all that it reaches. *)
Definition repr_stub : float -> pystr := fun _ => lit "<float>".

(** A plate with the dimensions of the 96-well preset and a grid of its own. *)
Definition small_plate (n_rows n_cols : Z) (well_fill : fill_arg) (h : heap) : outcome :=
  __init__ repr_stub n_rows n_cols (PyFloat 127.76) (PyFloat 85.48) (PyFloat 0.5)
    (PyInt 6) (PyInt 9) (PyInt 5) (PyFloat 14.38) (PyFloat 11.24) (PyFloat 3.18)
    (PyFloat 0.75) (PyFloat 1.0) (PyInt 4) well_fill h.

(** A plate whose lengths are all integers. *)
Definition int_plate (n_rows n_cols : Z) (well_fill : fill_arg) (h : heap) : outcome :=
  __init__ repr_stub n_rows n_cols (PyInt 128) (PyInt 86) (PyInt 1)
    (PyInt 6) (PyInt 9) (PyInt 5) (PyInt 14) (PyInt 11) (PyInt 3)
    (PyInt 1) (PyInt 1) (PyInt 4) well_fill h.

(** * Proofs *)

#[global] Arguments py_add : simpl never.
#[global] Arguments py_sub : simpl never.
#[global] Arguments py_mul : simpl never.
#[global] Arguments py_truediv : simpl never.
#[global] Arguments subscript2 : simpl never.
#[global] Arguments chr : simpl never.
#[global] Arguments lit : simpl never.
#[global] Arguments str_int : simpl never.

(** ** Loops that add elements *)

Lemma extend_nil d : extend d [] = d.
Proof. destruct d; unfold extend; simpl. by rewrite app_nil_r. Qed.

Lemma extend_extend d es1 es2 : extend (extend d es1) es2 = extend d (es1 ++ es2).
Proof. unfold extend; simpl. by rewrite app_assoc. Qed.

Lemma add_extend e d : add e d = extend d [e].
Proof. reflexivity. Qed.

Lemma emit_run es d :
  emit es d = (finish (snd (emitted es)), extend d (fst (emitted es))).
Proof.
  revert d. induction es as [|[v|ex] es IH]; intros d; simpl.
  - by rewrite extend_nil.
  - unfold emit in *. simpl. rewrite IH. destruct (emitted es) as [vs e]. simpl.
    by rewrite add_extend, extend_extend.
  - by rewrite extend_nil.
Qed.

Lemma for_ext {A} (xs : list A) (b1 b2 : A -> M unit) d :
  (forall x d', b1 x d' = b2 x d') -> for_ xs b1 d = for_ xs b2 d.
Proof.
  intros H. revert d. induction xs as [|x xs IH]; intros d; simpl; [done|].
  rewrite H. destruct (b2 x d) as [[[]|ex] d']; [apply IH|done].
Qed.

Lemma for_app {A} (xs ys : list A) (body : A -> M unit) d :
  for_ (xs ++ ys) body d = (_ <- for_ xs body;; for_ ys body) d.
Proof.
  revert d. induction xs as [|x xs IH]; intros d; simpl; [done|].
  destruct (body x d) as [[[]|ex] d']; [apply IH|done].
Qed.

Lemma for_map {A B} (f : A -> B) (xs : list A) (body : B -> M unit) d :
  for_ (map f xs) body d = for_ xs (fun x => body (f x)) d.
Proof.
  revert d. induction xs as [|x xs IH]; intros d; simpl; [done|].
  destruct (body (f x) d) as [[[]|ex] d']; [apply IH|done].
Qed.

Lemma emit_app es1 es2 d :
  emit (es1 ++ es2) d = (_ <- emit es1;; emit es2) d.
Proof. unfold emit. by rewrite for_app. Qed.

Lemma for_emit {A} (xs : list A) (g : A -> list (result element)) d :
  for_ xs (fun x => emit (g x)) d = emit (flat_map g xs) d.
Proof.
  revert d. induction xs as [|x xs IH]; intros d; simpl; [done|].
  rewrite emit_app. simpl.
  destruct (emit (g x) d) as [[[]|ex] d']; [apply IH|done].
Qed.

Lemma emitted_None es vs : emitted es = (vs, None) <-> es = map Ok vs.
Proof.
  revert vs. induction es as [|[v|ex] es IH]; intros vs; simpl.
  - split; [intros [= <-]; done|]. by destruct vs.
  - destruct (emitted es) as [vs' e]. split.
    + intros [= <- ->]. simpl. f_equal. by apply IH.
    + destruct vs as [|v' vs]; [done|]. simpl. intros [= -> Hes].
      apply IH in Hes. by injection Hes as -> ->.
  - split; [done|]. by destruct vs.
Qed.

Lemma emitted_Some es e :
  snd (emitted es) = Some e -> In (Raise e) es.
Proof.
  induction es as [|[v|ex] es IH]; simpl; [done| |].
  - destruct (emitted es) as [vs o]. simpl in *. auto.
  - intros [= ->]. by left.
Qed.

Lemma emitted_app_Ok vs rest :
  emitted (map Ok vs ++ rest) = (vs ++ fst (emitted rest), snd (emitted rest)).
Proof.
  induction vs as [|v vs IH]; simpl; [by destruct (emitted rest)|].
  by rewrite IH.
Qed.

Lemma emitted_app_raise es rest e :
  snd (emitted es) = Some e ->
  emitted (es ++ rest) = (fst (emitted es), Some e).
Proof.
  induction es as [|[v|ex] es IH]; simpl; [done| |].
  - destruct (emitted es) as [vs o]. simpl. intros ->.
    by rewrite (IH eq_refl).
  - by intros [= ->].
Qed.

(** A sequence whose only failures are [e], and that has one, stops on [e]. *)
Lemma emitted_first es e :
  (forall r, In r es -> is_ok r = true \/ r = Raise e) ->
  (exists r, In r es /\ is_ok r = false) ->
  snd (emitted es) = Some e.
Proof.
  induction es as [|r es IH]; intros Hall (r0 & Hin & Hr0); [done|].
  destruct (Hall r) as [Hok| ->]; [by left| |done].
  destruct r as [v|]; [|done]. simpl.
  destruct (emitted es) as [vs o] eqn:Hem. simpl in *. apply IH.
  - intros; apply Hall; by right.
  - destruct Hin as [<-|Hin]; [done|]. eauto.
Qed.

Section ShapeFacts.
Variable repr_float : float -> pystr.

Lemma draw_edges_emit self d : _draw_edges self d = emit (edges self) d.
Proof.
  unfold _draw_edges, edges, inner_edge, emit, lift. simpl.
  destruct (py_add (_margin self) (_edges_distance self)); simpl; [|done].
  destruct (py_mul (PyInt 2) (_edges_distance self)); simpl; [|done].
  destruct (py_sub (_plate_length self) _); simpl; [|done].
  destruct (py_sub (_plate_width self) _); simpl; [|done].
  by destruct (py_sub (_edge_corner_radius self) (_edges_distance self)).
Qed.

Lemma draw_wells_emit h self d : _draw_wells h self d = emit (wells h self) d.
Proof.
  unfold _draw_wells, wells. rewrite <- for_emit. apply for_ext. intros row d'.
  unfold emit. by rewrite for_map.
Qed.

Lemma draw_labels_emit self d :
  _draw_labels repr_float self d
  = emit (row_labels self ++ col_labels repr_float self) d.
Proof.
  unfold _draw_labels, row_labels, col_labels. rewrite emit_app.
  unfold emit. simpl. rewrite !for_map.
  destruct (for_ (range (_n_rows self)) _ d) as [[[]|ex] d']; [|done].
  by rewrite for_map.
Qed.

Lemma draw_plate_emit h self d :
  (_ <- _draw_edges self;; _ <- _draw_wells h self;; _draw_labels repr_float self) d
  = emit (plate_elements repr_float h self) d.
Proof.
  unfold plate_elements. rewrite emit_app. cbn [bind M_monad].
  rewrite draw_edges_emit.
  destruct (emit (edges self) d) as [[[]|ex] d1]; [|reflexivity].
  rewrite emit_app. cbn [bind M_monad]. rewrite draw_wells_emit.
  destruct (emit (wells h self) d1) as [[[]|ex] d2]; [|reflexivity].
  apply draw_labels_emit.
Qed.

End ShapeFacts.

(** ** Lists of results and ranges *)

Lemma map_Ok_app_inv {A} (vs : list A) (a b : list (result A)) :
  a ++ b = map Ok vs ->
  exists va vb, vs = va ++ vb /\ a = map Ok va /\ b = map Ok vb.
Proof.
  revert vs. induction a as [|x a IH]; intros vs; simpl.
  - intros ->. by exists [], vs.
  - destruct vs as [|v vs]; [done|]. simpl. intros [= -> H].
    destruct (IH _ H) as (va & vb & -> & -> & ->). by exists (v :: va), vb.
Qed.

Lemma map_Ok_lookup {A B} (f : A -> result B) (xs : list A) (vs : list B) i x :
  map f xs = map Ok vs -> xs !! i = Some x ->
  exists v, vs !! i = Some v /\ f x = Ok v.
Proof.
  revert vs i. induction xs as [|y xs IH]; intros [|v vs] i; simpl; try done.
  intros [= Hy H]. destruct i as [|i]; simpl.
  - intros [= ->]. eauto.
  - eauto.
Qed.

Lemma map_Ok_length {A B} (f : A -> result B) (xs : list A) (vs : list B) :
  map f xs = map Ok vs -> length vs = length xs.
Proof. intros H. apply (f_equal length) in H. by rewrite !length_map in H. Qed.

Lemma Ok_lookup {A} (rs : list (result A)) (vs : list A) i r :
  rs = map Ok vs -> rs !! i = Some r -> exists v, vs !! i = Some v /\ r = Ok v.
Proof.
  intros -> H. change (map Ok vs) with (Ok <$> vs) in H.
  rewrite list_lookup_fmap in H. destruct (vs !! i) as [v|]; [|done].
  injection H as <-. eauto.
Qed.

Lemma all_Ok {A} (rs : list (result A)) :
  (forall r, In r rs -> exists v, r = Ok v) -> exists vs, rs = map Ok vs.
Proof.
  induction rs as [|r rs IH]; intros H; [by exists []|].
  destruct (H r) as [v ->]; [by left|].
  destruct IH as [vs ->]; [intros; apply H; by right|].
  by exists (v :: vs).
Qed.

Lemma range_length n : length (range n) = Z.to_nat n.
Proof. unfold range. by rewrite length_map, length_seq. Qed.

Lemma range_lookup n i : 0 <= i < n -> range n !! Z.to_nat i = Some i.
Proof.
  intros Hi. unfold range.
  change (map Z.of_nat (seq 0 (Z.to_nat n))) with (Z.of_nat <$> seq 0 (Z.to_nat n)).
  rewrite list_lookup_fmap, lookup_seq_lt by lia. simpl. f_equal. lia.
Qed.

Lemma elem_of_range n i : i ∈ range n <-> 0 <= i < n.
Proof.
  unfold range.
  change (map Z.of_nat (seq 0 (Z.to_nat n))) with (Z.of_nat <$> seq 0 (Z.to_nat n)).
  rewrite list_elem_of_fmap. setoid_rewrite elem_of_seq. split.
  - intros (k & -> & Hk). lia.
  - intros Hi. exists (Z.to_nat i). lia.
Qed.

Lemma In_range n i : In i (range n) <-> 0 <= i < n.
Proof. rewrite <- list_elem_of_In. apply elem_of_range. Qed.

Lemma flat_map_lookup {A B C} (f : A -> B -> C) (xs : list A) (ys : list B) i j x y :
  xs !! i = Some x -> ys !! j = Some y ->
  flat_map (fun x => map (f x) ys) xs !! (i * length ys + j)%nat = Some (f x y).
Proof.
  revert i. induction xs as [|a xs IH]; intros i Hx Hy; [done|].
  simpl. destruct i as [|i]; simpl in *.
  - injection Hx as ->. rewrite lookup_app_l.
    + change (map (f x) ys) with (f x <$> ys). by rewrite list_lookup_fmap, Hy.
    + rewrite length_map. by eapply lookup_lt_Some.
  - rewrite lookup_app_r; rewrite length_map; [|lia].
    replace (length ys + i * length ys + j - length ys)%nat
      with (i * length ys + j)%nat by lia.
    by apply IH.
Qed.

Lemma flat_map_length {A B C} (f : A -> B -> C) (xs : list A) (ys : list B) :
  length (flat_map (fun x => map (f x) ys) xs) = (length xs * length ys)%nat.
Proof.
  induction xs as [|a xs IH]; simpl; [done|].
  by rewrite length_app, length_map, IH.
Qed.

Lemma filter_all {A} (p : A -> bool) (l : list A) :
  Forall (fun x => p x = true) l -> List.filter p l = l.
Proof. induction 1 as [|x l Hx _ IH]; simpl; [done|]. by rewrite Hx, IH. Qed.

Lemma filter_none {A} (p : A -> bool) (l : list A) :
  Forall (fun x => p x = false) l -> List.filter p l = [].
Proof. induction 1 as [|x l Hx _ IH]; simpl; [done|]. by rewrite Hx. Qed.

Lemma Forall_map_Ok {A B} (f : A -> result B) (P : B -> Prop) xs vs :
  map f xs = map Ok vs -> (forall x v, f x = Ok v -> P v) -> Forall P vs.
Proof.
  revert vs. induction xs as [|x xs IH]; intros [|v vs]; simpl; try done.
  intros [= Hx H] HP. constructor; eauto.
Qed.

Lemma Forall_flat_map_Ok {A B C} (f : A -> B -> result C) (P : C -> Prop) xs ys vs :
  flat_map (fun x => map (f x) ys) xs = map Ok vs ->
  (forall x y v, f x y = Ok v -> P v) -> Forall P vs.
Proof.
  revert vs. induction xs as [|x xs IH]; intros vs; simpl.
  - by destruct vs.
  - intros H HP. apply map_Ok_app_inv in H as (va & vb & -> & Ha & Hb).
    apply Forall_app. split; [|by eauto].
    eapply Forall_map_Ok; [exact Ha|]. eauto.
Qed.

Lemma Forall_kind (p q : element -> bool) l :
  (forall e, p e = true -> q e = false) ->
  Forall (fun e => p e = true) l -> Forall (fun e => q e = false) l.
Proof. intros Hpq Hl. eapply Forall_impl; [exact Hl|]. simpl. auto. Qed.

Lemma circles_of_parts e1 e2 ws rls cls :
  is_rect e1 = true -> is_rect e2 = true ->
  Forall (fun e => is_circle e = true) ws ->
  Forall (fun e => is_text e = true) rls ->
  Forall (fun e => is_text e = true) cls ->
  List.filter is_circle ([e1; e2] ++ ws ++ rls ++ cls) = ws.
Proof.
  intros H1 H2 Hw Hr Hc. rewrite !List.filter_app.
  rewrite (filter_all _ ws Hw).
  rewrite (filter_none _ rls), (filter_none _ cls), !app_nil_r.
  - by destruct e1, e2.
  - eapply Forall_kind; [|exact Hc]. by intros [].
  - eapply Forall_kind; [|exact Hr]. by intros [].
Qed.

Lemma rects_of_parts e1 e2 ws rls cls :
  is_rect e1 = true -> is_rect e2 = true ->
  Forall (fun e => is_circle e = true) ws ->
  Forall (fun e => is_text e = true) rls ->
  Forall (fun e => is_text e = true) cls ->
  List.filter is_rect ([e1; e2] ++ ws ++ rls ++ cls) = [e1; e2].
Proof.
  intros H1 H2 Hw Hr Hc. rewrite !List.filter_app.
  rewrite (filter_none _ ws), (filter_none _ rls), (filter_none _ cls).
  - simpl. by rewrite H1, H2.
  - eapply Forall_kind; [|exact Hc]. by intros [].
  - eapply Forall_kind; [|exact Hr]. by intros [].
  - eapply Forall_kind; [|exact Hw]. by intros [].
Qed.

Lemma texts_of_parts e1 e2 ws rls cls :
  is_rect e1 = true -> is_rect e2 = true ->
  Forall (fun e => is_circle e = true) ws ->
  Forall (fun e => is_text e = true) rls ->
  Forall (fun e => is_text e = true) cls ->
  List.filter is_text ([e1; e2] ++ ws ++ rls ++ cls) = rls ++ cls.
Proof.
  intros H1 H2 Hw Hr Hc. rewrite !List.filter_app.
  rewrite (filter_none _ ws), (filter_all _ rls Hr), (filter_all _ cls Hc).
  - by destruct e1, e2.
  - eapply Forall_kind; [|exact Hw]. by intros [].
Qed.

Lemma map_const_replicate {A B} (y : B) (xs : list A) :
  map (fun _ => y) xs = replicate (length xs) y.
Proof. induction xs as [|x xs IH]; simpl; [done|]. by rewrite IH. Qed.

Lemma getitem_replicate {A} (x : A) n i :
  0 <= i < Z.of_nat n -> getitem (replicate n x) i = Ok x.
Proof.
  intros Hi. unfold getitem. destruct (Z.ltb_spec i 0); [lia|].
  destruct (Z.ltb_spec i 0); [lia|].
  rewrite lookup_replicate_2; [done|lia].
Qed.

(** ** When an element is drawn *)

Ltac inv_ok :=
  repeat match goal with
  | H : Ok _ = Ok _ |- _ => injection H as H; subst
  | H : Raise _ = Ok _ |- _ => discriminate H
  | H : context [match ?r with Ok _ => _ | Raise _ => _ end] |- _ =>
      let E := fresh "E" in destruct r eqn:E; cbn [bind result_monad] in H
  end.

Ltac use_ok :=
  cbn [bind result_monad];
  repeat match goal with
  | H : ?a = Ok _ |- context [?a] => rewrite H; cbn [bind result_monad]
  end.

Section Elements.
Variable repr_float : float -> pystr.

Lemma inner_edge_Ok self e :
  inner_edge self = Ok e <->
  exists ic w hh rx,
    py_add (_margin self) (_edges_distance self) = Ok ic /\
    (t <- py_mul (PyInt 2) (_edges_distance self);; py_sub (_plate_length self) t) = Ok w /\
    (t <- py_mul (PyInt 2) (_edges_distance self);; py_sub (_plate_width self) t) = Ok hh /\
    py_sub (_edge_corner_radius self) (_edges_distance self) = Ok rx /\
    e = Rect (ic, ic) (w, hh) rx (_edge_thickness self) (lit "black") (lit "white").
Proof.
  unfold inner_edge. split.
  - intros H. cbn [bind result_monad] in H. inv_ok.
    eexists _, _, _, _. repeat split; use_ok; reflexivity.
  - intros (ic & w & hh & rx & -> & Hw & Hh & -> & ->).
    cbn [bind result_monad] in *.
    destruct (py_mul (PyInt 2) (_edges_distance self)); [|done].
    by rewrite Hw, Hh.
Qed.

Lemma well_Ok h self row col e :
  well h self row col = Ok e <->
  exists cx cy r fill,
    (t <- py_mul (PyInt col) (_well_separation self);; py_add (_left_x self) t) = Ok cx /\
    (t <- py_mul (PyInt row) (_well_separation self);; py_add (_top_y self) t) = Ok cy /\
    py_truediv (_well_diameter self) 2 = Ok r /\
    subscript2 h (_fill_matrix self) row col = Ok fill /\
    e = Circle (cx, cy) r (_barrier_thickness self) (lit "black") fill.
Proof.
  unfold well. split.
  - intros H. cbn [bind result_monad] in H. inv_ok.
    eexists _, _, _, _. repeat split; use_ok; reflexivity.
  - intros (cx & cy & r & fill & Hx & Hy & -> & -> & ->).
    cbn [bind result_monad] in *. by rewrite Hx, Hy.
Qed.

Lemma row_label_Ok self row e :
  row_label self row = Ok e <->
  exists text x y,
    chr (row + 65) = Ok text /\
    (t <- py_mul (PyFloat (-0.75)) (_well_separation self);; py_add t (_left_x self)) = Ok x /\
    (t <- py_mul (PyInt row) (_well_separation self);;
     u <- py_add t (_top_y self);;
     v <- py_truediv (_label_font_size self) 8;;
     py_add u v) = Ok y /\
    e = Text text (x, y) (lit "middle") (_label_font_size self) (lit "middle") (lit "Futura").
Proof.
  unfold row_label. split.
  - intros H. cbn [bind result_monad] in H. inv_ok.
    eexists _, _, _. repeat split; use_ok; reflexivity.
  - intros (text & x & y & -> & Hx & Hy & ->).
    cbn [bind result_monad] in *. by rewrite Hx, Hy.
Qed.

Lemma col_label_Ok self col e :
  col_label repr_float self col = Ok e <->
  exists x y,
    (t <- py_mul (PyInt col) (_well_separation self);; py_add t (_left_x self)) = Ok x /\
    (t <- py_mul (PyFloat (-0.55)) (_well_separation self);;
     u <- py_add t (_top_y self);;
     v <- py_truediv (_label_font_size self) 8;;
     py_sub u v) = Ok y /\
    e = Text (str repr_float (PyInt (col + 1))) (x, y) (lit "middle")
          (_label_font_size self) (lit "middle") (lit "Futura").
Proof.
  unfold col_label. split.
  - intros H. cbn [bind result_monad] in H. inv_ok.
    eexists _, _. repeat split; use_ok; reflexivity.
  - intros (x & y & Hx & Hy & ->).
    cbn [bind result_monad] in *. by rewrite Hx, Hy.
Qed.

(** A successful drawing splits into its four parts. *)
Lemma plate_elements_Ok h self vs :
  plate_elements repr_float h self = map Ok vs <->
  exists e2 ws rls cls,
    vs = [outer_edge self; e2] ++ ws ++ rls ++ cls /\
    inner_edge self = Ok e2 /\
    wells h self = map Ok ws /\
    row_labels self = map Ok rls /\
    col_labels repr_float self = map Ok cls.
Proof.
  unfold plate_elements, edges. split.
  - intros H.
    apply map_Ok_app_inv in H as (ve & v1 & -> & He & H).
    apply map_Ok_app_inv in H as (ws & v2 & -> & Hw & H).
    apply map_Ok_app_inv in H as (rls & cls & -> & Hr & Hc).
    destruct ve as [|e1 [|e2 [|]]]; try done. simpl in He.
    injection He as <- He. by exists e2, ws, rls, cls.
  - intros (e2 & ws & rls & cls & -> & -> & -> & -> & ->).
    by rewrite !map_app.
Qed.

Lemma wells_circles h1 self ws :
  wells h1 self = map Ok ws -> Forall (fun e => is_circle e = true) ws.
Proof.
  intros H. eapply Forall_flat_map_Ok; [exact H|].
  intros row col v Hv. apply well_Ok in Hv as (? & ? & ? & ? & _ & _ & _ & _ & ->). done.
Qed.

Lemma row_labels_texts self rls :
  row_labels self = map Ok rls -> Forall (fun e => is_text e = true) rls.
Proof.
  intros H. eapply Forall_map_Ok; [exact H|].
  intros row v Hv. apply row_label_Ok in Hv as (? & ? & ? & _ & _ & _ & ->). done.
Qed.

Lemma col_labels_texts self cls :
  col_labels repr_float self = map Ok cls -> Forall (fun e => is_text e = true) cls.
Proof.
  intros H. eapply Forall_map_Ok; [exact H|].
  intros col v Hv. apply col_label_Ok in Hv as (? & ? & _ & _ & ->). done.
Qed.

End Elements.

Lemma geometry_Ok plate_length plate_width margin left_padding top_padding top_y left_x vw vh :
  geometry plate_length plate_width margin left_padding top_padding = Ok (top_y, left_x, vw, vh) <->
  py_add margin top_padding = Ok top_y /\
  py_add margin left_padding = Ok left_x /\
  (t <- py_mul (PyInt 2) margin;; py_add plate_length t) = Ok vw /\
  (t <- py_mul (PyInt 2) margin;; py_add plate_width t) = Ok vh.
Proof.
  unfold geometry. split.
  - intros H. cbn [bind result_monad] in H. inv_ok. repeat split; use_ok; reflexivity.
  - intros (-> & -> & Hw & Hh). cbn [bind result_monad] in *. by rewrite Hw, Hh.
Qed.

Lemma chr_Ok i text : chr i = Ok text -> text = [Z.to_N i] /\ 0 <= i < 1114112.
Proof.
  unfold chr. destruct (0 <=? i) eqn:H0, (i <? 1114112) eqn:H1; simpl; try done.
  intros [= <-]. split; [done|lia].
Qed.

(** ** Identities of binary64 arithmetic *)

Section SpecFloat.
Variables prec emax : Z.

Lemma SFadd_comm x y : SFadd prec emax x y = SFadd prec emax y x.
Proof.
  destruct x as [[]|[]| |sx mx ex], y as [[]|[]| |sy my ey]; try reflexivity.
  simpl. by rewrite Z.min_comm, Z.add_comm.
Qed.

Lemma cond_Zopp_negb s m : cond_Zopp (negb s) m = - cond_Zopp s m.
Proof. destruct s; simpl; lia. Qed.

Lemma SFsub_add_opp x y :
  SFsub prec emax x y = SFadd prec emax x (SFopp y).
Proof.
  destruct x as [[]|[]| |sx mx ex], y as [[]|[]| |sy my ey]; try reflexivity.
  simpl. rewrite cond_Zopp_negb. f_equal.
Qed.

Lemma binary_round_aux_negb s m e l :
  binary_round_aux prec emax (negb s) m e l = SFopp (binary_round_aux prec emax s m e l).
Proof.
  unfold binary_round_aux.
  destruct (shr_fexp prec emax m e l) as [mrs' e'].
  destruct (shr_fexp prec emax _ e' loc_Exact) as [mrs'' e''].
  destruct (shr_m mrs''); try reflexivity.
  by destruct (e'' <=? emax - prec).
Qed.

Lemma SFmul_opp_l x y :
  SFmul prec emax (SFopp x) y = SFopp (SFmul prec emax x y).
Proof.
  destruct x as [sx|sx| |sx mx ex], y as [sy|sy| |sy my ey]; simpl; try reflexivity;
    try (by destruct sx, sy).
  rewrite <- binary_round_aux_negb. by destruct sx, sy.
Qed.

End SpecFloat.

Lemma float_add_comm (x y : float) : (x + y = y + x)%float.
Proof.
  apply Prim2SF_inj. rewrite !add_spec. apply SFadd_comm.
Qed.

Lemma float_sub_add_opp (x y : float) : (x - y = x + - y)%float.
Proof.
  apply Prim2SF_inj. rewrite sub_spec, add_spec, opp_spec. apply SFsub_add_opp.
Qed.

Lemma float_mul_opp_l (x y : float) : (- x * y = - (x * y))%float.
Proof.
  apply Prim2SF_inj. rewrite mul_spec, !opp_spec, mul_spec. apply SFmul_opp_l.
Qed.

(** [-a * s + x] is [x - a * s]. *)
Lemma float_neg_mul_add (a s x : float) : (- a * s + x = x - a * s)%float.
Proof.
  by rewrite float_sub_add_opp, float_mul_opp_l, float_add_comm.
Qed.

(** The same identities for Python numbers. *)
Lemma py_add_comm a b : py_add a b = py_add b a.
Proof.
  unfold py_add, arith. destruct a as [x|x], b as [y|y]; cbn [bind result_monad to_float].
  - by rewrite Z.add_comm.
  - destruct (float_of_int x); [|done]. by rewrite float_add_comm.
  - destruct (float_of_int y); [|done]. by rewrite float_add_comm.
  - by rewrite float_add_comm.
Qed.

Lemma py_neg_mul_add (a : float) (s x : number) :
  (t <- py_mul (PyFloat (- a)) s;; py_add t x)
  = (t <- py_mul (PyFloat a) s;; py_sub x t).
Proof.
  unfold py_mul, py_add, py_sub, arith. cbn [bind result_monad to_float].
  destruct (to_float s) as [fs|e]; cbn [bind result_monad to_float]; [|done].
  destruct x as [z|fx]; cbn [bind result_monad to_float].
  - destruct (float_of_int z); [|done]. by rewrite float_neg_mul_add.
  - by rewrite float_neg_mul_add.
Qed.

Lemma py_neg_mul_add_k {B} (a : float) (s x : number) (k : number -> result B) :
  (t <- py_mul (PyFloat (- a)) s;; u <- py_add t x;; k u)
  = (t <- py_mul (PyFloat a) s;; u <- py_sub x t;; k u).
Proof.
  unfold py_mul, py_add, py_sub, arith. cbn [bind result_monad to_float].
  destruct (to_float s) as [fs|e]; cbn [bind result_monad to_float]; [|done].
  destruct x as [z|fx]; cbn [bind result_monad to_float].
  - destruct (float_of_int z); [|done]. cbn [bind result_monad]. by rewrite float_neg_mul_add.
  - by rewrite float_neg_mul_add.
Qed.

(** ** The heap: allocation and deep copy *)

Lemma matrix_at_Some h m M :
  matrix_at h m = Some M <->
  exists rs, matrices h !! m = Some rs /\
             Forall2 (fun r cells => rowlists h !! r = Some cells) rs M.
Proof.
  unfold matrix_at. destruct (matrices h !! m) as [rs|].
  - rewrite mapM_Some. split; [eauto|]. by intros (? & [= <-] & ?).
  - split; [done|]. by intros (? & ? & _).
Qed.

Lemma getitem_Forall2 {A B} (P : A -> B -> Prop) (l : list A) (k : list B) i :
  Forall2 P l k ->
  match getitem l i, getitem k i with
  | Ok a, Ok b => P a b
  | Raise e1, Raise e2 => e1 = e2
  | _, _ => False
  end.
Proof.
  intros H. unfold getitem. rewrite <- (Forall2_length _ _ _ H).
  destruct (_ <? 0); [done|].
  set (j := Z.to_nat _). destruct (l !! j) as [a|] eqn:Ha.
  - destruct (Forall2_lookup_l _ _ _ _ _ H Ha) as (b & -> & Hab). done.
  - apply lookup_ge_None in Ha. rewrite (Forall2_length _ _ _ H) in Ha.
    apply lookup_ge_None in Ha. by rewrite Ha.
Qed.

Lemma subscript2_matrix h m M row col :
  matrix_at h m = Some M -> subscript2 h m row col = matrix_get M row col.
Proof.
  intros (rs & Hm & Hrs)%matrix_at_Some. unfold subscript2, matrix_get. rewrite Hm.
  pose proof (getitem_Forall2 _ _ _ row Hrs) as H.
  destruct (getitem rs row) as [r|e], (getitem M row) as [cells|e']; try done.
  - cbn [bind result_monad]. by rewrite H.
  - by subst.
Qed.

Lemma extends_refl h : extends h h.
Proof. by split. Qed.

Lemma extends_trans h1 h2 h3 : extends h1 h2 -> extends h2 h3 -> extends h1 h3.
Proof. intros [] []. split; by etrans. Qed.

Lemma alloc_row_spec cells h r h' :
  alloc_row cells h = (r, h') ->
  (r ∉ dom (rowlists h)) /\ rowlists h' !! r = Some cells /\
  matrices h' = matrices h /\ extends h h'.
Proof.
  unfold alloc_row. intros [= <- <-]. simpl.
  pose proof (is_fresh (dom (rowlists h))) as Hf.
  split; [done|]. split; [by rewrite lookup_insert_eq|]. split; [done|].
  split; simpl; [done|]. apply insert_subseteq. by apply not_elem_of_dom.
Qed.

Lemma alloc_matrix_spec rs h m h' :
  alloc_matrix rs h = (m, h') ->
  (m ∉ dom (matrices h)) /\ matrices h' !! m = Some rs /\
  rowlists h' = rowlists h /\ extends h h'.
Proof.
  unfold alloc_matrix. intros [= <- <-]. simpl.
  pose proof (is_fresh (dom (matrices h))) as Hf.
  split; [done|]. split; [by rewrite lookup_insert_eq|]. split; [done|].
  split; simpl; [|done]. apply insert_subseteq. by apply not_elem_of_dom.
Qed.

Lemma alloc_rows_spec {A} (js : list A) cells h rs h' :
  alloc_rows js cells h = (rs, h') ->
  Forall2 (fun r c => rowlists h' !! r = Some c) rs (replicate (length js) cells) /\
  matrices h' = matrices h /\ extends h h'.
Proof.
  revert h rs h'. induction js as [|j js IH]; intros h rs h'; cbn [alloc_rows length replicate].
  - intros [= <- <-]. split; [constructor|]. split; [done|apply extends_refl].
  - destruct (alloc_row cells h) as [r h1] eqn:Hr.
    destruct (alloc_rows js cells h1) as [rs' h2] eqn:Hrs. 
    intros [= <- <-].
    apply alloc_row_spec in Hr as (_ & Hr & Hm1 & He1).
    apply IH in Hrs as (Hrs & Hm2 & He2).
    split; [|split; [congruence|by eapply extends_trans]].
    constructor; [|done]. eapply lookup_weaken; [exact Hr|apply He2].
Qed.

Lemma broadcast_spec s n_rows n_cols h m h' :
  broadcast s n_rows n_cols h = (m, h') ->
  matrix_at h' m = Some (replicate (Z.to_nat n_rows) (replicate (Z.to_nat n_cols) s)) /\
  extends h h'.
Proof.
  unfold broadcast. destruct (alloc_rows _ _ h) as [rs h1] eqn:Hrs. intros Hm.
  apply alloc_rows_spec in Hrs as (Hrs & _ & He1).
  apply alloc_matrix_spec in Hm as (_ & Hm & Hr & He2).
  split; [|by eapply extends_trans].
  apply matrix_at_Some. exists rs. split; [done|]. rewrite Hr.
  rewrite map_const_replicate in Hrs.
  unfold range in Hrs. by rewrite !length_map, !length_seq in Hrs.
Qed.

Lemma memo_ok_extends h0 h h' memo :
  memo_ok h0 h memo -> extends h h' -> memo_ok h0 h' memo.
Proof.
  intros Hm He r r' Hr. destruct (Hm r r' Hr) as (cells & ? & ? & ?).
  exists cells. repeat split; try done.
  eapply lookup_weaken; [done|apply He].
Qed.

Lemma deepcopy_row_spec h0 memo h r cells r' memo' h' :
  rowlists h0 !! r = Some cells ->
  extends h0 h -> memo_ok h0 h memo ->
  deepcopy_row memo h r = (r', memo', h') ->
  rowlists h' !! r' = Some cells /\ (r' ∉ dom (rowlists h0)) /\
  matrices h' = matrices h /\ extends h h' /\ memo_ok h0 h' memo'.
Proof.
  intros Hr He Hm. unfold deepcopy_row.
  destruct (memo !! r) as [r1|] eqn:Hmemo.
  - intros [= <- <- <-]. destruct (Hm r r1 Hmemo) as (cells' & Hc & ? & ?).
    assert (cells' = cells) as -> by congruence.
    repeat split; try done; apply extends_refl.
  - assert (Hhr : rowlists h !! r = Some cells)
      by (eapply lookup_weaken; [exact Hr|apply He]).
    rewrite Hhr. destruct (alloc_row cells h) as [r1 h1] eqn:Ha.
    intros [= <- <- <-].
    apply alloc_row_spec in Ha as (Hfresh & Hr1 & Hmat & He1).
    assert (Hnew : r1 ∉ dom (rowlists h0)).
    { intros Hin. apply Hfresh. apply elem_of_dom in Hin as [c Hc].
      apply elem_of_dom. exists c. eapply lookup_weaken; [exact Hc|apply He]. }
    repeat split; try done; try apply He1.
    intros q q'. rewrite lookup_insert. case_decide as Hq.
    + intros [= <-]. subst q. by exists cells.
    + intros Hq'. by apply (memo_ok_extends h0 h h1 memo Hm He1).
Qed.

Lemma deepcopy_rows_spec h0 rs M :
  Forall2 (fun r cells => rowlists h0 !! r = Some cells) rs M ->
  forall memo h rs' memo' h',
  extends h0 h -> memo_ok h0 h memo ->
  deepcopy_rows memo h rs = (rs', memo', h') ->
  Forall2 (fun r' cells => rowlists h' !! r' = Some cells) rs' M /\
  Forall (fun r' => r' ∉ dom (rowlists h0)) rs' /\
  matrices h' = matrices h /\ extends h h' /\ memo_ok h0 h' memo'.
Proof.
  induction 1 as [|r cells rs M Hr HrsM IH]; intros memo h rs' memo' h' He Hm;
    cbn [deepcopy_rows].
  - intros [= <- <- <-]. repeat split; try done; try constructor; apply extends_refl.
  - destruct (deepcopy_row memo h r) as [[r1 memo1] h1] eqn:H1.
    destruct (deepcopy_rows memo1 h1 rs) as [[rs2 memo2] h2] eqn:H2.
    intros [= <- <- <-].
    apply (deepcopy_row_spec h0 _ _ _ cells) in H1 as (Hr1 & Hn1 & Hm1 & He1 & Hmemo1);
      try done.
    apply IH in H2 as (Hrs2 & Hn2 & Hm2 & He2 & Hmemo2);
      [|by eapply extends_trans|done].
    repeat split; try done.
    + constructor; [|done]. eapply lookup_weaken; [exact Hr1|apply He2].
    + by constructor.
    + congruence.
    + eapply extends_trans; [exact He1|exact He2].
    + apply (extends_trans _ _ _ He1 He2).
Qed.

(** A deep copy denotes the same matrix, in objects that did not exist
    before, and leaves the objects that existed as they were. *)
Lemma deepcopy_spec h m M m' h' :
  matrix_at h m = Some M ->
  deepcopy h m = (m', h') ->
  matrix_at h' m' = Some M /\ extends h h' /\
  forall h2, changes_only h h' h2 -> matrix_at h2 m' = Some M.
Proof.
  intros (rs & Hm & Hrs)%matrix_at_Some. unfold deepcopy. rewrite Hm.
  destruct (deepcopy_rows ∅ h rs) as [[rs' memo'] h1] eqn:Hd.
  intros Ha.
  apply (deepcopy_rows_spec h _ _ Hrs) in Hd as (Hrs' & Hnew & Hmat & He1 & _);
    [|apply extends_refl|intros ? ? Hc; by rewrite lookup_empty in Hc].
  apply alloc_matrix_spec in Ha as (Hfresh & Hm' & Hrow & He2).
  rewrite Hmat in Hfresh.
  split; [|split; [by eapply extends_trans|]].
  - apply matrix_at_Some. exists rs'. split; [done|]. by rewrite Hrow.
  - intros h2 [Hcm Hcr]. apply matrix_at_Some. exists rs'. split.
    + by rewrite Hcm.
    + clear Hm' Hrs. revert Hnew.
      induction Hrs' as [|r' cells rs' M Hr' _ IH]; intros Hnew; [constructor|].
      apply Forall_cons in Hnew as [Hn Hnew]. constructor; [|by apply IH].
      rewrite Hcr by done. by rewrite Hrow.
Qed.

(** ** Arithmetic within the bounds *)

Lemma bound_limit : 1 <= bound /\ bound * bound + 3 * bound < float_limit.
Proof. split; [apply Z.leb_le|apply Z.ltb_lt]; vm_compute; reflexivity. Qed.

Lemma to_float_small K n :
  small K n -> K < float_limit -> exists f, to_float n = Ok f.
Proof.
  destruct n as [z|f]; simpl; [|eauto]. intros Hz HK. unfold float_of_int.
  fold float_limit. destruct (Z.ltb_spec (Z.abs z) float_limit); [eauto|lia].
Qed.

Lemma small_weaken K K' n : small K n -> K <= K' -> small K' n.
Proof. destruct n; simpl; [lia|done]. Qed.

Lemma arith_small iop fop Ka Kb Kc a b :
  small Ka a -> small Kb b -> Ka < float_limit -> Kb < float_limit ->
  (forall x y, Z.abs x <= Ka -> Z.abs y <= Kb -> Z.abs (iop x y) <= Kc) ->
  exists c, arith iop fop a b = Ok c /\ small Kc c.
Proof.
  intros Ha Hb HKa HKb Hop.
  destruct (to_float_small _ _ Ha HKa) as [fa Hfa].
  destruct (to_float_small _ _ Hb HKb) as [fb Hfb].
  unfold arith. destruct a as [x|x], b as [y|y]; simpl in *.
  - eexists. split; [done|]. simpl. auto.
  - rewrite Hfa. by eexists.
  - rewrite Hfb. by eexists.
  - by eexists.
Qed.

Lemma py_add_small Ka Kb a b :
  small Ka a -> small Kb b -> Ka < float_limit -> Kb < float_limit ->
  exists c, py_add a b = Ok c /\ small (Ka + Kb) c.
Proof. intros. eapply arith_small; eauto. intros; lia. Qed.

Lemma py_sub_small Ka Kb a b :
  small Ka a -> small Kb b -> Ka < float_limit -> Kb < float_limit ->
  exists c, py_sub a b = Ok c /\ small (Ka + Kb) c.
Proof. intros. eapply arith_small; eauto. intros; lia. Qed.

Lemma py_mul_small Ka Kb a b :
  small Ka a -> small Kb b -> Ka < float_limit -> Kb < float_limit ->
  exists c, py_mul a b = Ok c /\ small (Ka * Kb) c.
Proof.
  intros. eapply arith_small; eauto. intros x y Hx Hy.
  rewrite Z.abs_mul. apply Z.mul_le_mono_nonneg; lia.
Qed.

Lemma py_truediv_small K a (d : float) :
  small K a -> K < float_limit -> PrimFloat.eqb d 0 = false ->
  exists c, py_truediv a d = Ok c.
Proof.
  intros Ha HK Hd. destruct (to_float_small _ _ Ha HK) as [fa Hfa].
  unfold py_truediv. rewrite Hfa. cbn [bind result_monad]. rewrite Hd. eauto.
Qed.

Ltac bound_lia := pose proof bound_limit; simpl; nia.

Ltac ok_step p :=
  let c := fresh "c" in
  let Hc := fresh "Hc" in
  let Hs := fresh "Hs" in
  destruct p as (c & Hc & Hs); [try done; try bound_lia..|];
  rewrite Hc; cbn [bind result_monad].

Ltac ok_div p :=
  let c := fresh "c" in
  let Hc := fresh "Hc" in
  destruct p as (c & Hc); [try done; try bound_lia..|];
  rewrite Hc; cbn [bind result_monad].

Lemma geometry_ok plate_length plate_width margin left_padding top_padding :
  modest plate_length -> modest plate_width -> modest margin ->
  modest left_padding -> modest top_padding ->
  exists top_y left_x vw vh,
    geometry plate_length plate_width margin left_padding top_padding
      = Ok (top_y, left_x, vw, vh) /\
    small (2 * bound) top_y /\ small (2 * bound) left_x.
Proof.
  unfold modest. intros Hl Hw Hm Hlp Htp. unfold geometry. cbn [bind result_monad].
  ok_step (py_add_small bound bound margin top_padding).
  ok_step (py_add_small bound bound margin left_padding).
  ok_step (py_mul_small 2 bound (PyInt 2) margin).
  ok_step (py_add_small bound (2 * bound) plate_length c1).
  ok_step (py_add_small bound (2 * bound) plate_width c1).
  eexists _, _, _, _. split; [done|]. split; eapply small_weaken; eauto; lia.
Qed.

Lemma inner_edge_ok self :
  modest (_margin self) -> modest (_edges_distance self) ->
  modest (_plate_length self) -> modest (_plate_width self) ->
  modest (_edge_corner_radius self) ->
  exists e, inner_edge self = Ok e.
Proof.
  unfold modest. intros Hm Hd Hl Hw Hr. unfold inner_edge. cbn [bind result_monad].
  ok_step (py_add_small bound bound (_margin self) (_edges_distance self)).
  ok_step (py_mul_small 2 bound (PyInt 2) (_edges_distance self)).
  ok_step (py_sub_small bound (2 * bound) (_plate_length self) c0).
  ok_step (py_sub_small bound (2 * bound) (_plate_width self) c0).
  ok_step (py_sub_small bound bound (_edge_corner_radius self) (_edges_distance self)).
  eauto.
Qed.

Lemma well_ok h self row col :
  modest (_well_separation self) -> modest (_well_diameter self) ->
  small (2 * bound) (_left_x self) -> small (2 * bound) (_top_y self) ->
  0 <= row <= bound -> 0 <= col <= bound ->
  is_ok (subscript2 h (_fill_matrix self) row col) = true ->
  exists e, well h self row col = Ok e.
Proof.
  unfold modest. intros Hs Hd Hx Hy Hrow Hcol Hfill. unfold well. cbn [bind result_monad].
  ok_step (py_mul_small bound bound (PyInt col) (_well_separation self)).
  ok_step (py_add_small (2 * bound) (bound * bound) (_left_x self) c).
  ok_step (py_mul_small bound bound (PyInt row) (_well_separation self)).
  ok_step (py_add_small (2 * bound) (bound * bound) (_top_y self) c1).
  ok_div (py_truediv_small bound (_well_diameter self) 2).
  destruct (subscript2 _ _ _ _); [|done]. eauto.
Qed.

(** Under the bounds, the only step of a well that can fail is the lookup of
    its fill. *)
Lemma well_ok_but_fill h self row col :
  modest (_well_separation self) -> modest (_well_diameter self) ->
  small (2 * bound) (_left_x self) -> small (2 * bound) (_top_y self) ->
  0 <= row <= bound -> 0 <= col <= bound ->
  exists cx cy r,
    well h self row col =
      (fill <- subscript2 h (_fill_matrix self) row col;;
       Ok (Circle (cx, cy) r (_barrier_thickness self) (lit "black") fill)).
Proof.
  unfold modest. intros Hs Hd Hx Hy Hrow Hcol. unfold well. cbn [bind result_monad].
  ok_step (py_mul_small bound bound (PyInt col) (_well_separation self)).
  ok_step (py_add_small (2 * bound) (bound * bound) (_left_x self) c).
  ok_step (py_mul_small bound bound (PyInt row) (_well_separation self)).
  ok_step (py_add_small (2 * bound) (bound * bound) (_top_y self) c1).
  ok_div (py_truediv_small bound (_well_diameter self) 2).
  by eexists _, _, _.
Qed.

Lemma row_label_ok self row :
  modest (_well_separation self) -> modest (_label_font_size self) ->
  small (2 * bound) (_left_x self) -> small (2 * bound) (_top_y self) ->
  0 <= row < 1114047 ->
  exists e, row_label self row = Ok e.
Proof.
  unfold modest. intros Hs Hf Hx Hy Hrow. unfold row_label.
  assert (Hb : 1114047 <= bound) by (apply Z.leb_le; vm_compute; reflexivity).
  assert (Hchr : chr (row + 65) = Ok [Z.to_N (row + 65)]).
  { unfold chr. destruct (Z.leb_spec 0 (row + 65)); [|lia].
    destruct (Z.ltb_spec (row + 65) 1114112); [done|lia]. }
  rewrite Hchr. cbn [bind result_monad].
  ok_step (py_mul_small 0 bound (PyFloat (-0.75)) (_well_separation self)).
  ok_step (py_add_small (0 * bound) (2 * bound) c (_left_x self)).
  ok_step (py_mul_small bound bound (PyInt row) (_well_separation self)).
  ok_step (py_add_small (bound * bound) (2 * bound) c1 (_top_y self)).
  ok_div (py_truediv_small bound (_label_font_size self) 8).
  assert (small 0 c3).
  { unfold py_truediv in Hc3. destruct (to_float _); [|done].
    cbn [bind result_monad] in Hc3. destruct (PrimFloat.eqb 8 0); [done|].
    by injection Hc3 as <-. }
  ok_step (py_add_small (bound * bound + 2 * bound) 0 c2 c3).
  eauto.
Qed.

Lemma col_label_ok repr_float self col :
  modest (_well_separation self) -> modest (_label_font_size self) ->
  small (2 * bound) (_left_x self) -> small (2 * bound) (_top_y self) ->
  0 <= col <= bound ->
  exists e, col_label repr_float self col = Ok e.
Proof.
  unfold modest. intros Hs Hf Hx Hy Hcol. unfold col_label. cbn [bind result_monad].
  ok_step (py_mul_small bound bound (PyInt col) (_well_separation self)).
  ok_step (py_add_small (bound * bound) (2 * bound) c (_left_x self)).
  ok_step (py_mul_small 0 bound (PyFloat (-0.55)) (_well_separation self)).
  ok_step (py_add_small (0 * bound) (2 * bound) c1 (_top_y self)).
  ok_div (py_truediv_small bound (_label_font_size self) 8).
  assert (small 0 c3).
  { unfold py_truediv in Hc3. destruct (to_float _); [|done].
    cbn [bind result_monad] in Hc3. destruct (PrimFloat.eqb 8 0); [done|].
    by injection Hc3 as <-. }
  ok_step (py_sub_small (0 * bound + 2 * bound) 0 c2 c3).
  eauto.
Qed.

(** ** Which exceptions are raised *)

Lemma to_float_raise n e : to_float n = Raise e -> e = OverflowError.
Proof.
  destruct n as [z|f]; simpl; [|done]. unfold float_of_int.
  destruct (_ <? _); [done|]. by intros [= <-].
Qed.

Lemma arith_raise iop fop a b e : arith iop fop a b = Raise e -> e = OverflowError.
Proof.
  unfold arith. destruct a as [x|x], b as [y|y]; cbn [bind result_monad to_float]; try done.
  - destruct (float_of_int x) eqn:E; [done|]. intros [= <-].
    by apply (to_float_raise (PyInt x)).
  - destruct (float_of_int y) eqn:E; [done|]. intros [= <-].
    by apply (to_float_raise (PyInt y)).
Qed.

Lemma py_truediv_raise a d e :
  py_truediv a d = Raise e -> e = OverflowError \/ e = ZeroDivisionError.
Proof.
  unfold py_truediv. destruct (to_float a) eqn:E; cbn [bind result_monad].
  - destruct (PrimFloat.eqb d 0); [|done]. intros [= <-]. by right.
  - intros [= <-]. left. by eapply to_float_raise.
Qed.

Lemma chr_raise i e : chr i = Raise e -> e = ValueError.
Proof. unfold chr. destruct (_ && _); [done|]. by intros [= <-]. Qed.

Lemma getitem_raise {A} (l : list A) i e : getitem l i = Raise e -> e = IndexError.
Proof.
  unfold getitem. destruct (_ <? 0); [by intros [= <-]|].
  destruct (l !! _); [done|]. by intros [= <-].
Qed.

Lemma matrix_get_raise M row col e : matrix_get M row col = Raise e -> e = IndexError.
Proof.
  unfold matrix_get. destruct (getitem M row) eqn:E; cbn [bind result_monad].
  - apply getitem_raise.
  - intros [= <-]. by eapply getitem_raise.
Qed.

Lemma subscript2_raise h m row col e :
  subscript2 h m row col = Raise e -> e = IndexError \/ e = TypeError.
Proof.
  unfold subscript2. destruct (matrices h !! m); [|intros [= <-]; by right].
  destruct (getitem l row) eqn:E; cbn [bind result_monad].
  - destruct (rowlists h !! a); [|intros [= <-]; by right].
    intros H. left. by eapply getitem_raise.
  - intros [= <-]. left. by eapply getitem_raise.
Qed.

(** Splits a failing sequence of binds at the step that raised. *)
Ltac raise_cases :=
  repeat match goal with
  | H : Raise _ = Raise _ |- _ => injection H as H; subst
  | H : Ok _ = Raise _ |- _ => discriminate H
  | H : context [match ?r with Ok _ => _ | Raise _ => _ end] |- _ =>
      let E := fresh "E" in destruct r eqn:E; cbn [bind result_monad] in H
  end.

Ltac python_exn_tac :=
  unfold python_exn;
  repeat match goal with
  | H : py_add _ _ = Raise _ |- _ => apply arith_raise in H
  | H : py_sub _ _ = Raise _ |- _ => apply arith_raise in H
  | H : py_mul _ _ = Raise _ |- _ => apply arith_raise in H
  | H : py_truediv _ _ = Raise _ |- _ => apply py_truediv_raise in H
  | H : chr _ = Raise _ |- _ => apply chr_raise in H
  | H : subscript2 _ _ _ _ = Raise _ |- _ => apply subscript2_raise in H
  end; intuition (subst; auto).

Lemma geometry_raise pl pw m lp tp e :
  geometry pl pw m lp tp = Raise e -> python_exn e.
Proof.
  unfold geometry. cbn [bind result_monad]. intros H. raise_cases; python_exn_tac.
Qed.

Lemma inner_edge_raise self e : inner_edge self = Raise e -> python_exn e.
Proof.
  unfold inner_edge. cbn [bind result_monad]. intros H. raise_cases; python_exn_tac.
Qed.

Lemma well_raise h self row col e : well h self row col = Raise e -> python_exn e.
Proof.
  unfold well. cbn [bind result_monad]. intros H. raise_cases; python_exn_tac.
Qed.

Lemma row_label_raise self row e : row_label self row = Raise e -> python_exn e.
Proof.
  unfold row_label. cbn [bind result_monad]. intros H. raise_cases; python_exn_tac.
Qed.

Lemma col_label_raise rf self col e : col_label rf self col = Raise e -> python_exn e.
Proof.
  unfold col_label. cbn [bind result_monad]. intros H. raise_cases; python_exn_tac.
Qed.

Lemma plate_elements_raise rf h self e :
  In (Raise e) (plate_elements rf h self) -> python_exn e.
Proof.
  unfold plate_elements, edges, wells, row_labels, col_labels.
  rewrite !in_app_iff, in_flat_map. simpl.
  intros [[?|[?|[]]]|[(row & _ & Hr)|[Hr|Hr]]]; try done.
  - by eapply inner_edge_raise.
  - apply in_map_iff in Hr as (col & Hr & _). by eapply well_raise.
  - apply in_map_iff in Hr as (row & Hr & _). by eapply row_label_raise.
  - apply in_map_iff in Hr as (col & Hr & _). by eapply col_label_raise.
Qed.

(** ** The constructor *)

Section Construction.
Variable repr_float : float -> pystr.
Variables n_rows n_cols : Z.
Variables plate_length plate_width barrier_thickness well_diameter
  well_separation margin left_padding top_padding edge_corner_radius
  edge_thickness edges_distance label_font_size : number.
Variable well_fill : fill_arg.
Variable h : heap.

Local Abbreviation init :=
  (__init__ repr_float n_rows n_cols plate_length plate_width barrier_thickness
     well_diameter well_separation margin left_padding top_padding
     edge_corner_radius edge_thickness edges_distance label_font_size well_fill h).
Local Abbreviation the_fill_step := (fill_step n_rows n_cols well_fill h).
Local Abbreviation the_geometry :=
  (geometry plate_length plate_width margin left_padding top_padding).
Local Abbreviation the_plate :=
  (plate n_rows n_cols plate_length plate_width barrier_thickness
     well_diameter well_separation margin edge_corner_radius edge_thickness
     edges_distance label_font_size well_fill h).

(** The constructor, step by step. *)
Lemma init_unfold :
  init
  = match the_geometry with
    | Raise e => Failed e None (snd the_fill_step)
    | Ok (top_y, left_x, vw, vh) =>
        let self := the_plate top_y left_x in
        let out := emitted (plate_elements repr_float (snd the_fill_step) self) in
        match snd out with
        | None =>
            Constructed self (extend (blank repr_float vw vh) (fst out))
                        (snd the_fill_step)
        | Some e =>
            Failed e (Some (extend (blank repr_float vw vh) (fst out)))
                   (snd the_fill_step)
        end
    end.
Proof.
  unfold __init__. fold the_fill_step. destruct the_fill_step as [fm h1] eqn:Hfs.
  fold the_geometry. destruct the_geometry as [[[[top_y left_x] vw] vh]|e]; [|done].
  cbn zeta. rewrite draw_plate_emit, emit_run.
  unfold plate. rewrite Hfs. cbn [fst snd].
  fold (blank repr_float vw vh).
  by destruct (snd (emitted _)).
Qed.

(** A plate is constructed exactly when the geometry and every element
    evaluate. *)
Lemma init_Constructed self svg h1 :
  init = Constructed self svg h1 <->
  exists top_y left_x vw vh vs,
    the_geometry = Ok (top_y, left_x, vw, vh) /\
    self = the_plate top_y left_x /\
    h1 = snd the_fill_step /\
    plate_elements repr_float h1 self = map Ok vs /\
    svg = extend (blank repr_float vw vh) vs.
Proof.
  rewrite init_unfold. split.
  - destruct the_geometry as [[[[top_y left_x] vw] vh]|e]; [|done]. cbn zeta.
    destruct (emitted _) as [vs [e|]] eqn:Hem; cbn [fst snd]; [done|].
    intros [= <- <- <-]. apply emitted_None in Hem.
    by exists top_y, left_x, vw, vh, vs.
  - intros (top_y & left_x & vw & vh & vs & -> & -> & -> & Hvs & ->). cbn zeta.
    apply emitted_None in Hvs. by rewrite Hvs.
Qed.

(** The parts of a constructed plate's drawing. *)
Lemma init_parts self svg h1 :
  init = Constructed self svg h1 ->
  exists top_y left_x vw vh e2 ws rls cls,
    the_geometry = Ok (top_y, left_x, vw, vh) /\
    self = the_plate top_y left_x /\
    h1 = snd the_fill_step /\
    svg = extend (blank repr_float vw vh) ([outer_edge self; e2] ++ ws ++ rls ++ cls) /\
    inner_edge self = Ok e2 /\
    wells h1 self = map Ok ws /\
    row_labels self = map Ok rls /\
    col_labels repr_float self = map Ok cls.
Proof.
  intros H. apply init_Constructed in H
    as (top_y & left_x & vw & vh & vs & Hg & Hs & Hh & Hvs & ->).
  apply plate_elements_Ok in Hvs as (e2 & ws & rls & cls & -> & ? & ? & ? & ?).
  by exists top_y, left_x, vw, vh, e2, ws, rls, cls.
Qed.

(** Every part of a constructed plate's drawing, by kind. *)
Lemma init_kinds self svg h1 :
  init = Constructed self svg h1 ->
  exists top_y left_x vw vh e2 ws rls cls,
    geometry plate_length plate_width margin left_padding top_padding
      = Ok (top_y, left_x, vw, vh) /\
    self = plate n_rows n_cols plate_length plate_width barrier_thickness
             well_diameter well_separation margin edge_corner_radius edge_thickness
             edges_distance label_font_size well_fill h top_y left_x /\
    svg = extend (blank repr_float vw vh) ([outer_edge self; e2] ++ ws ++ rls ++ cls) /\
    inner_edge self = Ok e2 /\
    wells h1 self = map Ok ws /\
    row_labels self = map Ok rls /\
    col_labels repr_float self = map Ok cls /\
    List.filter is_rect (elements svg) = [outer_edge self; e2] /\
    List.filter is_circle (elements svg) = ws /\
    List.filter is_text (elements svg) = rls ++ cls.
Proof.
  intros H. apply init_parts in H
    as (top_y & left_x & vw & vh & e2 & ws & rls & cls & Hg & Hs & Hh & -> & He & Hw & Hr & Hc).
  exists top_y, left_x, vw, vh, e2, ws, rls, cls.
  assert (is_rect e2 = true).
  { apply inner_edge_Ok in He as (? & ? & ? & ? & _ & _ & _ & _ & ->). done. }
  pose proof (wells_circles _ _ _ Hw). pose proof (row_labels_texts _ _ Hr).
  pose proof (col_labels_texts _ _ _ Hc).
  assert (Hel : forall vs, elements (extend (blank repr_float vw vh) vs) = vs) by done.
  repeat split; try done; rewrite Hel.
  - by apply rects_of_parts.
  - by apply circles_of_parts.
  - by apply texts_of_parts.
Qed.

Lemma init_fill_step self svg h1 :
  init = Constructed self svg h1 ->
  fill_step n_rows n_cols well_fill h = (_fill_matrix self, h1).
Proof.
  intros H. apply init_Constructed in H
    as (top_y & left_x & vw & vh & vs & _ & -> & -> & _).
  simpl. by destruct (fill_step _ _ _ _).
Qed.

(** The label of a row of a constructed plate. *)
Lemma row_label_lookup self svg h1 r :
  init = Constructed self svg h1 -> 0 <= r < n_rows ->
  exists e, List.filter is_text (elements svg) !! Z.to_nat r = Some e /\
            row_label self r = Ok e.
Proof.
  intros H Hr. apply init_kinds in H
    as (top_y & left_x & vw & vh & e2 & ws & rls & cls & _ & Hs & -> & _ & _ & Hrl & _ & _ & _ & Htexts).
  rewrite Htexts. unfold row_labels in Hrl.
  replace (_n_rows self) with n_rows in Hrl by (by subst self).
  destruct (map_Ok_lookup _ _ _ _ _ Hrl (range_lookup _ _ Hr)) as (v & Hv & Hlab).
  exists v. split; [|done]. rewrite lookup_app_l; [done|]. by eapply lookup_lt_Some.
Qed.

(** [chr] bounds the number of rows of a plate. *)
Lemma init_rows_limit self svg h1 :
  init = Constructed self svg h1 -> n_rows <= 1114047.
Proof.
  intros H. destruct (Z.le_gt_cases n_rows 1114047) as [|Hgt]; [done|].
  destruct (row_label_lookup _ _ _ 1114047 H) as (e & _ & He); [lia|].
  apply row_label_Ok in He as (text & _ & _ & Hchr & _).
  apply chr_Ok in Hchr as [_ ?]. lia.
Qed.

Lemma init_raises_python e svg h1 : init = Failed e svg h1 -> python_exn e.
Proof.
  rewrite init_unfold.
  destruct (geometry _ _ _ _ _) as [[[[top_y left_x] vw] vh]|e'] eqn:Hg.
  - cbn zeta. destruct (snd (emitted _)) as [e'|] eqn:Hem; [|done].
    intros [= <- _ _]. apply emitted_Some in Hem. by eapply plate_elements_raise.
  - intros [= <- _ _]. by eapply geometry_raise.
Qed.

Lemma fill_step_covers fm h1 row col :
  fill_covers h well_fill n_rows n_cols ->
  fill_step n_rows n_cols well_fill h = (fm, h1) ->
  0 <= row < n_rows -> 0 <= col < n_cols ->
  is_ok (subscript2 h1 fm row col) = true.
Proof.
  unfold fill_covers, fill_step. intros Hc Hfs Hrow Hcol.
  destruct well_fill as [s|m].
  - apply broadcast_spec in Hfs as [Hm _].
    rewrite (subscript2_matrix _ _ _ _ _ Hm). unfold matrix_get.
    rewrite getitem_replicate by lia. cbn [bind result_monad].
    by rewrite getitem_replicate by lia.
  - destruct Hc as (M & HM & Hget).
    destruct (deepcopy_spec _ _ _ _ _ HM Hfs) as (Hm & _).
    rewrite (subscript2_matrix _ _ _ _ _ Hm). by apply Hget.
Qed.

(** Construction succeeds on arguments of ordinary size. *)
Theorem init_succeeds :
  modest plate_length -> modest plate_width -> modest well_diameter ->
  modest well_separation -> modest margin -> modest left_padding ->
  modest top_padding -> modest edge_corner_radius -> modest edges_distance ->
  modest label_font_size ->
  n_rows <= 1114047 -> n_cols <= bound ->
  fill_covers h well_fill n_rows n_cols ->
  exists self svg h1, init = Constructed self svg h1.
Proof.
  intros Hpl Hpw Hwd Hws Hm Hlp Htp Hecr Hed Hfs Hnr Hnc Hfill.
  destruct (geometry_ok plate_length plate_width margin left_padding top_padding)
    as (top_y & left_x & vw & vh & Hg & Hty & Hlx); try done.
  destruct (fill_step n_rows n_cols well_fill h) as [fm h1] eqn:Hstep.
  set (self := plate n_rows n_cols plate_length plate_width barrier_thickness
                 well_diameter well_separation margin edge_corner_radius
                 edge_thickness edges_distance label_font_size well_fill h
                 top_y left_x).
  assert (Hb : 1114047 <= bound) by (apply Z.leb_le; vm_compute; reflexivity).
  destruct (all_Ok (plate_elements repr_float h1 self)) as [vs Hvs].
  { intros r. unfold plate_elements, edges, wells, row_labels, col_labels.
    rewrite !in_app_iff, in_flat_map. simpl.
    intros [[<-|[<-|[]]]|[(row & Hrow & Hr)|[Hr|Hr]]].
    - eauto.
    - by apply inner_edge_ok.
    - apply in_map_iff in Hr as (col & <- & Hcol).
      apply In_range in Hrow, Hcol. apply well_ok; try done; try lia.
      simpl. rewrite Hstep. simpl. by eapply fill_step_covers.
    - apply in_map_iff in Hr as (row & <- & Hrow). apply In_range in Hrow.
      apply row_label_ok; try done; lia.
    - apply in_map_iff in Hr as (col & <- & Hcol). apply In_range in Hcol.
      apply col_label_ok; try done; lia. }
  exists self, (extend (blank repr_float vw vh) vs), h1.
  apply init_Constructed. exists top_y, left_x, vw, vh, vs.
  rewrite Hstep. by repeat split.
Qed.

(** A matrix with a missing entry: the constructor fails on [IndexError]
    while it draws the wells, after the two edges. *)
Lemma init_missing_entry m M :
  modest plate_length -> modest plate_width -> modest well_diameter ->
  modest well_separation -> modest margin -> modest left_padding ->
  modest top_padding -> modest edge_corner_radius -> modest edges_distance ->
  n_rows <= bound -> n_cols <= bound ->
  well_fill = FillRef m -> matrix_at h m = Some M ->
  (exists row col, 0 <= row < n_rows /\ 0 <= col < n_cols /\
                   is_ok (matrix_get M row col) = false) ->
  exists d h1 outer inner rest,
    init = Failed IndexError (Some d) h1 /\
    elements d = outer :: inner :: rest /\
    is_rect outer = true /\ is_rect inner = true.
Proof.
  intros Hpl Hpw Hwd Hws Hm Hlp Htp Hecr Hed Hnr Hnc Hwf HM (row0 & col0 & Hr0 & Hc0 & Hmiss).
  destruct (geometry_ok plate_length plate_width margin left_padding top_padding)
    as (top_y & left_x & vw & vh & Hg & Hty & Hlx); try done.
  destruct (fill_step n_rows n_cols well_fill h) as [fm h1] eqn:Hstep.
  assert (Hfm : matrix_at h1 fm = Some M).
  { unfold fill_step in Hstep. rewrite Hwf in Hstep.
    by destruct (deepcopy_spec _ _ _ _ _ HM Hstep) as (? & _). }
  set (self := plate n_rows n_cols plate_length plate_width barrier_thickness
                 well_diameter well_separation margin edge_corner_radius
                 edge_thickness edges_distance label_font_size well_fill h
                 top_y left_x).
  assert (Hself : _fill_matrix self = fm) by (simpl; by rewrite Hstep).
  destruct (inner_edge_ok self) as [e2 He2]; try done.
  assert (Hwells : snd (emitted (wells h1 self)) = Some IndexError).
  { apply emitted_first.
    - intros r. unfold wells. rewrite in_flat_map. intros (row & Hrow & Hr).
      apply in_map_iff in Hr as (col & <- & Hcol). apply In_range in Hrow, Hcol.
      simpl in Hrow, Hcol.
      destruct (is_ok (subscript2 h1 (_fill_matrix self) row col)) eqn:Hok.
      + left. destruct (well_ok h1 self row col) as [e ->]; try done; lia.
      + right. destruct (well h1 self row col) as [e|ex] eqn:Hw.
        * apply well_Ok in Hw as (? & ? & ? & ? & _ & _ & _ & Hsub & _).
          by rewrite Hsub in Hok.
        * f_equal. rewrite Hself, (subscript2_matrix _ _ _ _ _ Hfm) in Hok.
          destruct (matrix_get M row col) as [?|ex'] eqn:Hget; [done|].
          pose proof (matrix_get_raise _ _ _ _ Hget) as ->.
          destruct (well_ok_but_fill h1 self row col) as (cx & cy & r & Hwell); try done; try lia.
          rewrite Hwell, Hself, (subscript2_matrix _ _ _ _ _ Hfm), Hget in Hw.
          cbn [bind result_monad] in Hw. by injection Hw as <-.
    - exists (well h1 self row0 col0). split.
      + unfold wells. apply in_flat_map. exists row0. split; [by apply In_range|].
        apply in_map_iff. exists col0. split; [done|by apply In_range].
      + destruct (well h1 self row0 col0) as [e|] eqn:Hw; [|done].
        apply well_Ok in Hw as (? & ? & ? & ? & _ & _ & _ & Hsub & _).
        rewrite Hself, (subscript2_matrix _ _ _ _ _ Hfm) in Hsub.
        by rewrite Hsub in Hmiss. }
  exists (extend (blank repr_float vw vh)
            ([outer_edge self; e2] ++ fst (emitted (wells h1 self)))), h1,
         (outer_edge self), e2, (fst (emitted (wells h1 self))).
  split; [|split; [done|split; [done|]]].
  - rewrite init_unfold, Hg. cbn zeta. rewrite Hstep. cbn [snd].
    fold self. unfold plate_elements, edges. rewrite He2.
    change [Ok (outer_edge self); Ok e2] with (map Ok [outer_edge self; e2]).
    rewrite emitted_app_Ok, (emitted_app_raise _ _ _ Hwells). done.
  - apply inner_edge_Ok in He2 as (? & ? & ? & ? & _ & _ & _ & _ & ->). done.
Qed.

(** ** The claims about the constructor *)

(** C1.  For every construction with [n_rows > 0] and [n_cols > 0] the
    drawing holds exactly [n_rows * n_cols] circles, and the circle of grid
    position [(row, col)], which is the circle of index [row * n_cols + col],
    is centred at [(left_x + col * well_separation, top_y + row *
    well_separation)] where [left_x = margin + left_padding] and [top_y =
    margin + top_padding]; its radius is [well_diameter / 2], its stroke
    width [barrier_thickness], its stroke black and its fill
    [fill_matrix[row][col]]. *)
Theorem wells_grid self svg h1 :
  0 < n_rows -> 0 < n_cols ->
  init = Constructed self svg h1 ->
  length (List.filter is_circle (elements svg)) = Z.to_nat (n_rows * n_cols) /\
  exists left_x top_y r,
    py_add margin left_padding = Ok left_x /\
    py_add margin top_padding = Ok top_y /\
    py_truediv well_diameter 2 = Ok r /\
    forall row col, 0 <= row < n_rows -> 0 <= col < n_cols ->
      exists cx cy fill,
        (t <- py_mul (PyInt col) well_separation;; py_add left_x t) = Ok cx /\
        (t <- py_mul (PyInt row) well_separation;; py_add top_y t) = Ok cy /\
        subscript2 h1 (_fill_matrix self) row col = Ok fill /\
        List.filter is_circle (elements svg) !! Z.to_nat (row * n_cols + col) =
          Some (Circle (cx, cy) r barrier_thickness (lit "black") fill).
Proof.
  intros Hrows Hcols H. apply init_kinds in H
    as (top_y & left_x & vw & vh & e2 & ws & rls & cls & Hg & Hs & -> & _ & Hw & _ & _ & _ & Hcirc & _).
  rewrite Hcirc. clear Hcirc.
  apply geometry_Ok in Hg as (Hty & Hlx & _ & _).
  unfold wells in Hw.
  assert (Hn : _n_rows self = n_rows /\ _n_cols self = n_cols) by (by subst self).
  destruct Hn as [Hnr Hnc]. rewrite Hnr, Hnc in Hw.
  assert (Hat : forall row col, 0 <= row < n_rows -> 0 <= col < n_cols ->
            exists v, ws !! Z.to_nat (row * n_cols + col) = Some v /\
                      well h1 self row col = Ok v).
  { intros row col Hr Hc.
    pose proof (flat_map_lookup (well h1 self) (range n_rows) (range n_cols)
                  _ _ _ _ (range_lookup _ _ Hr) (range_lookup _ _ Hc)) as Hl.
    rewrite range_length in Hl.
    replace (Z.to_nat row * Z.to_nat n_cols + Z.to_nat col)%nat
      with (Z.to_nat (row * n_cols + col)) in Hl by nia.
    destruct (Ok_lookup _ _ _ _ Hw Hl) as (v & Hv & Hwv). eauto. }
  split.
  - apply (f_equal length) in Hw.
    rewrite flat_map_length, !range_length, length_map in Hw. lia.
  - destruct (Hat 0 0) as (v0 & _ & Hv0); [lia..|].
    apply well_Ok in Hv0 as (_ & _ & r & _ & _ & _ & Hr & _).
    exists left_x, top_y, r. rewrite Hs in Hr. simpl in Hr.
    repeat split; try done.
    intros row col Hrow Hcol. destruct (Hat row col Hrow Hcol) as (v & Hv & Hwv).
    apply well_Ok in Hwv as (cx & cy & r' & fill & Hcx & Hcy & Hr' & Hfill & ->).
    rewrite Hs in Hcx, Hcy, Hr'. simpl in Hcx, Hcy, Hr'.
    assert (r' = r) as -> by congruence.
    exists cx, cy, fill. repeat split; try done.
    rewrite Hv. by rewrite Hs.
Qed.

(** C3.  For every construction, the label of row [r] is the one-character
    string [chr(65 + r)], a centred text at [(left_x - 0.75 *
    well_separation, top_y + r * well_separation + font_size / 8)], and the
    label of column [c] is [str(c + 1)], a centred text at [(left_x + c *
    well_separation, top_y - 0.55 * well_separation - font_size / 8)]; both
    have the font size [label_font_size].  The row labels are the first
    [n_rows] texts of the drawing and the column labels the next [n_cols]. *)
Theorem labels_placed self svg h1 :
  init = Constructed self svg h1 ->
  exists left_x top_y,
    py_add margin left_padding = Ok left_x /\
    py_add margin top_padding = Ok top_y /\
    (forall r, 0 <= r < n_rows ->
       exists text x y,
         chr (65 + r) = Ok text /\ length text = 1%nat /\
         (t <- py_mul (PyFloat 0.75) well_separation;; py_sub left_x t) = Ok x /\
         (t <- py_mul (PyInt r) well_separation;;
          u <- py_add top_y t;;
          v <- py_truediv label_font_size 8;;
          py_add u v) = Ok y /\
         List.filter is_text (elements svg) !! Z.to_nat r =
           Some (Text text (x, y) (lit "middle") label_font_size
                      (lit "middle") (lit "Futura"))) /\
    (forall c, 0 <= c < n_cols ->
       exists x y,
         (t <- py_mul (PyInt c) well_separation;; py_add left_x t) = Ok x /\
         (t <- py_mul (PyFloat 0.55) well_separation;;
          u <- py_sub top_y t;;
          v <- py_truediv label_font_size 8;;
          py_sub u v) = Ok y /\
         List.filter is_text (elements svg) !! (Z.to_nat n_rows + Z.to_nat c)%nat =
           Some (Text (str_int (c + 1)) (x, y) (lit "middle") label_font_size
                      (lit "middle") (lit "Futura"))).
Proof.
  intros H. apply init_kinds in H
    as (top_y & left_x & vw & vh & e2 & ws & rls & cls & Hg & Hs & -> & _ & _ & Hr & Hc & _ & _ & Htexts).
  rewrite Htexts. clear Htexts.
  apply geometry_Ok in Hg as (Hty & Hlx & _ & _).
  assert (Hn : _n_rows self = n_rows /\ _n_cols self = n_cols) by (by subst self).
  destruct Hn as [Hnr Hnc].
  unfold row_labels in Hr. unfold col_labels in Hc. rewrite Hnr in Hr. rewrite Hnc in Hc.
  exists left_x, top_y. split; [done|]. split; [done|]. split.
  - intros r Hrange.
    destruct (map_Ok_lookup _ _ _ _ _ Hr (range_lookup _ _ Hrange)) as (v & Hv & Hlab).
    apply row_label_Ok in Hlab as (text & x & y & Hchr & Hx & Hy & ->).
    rewrite Hs in Hx, Hy. cbn [_well_separation _left_x _top_y _label_font_size plate] in Hx, Hy.
    exists text, x, y. rewrite (Z.add_comm 65 r). split; [done|].
    split; [by apply chr_Ok in Hchr as [-> _]|].
    split.
    { rewrite <- Hx. symmetry.
      change (-0.75)%float with (- (0.75))%float. apply py_neg_mul_add. }
    split.
    { rewrite <- Hy. destruct (py_mul (PyInt r) well_separation); [|done].
      cbn [bind result_monad]. by rewrite py_add_comm. }
    rewrite lookup_app_l.
    + rewrite Hv. by rewrite Hs.
    + by eapply lookup_lt_Some.
  - intros c Hrange.
    destruct (map_Ok_lookup _ _ _ _ _ Hc (range_lookup _ _ Hrange)) as (v & Hv & Hlab).
    apply col_label_Ok in Hlab as (x & y & Hx & Hy & ->).
    rewrite Hs in Hx, Hy. cbn [_well_separation _left_x _top_y _label_font_size plate] in Hx, Hy.
    exists x, y. split.
    { rewrite <- Hx. destruct (py_mul (PyInt c) well_separation); [|done].
      cbn [bind result_monad]. by rewrite py_add_comm. }
    split.
    { rewrite <- Hy. symmetry.
      change (-0.55)%float with (- (0.55))%float. apply py_neg_mul_add_k. }
    rewrite lookup_app_r; rewrite (map_Ok_length _ _ _ Hr), range_length; [|lia].
    replace (Z.to_nat n_rows + Z.to_nat c - Z.to_nat n_rows)%nat with (Z.to_nat c) by lia.
    rewrite Hv. by rewrite Hs.
Qed.

(** C4, as amended.  The constructor validates nothing and never fails with
    [InvalidLayoutError].  On arguments of ordinary size: a fill that has an
    entry for every well is accepted, whatever else the matrix holds and
    also when [n_rows] or [n_cols] is not positive; a matrix that lacks the
    entry of some well makes the constructor fail with [IndexError], raised
    while the wells are drawn, when the two edge rectangles are already in
    the drawing, and no plate is returned. *)
Theorem no_layout_validation :
  modest plate_length -> modest plate_width -> modest well_diameter ->
  modest well_separation -> modest margin -> modest left_padding ->
  modest top_padding -> modest edge_corner_radius -> modest edges_distance ->
  modest label_font_size ->
  n_rows <= 1114047 -> n_cols <= bound ->
  (forall e svg h1, init = Failed e svg h1 -> e <> InvalidLayoutError) /\
  (fill_covers h well_fill n_rows n_cols ->
     exists self svg h1, init = Constructed self svg h1) /\
  (forall m M,
     well_fill = FillRef m -> matrix_at h m = Some M ->
     (exists row col, 0 <= row < n_rows /\ 0 <= col < n_cols /\
                      is_ok (matrix_get M row col) = false) ->
     exists d h1 outer inner rest,
       init = Failed IndexError (Some d) h1 /\
       elements d = outer :: inner :: rest /\
       is_rect outer = true /\ is_rect inner = true).
Proof.
  intros Hpl Hpw Hwd Hws Hm Hlp Htp Hecr Hed Hfs Hnr Hnc. split; [|split].
  - intros e svg h1 H ->. apply init_raises_python in H.
    unfold python_exn in H. intuition discriminate.
  - intros Hfill. by apply init_succeeds.
  - intros m M Hwf HM Hmiss.
    assert (Hb : 1114047 <= bound) by (apply Z.leb_le; vm_compute; reflexivity).
    eapply init_missing_entry; eauto. lia.
Qed.

(** C5.  For every construction the drawing holds exactly two rectangles: the
    outer edge at [(margin, margin)] of size [(plate_length, plate_width)]
    with corner radius [edge_corner_radius], stroke width [edge_thickness],
    white fill and black stroke, then the inner edge at [(margin +
    edges_distance, margin + edges_distance)] of size [(plate_length - 2 *
    edges_distance, plate_width - 2 * edges_distance)] with corner radius
    [edge_corner_radius - edges_distance]. *)
Theorem edges_two_rectangles self svg h1 :
  init = Constructed self svg h1 ->
  exists inner_x inner_w inner_h inner_rx,
    py_add margin edges_distance = Ok inner_x /\
    (t <- py_mul (PyInt 2) edges_distance;; py_sub plate_length t) = Ok inner_w /\
    (t <- py_mul (PyInt 2) edges_distance;; py_sub plate_width t) = Ok inner_h /\
    py_sub edge_corner_radius edges_distance = Ok inner_rx /\
    List.filter is_rect (elements svg) =
      [ Rect (margin, margin) (plate_length, plate_width) edge_corner_radius
             edge_thickness (lit "black") (lit "white");
        Rect (inner_x, inner_x) (inner_w, inner_h) inner_rx
             edge_thickness (lit "black") (lit "white") ].
Proof.
  intros H. apply init_kinds in H
    as (top_y & left_x & vw & vh & e2 & ws & rls & cls & Hg & Hs & -> & He & _ & _ & _ & Hrects & _).
  apply inner_edge_Ok in He as (ic & w & hh & rx & Hic & Hw & Hh & Hrx & ->).
  rewrite Hs in Hic, Hw, Hh, Hrx. simpl in Hic, Hw, Hh, Hrx.
  exists ic, w, hh, rx. repeat split; try done.
  rewrite Hrects. by rewrite Hs.
Qed.

(** C6.  For every construction the size of the drawing is [(plate_length +
    2 * margin, plate_width + 2 * margin)] in millimetres, and the view box
    is that wide and that high from the origin, so that one user unit is one
    millimetre; [n_rows] and [n_cols] play no part. *)
Theorem viewport_size self svg h1 :
  init = Constructed self svg h1 ->
  exists width height,
    (t <- py_mul (PyInt 2) margin;; py_add plate_length t) = Ok width /\
    (t <- py_mul (PyInt 2) margin;; py_add plate_width t) = Ok height /\
    size svg = (str repr_float width ++ lit "mm", str repr_float height ++ lit "mm") /\
    viewBox svg = Some (PyInt 0, PyInt 0, width, height).
Proof.
  intros H. apply init_kinds in H
    as (top_y & left_x & vw & vh & e2 & ws & rls & cls & Hg & Hs & -> & _).
  apply geometry_Ok in Hg as (_ & _ & Hw & Hh).
  by exists vw, vh.
Qed.

(** C7.  When [well_fill] is one colour, the fill matrix of the plate is the
    [n_rows] by [n_cols] matrix of that colour.  When [well_fill] is a matrix
    the fill matrix of the plate equals it, the caller's matrix is still what
    it was, and whatever is done afterwards to the objects that existed
    before the call changes neither the fill matrix of the plate nor any of
    its entries.  (The fills of the circles already drawn are strings held
    by the drawing.) *)
Theorem fill_matrix_owned self svg h1 :
  init = Constructed self svg h1 ->
  (forall s, well_fill = FillStr s ->
     matrix_at h1 (_fill_matrix self) =
       Some (replicate (Z.to_nat n_rows) (replicate (Z.to_nat n_cols) s))) /\
  (forall m M, well_fill = FillRef m -> matrix_at h m = Some M ->
     matrix_at h1 (_fill_matrix self) = Some M /\
     matrix_at h1 m = Some M /\
     forall h2, changes_only h h1 h2 ->
       matrix_at h2 (_fill_matrix self) = Some M /\
       forall row col,
         subscript2 h2 (_fill_matrix self) row col =
         subscript2 h1 (_fill_matrix self) row col).
Proof.
  intros H. apply init_fill_step in H. unfold fill_step in H. split.
  - intros s ->. by apply broadcast_spec in H as [? _].
  - intros m M -> HM. destruct (deepcopy_spec _ _ _ _ _ HM H) as (Hc1 & He & Hc2).
    split; [done|]. split.
    { apply matrix_at_Some in HM as (rs & Hm & Hrs). apply matrix_at_Some.
      exists rs. split; [eapply lookup_weaken; [exact Hm|apply He]|].
      eapply Forall2_impl; [exact Hrs|]. intros r cells Hr. simpl in *.
      eapply lookup_weaken; [exact Hr|apply He]. }
    intros h2 Hch. split; [by apply Hc2|].
    intros row col. rewrite (subscript2_matrix _ _ M), (subscript2_matrix _ _ M); auto.
Qed.

(** C9.  For every construction the elements of the drawing are, in order:
    the two edge rectangles, the well circles row after row and column after
    column within a row, the row labels, the column labels. *)
Theorem drawing_order self svg h1 :
  init = Constructed self svg h1 ->
  exists outer inner ws rls cls,
    elements svg = [outer; inner] ++ ws ++ rls ++ cls /\
    outer = outer_edge self /\ inner_edge self = Ok inner /\
    map Ok ws =
      flat_map (fun row => map (fun col => well h1 self row col) (range n_cols))
               (range n_rows) /\
    map Ok rls = map (fun row => row_label self row) (range n_rows) /\
    map Ok cls = map (fun col => col_label repr_float self col) (range n_cols) /\
    is_rect outer = true /\ is_rect inner = true /\
    Forall (fun e => is_circle e = true) ws /\
    Forall (fun e => is_text e = true) (rls ++ cls).
Proof.
  intros H. apply init_parts in H
    as (top_y & left_x & vw & vh & e2 & ws & rls & cls & Hg & Hs & Hh & -> & He & Hw & Hr & Hc).
  exists (outer_edge self), e2, ws, rls, cls.
  assert (Hn : _n_rows self = n_rows /\ _n_cols self = n_cols) by (by subst self).
  destruct Hn as [Hnr Hnc].
  unfold wells, row_labels, col_labels in *. rewrite Hnr, Hnc in *.
  repeat split; try done.
  - apply inner_edge_Ok in He as (? & ? & ? & ? & _ & _ & _ & _ & ->). done.
  - eapply wells_circles. unfold wells. rewrite Hnr, Hnc. exact Hw.
  - apply Forall_app. split.
    + eapply row_labels_texts. unfold row_labels. rewrite Hnr. exact Hr.
    + eapply col_labels_texts. unfold col_labels. rewrite Hnc. exact Hc.
Qed.

(** C10, as amended.  With more than 26 rows, on arguments of ordinary size:
    up to 1114047 rows the construction succeeds, and the label of a row [r >=
    26] is the one-character string [chr(r + 65)], a code point past ['Z'],
    neither wrapped nor doubled; from 1114048 rows on no plate is
    constructed, because [chr] rejects [1114047 + 65]. *)
Theorem rows_beyond_Z :
  26 < n_rows ->
  modest plate_length -> modest plate_width -> modest well_diameter ->
  modest well_separation -> modest margin -> modest left_padding ->
  modest top_padding -> modest edge_corner_radius -> modest edges_distance ->
  modest label_font_size ->
  n_cols <= bound ->
  fill_covers h well_fill n_rows n_cols ->
  (n_rows <= 1114047 ->
     exists self svg h1,
       init = Constructed self svg h1 /\
       forall r, 26 <= r < n_rows ->
         exists x y,
           chr (r + 65) = Ok [Z.to_N (r + 65)] /\
           90 < r + 65 /\
           List.filter is_text (elements svg) !! Z.to_nat r =
             Some (Text [Z.to_N (r + 65)] (x, y) (lit "middle") label_font_size
                        (lit "middle") (lit "Futura"))) /\
  (1114047 < n_rows -> forall self svg h1, init <> Constructed self svg h1).
Proof.
  intros Hrows Hpl Hpw Hwd Hws Hm Hlp Htp Hecr Hed Hfs Hnc Hfill. split.
  - intros Hmax.
    destruct init_succeeds as (self & svg & h1 & Hinit); try done.
    exists self, svg, h1. split; [done|]. intros r Hr.
    destruct (row_label_lookup _ _ _ r Hinit) as (e & He & Hlab); [lia|].
    apply row_label_Ok in Hlab as (text & x & y & Hchr & _ & _ & ->).
    pose proof (chr_Ok _ _ Hchr) as [-> _].
    exists x, y. split; [done|]. split; [lia|]. rewrite He.
    apply init_Constructed in Hinit as (? & ? & ? & ? & ? & _ & -> & _). done.
  - intros Hmax self svg h1 Hinit. apply init_rows_limit in Hinit. lia.
Qed.

End Construction.

(** ** The presets *)

Section Presets.
Variable repr_float : float -> pystr.

Local Abbreviation plate96 :=
  (Plate96 repr_float (PyFloat 0.5) (PyInt 6) (PyInt 5)
     default_edge_thickness default_edge_distance default_well_fill empty_heap).
Local Abbreviation plate384 :=
  (Plate384 repr_float (PyFloat 0.5) (PyInt 6) (PyInt 5)
     default_edge_thickness default_edge_distance default_well_fill empty_heap).

(** C2, as amended.  [Plate96(0.5, 6, 5)] has 8 rows, 12 columns, length
    127.76, width 85.48 and separation 9, the origin of its grid is [(5 +
    14.38, 5 + 11.24)], and in binary64 well A1 is centred at
    [(19.380000000000003, 16.240000000000002)] and well H12 at [(118.38,
    79.24000000000001)].  [Plate384(0.5, 6, 5)] has 16 rows, 24 columns and
    separation 4.5, with well A1 centred at [(17.7, 13.99)]. *)
Theorem presets_layout :
  (exists self svg h1,
     plate96 = Constructed self svg h1 /\
     _n_rows self = 8 /\ _n_cols self = 12 /\
     _plate_length self = PyFloat 127.76 /\ _plate_width self = PyFloat 85.48 /\
     _well_separation self = PyInt 9 /\
     py_add (PyInt 5) (PyFloat 14.38) = Ok (_left_x self) /\
     py_add (PyInt 5) (PyFloat 11.24) = Ok (_top_y self) /\
     well_center svg 12 0 0 =
       Some (PyFloat 19.380000000000003, PyFloat 16.240000000000002) /\
     well_center svg 12 7 11 =
       Some (PyFloat 118.38, PyFloat 79.24000000000001)) /\
  (exists self svg h1,
     plate384 = Constructed self svg h1 /\
     _n_rows self = 16 /\ _n_cols self = 24 /\
     _well_separation self = PyFloat 4.5 /\
     well_center svg 24 0 0 = Some (PyFloat 17.7, PyFloat 13.99)).
Proof.
  split.
  - eexists _, _, _. split; [vm_compute; reflexivity|]. repeat split.
  - eexists _, _, _. split; [vm_compute; reflexivity|]. repeat split.
Qed.

End Presets.

(** C2, counterexample: the centre of well A1 of [Plate96(0.5, 6, 5)] is not
    the pair of binary64 numbers [(19.38, 16.24)]. *)
Lemma plate96_A1_not_decimal :
  exists self svg h1 c,
    Plate96 (fun _ => []) (PyFloat 0.5) (PyInt 6) (PyInt 5)
      default_edge_thickness default_edge_distance default_well_fill empty_heap
      = Constructed self svg h1 /\
    well_center svg 12 0 0 = Some c /\
    c <> (PyFloat 19.38, PyFloat 16.24).
Proof.
  eexists _, _, _, _. split; [vm_compute; reflexivity|]. split.
  - vm_compute. reflexivity.
  - intros H.
    apply (f_equal (fun p : point =>
             match fst p with PyFloat x => Prim2SF x | PyInt _ => S754_nan end)) in H.
    vm_compute in H. discriminate H.
Qed.

(** ** Export *)

(** C8, as amended.  The export never fails with [ConversionFailedError]: it
    returns normally as soon as the directory is made and the drawing saved,
    and fails with [OSError] otherwise; the exit status of the conversion
    has no influence on the result. *)
Theorem export_ignores_exit_status (os : OS) (svg : Drawing) (pdf_file_path : pystr) :
  let file_dir := dirname os (abspath os pdf_file_path) in
  let svg_path :=
    join os file_dir (fst (splitext os (basename os pdf_file_path)) ++ lit ".svg") in
  fst (to_pdf_inkscape os svg pdf_file_path) =
    (if makedirs os file_dir && saveas os svg svg_path then Ok tt else Raise OSError) /\
  forall answer,
    fst (to_pdf_inkscape (with_system os answer) svg pdf_file_path) =
    fst (to_pdf_inkscape os svg pdf_file_path).
Proof.
  cbv zeta. unfold to_pdf_inkscape. simpl. split.
  - destruct (makedirs os _); [|done]. by destruct (saveas os svg _).
  - intros answer. destruct (makedirs os _); [|done]. by destruct (saveas os svg _).
Qed.

(** C8, counterexample: the conversion exits with status 1 and the export
    returns normally. *)
Lemma export_returns_on_failed_conversion :
  to_pdf_inkscape failing_os (new_Drawing (lit "paper-plate.svg") (lit "1mm", lit "1mm"))
                  (lit "p.pdf")
  = (Ok tt,
     [Makedirs (lit "/");
      Saveas (new_Drawing (lit "paper-plate.svg") (lit "1mm", lit "1mm")) (lit "/p.svg");
      System (lit "inkscape -f /p.svg -A /p.pdf") 1]).
Proof. vm_compute. reflexivity. Qed.

(** ** Counterexamples and instances on concrete plates *)

(** C4, counterexample: a 1 x 2 matrix for a plate of one row and one column
    is accepted. *)
Lemma mismatched_matrix_accepted :
  matrix_at heap_1x2 1%positive = Some [[lit "red"; lit "blue"]] /\
  exists self svg h1,
    __init__ (fun _ => []) 1 1 (PyFloat 127.76) (PyFloat 85.48) (PyFloat 0.5) (PyInt 6)
      (PyInt 9) (PyInt 5) (PyFloat 14.38) (PyFloat 11.24) (PyFloat 3.18)
      (PyFloat 0.75) (PyFloat 1.0) (PyInt 4) (FillRef 1%positive) heap_1x2
    = Constructed self svg h1.
Proof. split; [vm_compute; reflexivity|]. eexists _, _, _. vm_compute. reflexivity. Qed.

(** C10, counterexample: on a plate of 33 rows the label of row 32 is the
    letter [a]. *)
Lemma row_32_is_a_letter :
  exists self svg h1 e,
    __init__ (fun _ => []) 33 1 (PyFloat 127.76) (PyFloat 85.48) (PyFloat 0.5) (PyInt 6)
      (PyInt 9) (PyInt 5) (PyFloat 14.38) (PyFloat 11.24) (PyFloat 3.18)
      (PyFloat 0.75) (PyFloat 1.0) (PyInt 4) (FillStr (lit "white")) empty_heap
    = Constructed self svg h1 /\
    List.filter is_text (elements svg) !! 32%nat = Some e /\
    chr (32 + 65) = Ok (text_of e) /\
    text_of e = lit "a" /\
    forallb is_ascii_letter (text_of e) = true.
Proof.
  eexists _, _, _, _. split; [vm_compute; reflexivity|].
  split; [vm_compute; reflexivity|]. repeat split.
Qed.

Ltac modest_tac :=
  first [ exact I | apply Z.leb_le; vm_compute; reflexivity ].

(** The theorems above at [small_plate]: each hypothesis is met there. *)

Lemma wells_grid_witness :
  0 < 2 /\ 0 < 3 /\
  exists self svg h1,
    small_plate 2 3 (FillStr (lit "white")) empty_heap = Constructed self svg h1 /\
    length (List.filter is_circle (elements svg)) = 6%nat.
Proof.
  split; [lia|]. split; [lia|]. eexists _, _, _. split.
  - vm_compute. reflexivity.
  - refine (proj1 (wells_grid repr_stub 2 3 (PyFloat 127.76) (PyFloat 85.48)
      (PyFloat 0.5) (PyInt 6) (PyInt 9) (PyInt 5) (PyFloat 14.38) (PyFloat 11.24)
      (PyFloat 3.18) (PyFloat 0.75) (PyFloat 1.0) (PyInt 4) (FillStr (lit "white"))
      empty_heap _ _ _ _ _ _)); [lia|lia|vm_compute; reflexivity].
Defined.

Lemma labels_placed_witness :
  exists self svg h1,
    small_plate 2 3 (FillStr (lit "white")) empty_heap = Constructed self svg h1 /\
    (exists x y,
       List.filter is_text (elements svg) !! 1%nat =
         Some (Text (lit "B") (x, y) (lit "middle") (PyInt 4) (lit "middle") (lit "Futura"))) /\
    (exists x y,
       List.filter is_text (elements svg) !! 4%nat =
         Some (Text (lit "3") (x, y) (lit "middle") (PyInt 4) (lit "middle") (lit "Futura"))).
Proof.
  destruct (small_plate 2 3 (FillStr (lit "white")) empty_heap)
    as [self svg h1|e svg h1] eqn:Hinit; [|vm_compute in Hinit; discriminate Hinit].
  exists self, svg, h1. split; [reflexivity|].
  destruct (labels_placed repr_stub 2 3 (PyFloat 127.76) (PyFloat 85.48)
      (PyFloat 0.5) (PyInt 6) (PyInt 9) (PyInt 5) (PyFloat 14.38) (PyFloat 11.24)
      (PyFloat 3.18) (PyFloat 0.75) (PyFloat 1.0) (PyInt 4) (FillStr (lit "white"))
      empty_heap self svg h1 Hinit) as (left_x & top_y & _ & _ & Hrows & Hcols).
  split.
  - destruct (Hrows 1 ltac:(lia)) as (text & x & y & Hchr & _ & _ & _ & Hl).
    vm_compute in Hchr. injection Hchr as <-. exists x, y. exact Hl.
  - destruct (Hcols 2 ltac:(lia)) as (x & y & _ & _ & Hl).
    exists x, y. exact Hl.
Defined.

Lemma no_layout_validation_witness :
  exists self svg h1,
    small_plate 1 1 (FillRef 1%positive) heap_1x2 = Constructed self svg h1.
Proof.
  refine (proj1 (proj2 (no_layout_validation repr_stub 1 1 (PyFloat 127.76)
      (PyFloat 85.48) (PyFloat 0.5) (PyInt 6) (PyInt 9) (PyInt 5) (PyFloat 14.38)
      (PyFloat 11.24) (PyFloat 3.18) (PyFloat 0.75) (PyFloat 1.0) (PyInt 4)
      (FillRef 1%positive) heap_1x2 _ _ _ _ _ _ _ _ _ _ _ _)) _); try modest_tac.
  exists [[lit "red"; lit "blue"]]. split; [vm_compute; reflexivity|].
  intros row col Hrow Hcol.
  assert (row = 0) as -> by lia. assert (col = 0) as -> by lia. reflexivity.
Defined.

Lemma edges_two_rectangles_witness :
  exists self svg h1,
    small_plate 2 3 (FillStr (lit "white")) empty_heap = Constructed self svg h1 /\
    length (List.filter is_rect (elements svg)) = 2%nat.
Proof.
  destruct (small_plate 2 3 (FillStr (lit "white")) empty_heap)
    as [self svg h1|e svg h1] eqn:Hinit; [|vm_compute in Hinit; discriminate Hinit].
  exists self, svg, h1. split; [reflexivity|].
  destruct (edges_two_rectangles repr_stub 2 3 (PyFloat 127.76) (PyFloat 85.48)
      (PyFloat 0.5) (PyInt 6) (PyInt 9) (PyInt 5) (PyFloat 14.38) (PyFloat 11.24)
      (PyFloat 3.18) (PyFloat 0.75) (PyFloat 1.0) (PyInt 4) (FillStr (lit "white"))
      empty_heap self svg h1 Hinit) as (ix & w & hh & rx & _ & _ & _ & _ & Hr).
  rewrite Hr. reflexivity.
Defined.

Lemma viewport_size_witness :
  exists self svg h1,
    small_plate 2 3 (FillStr (lit "white")) empty_heap = Constructed self svg h1 /\
    viewBox svg = Some (PyInt 0, PyInt 0, PyFloat 137.76, PyFloat 95.48).
Proof.
  destruct (small_plate 2 3 (FillStr (lit "white")) empty_heap)
    as [self svg h1|e svg h1] eqn:Hinit; [|vm_compute in Hinit; discriminate Hinit].
  exists self, svg, h1. split; [reflexivity|].
  destruct (viewport_size repr_stub 2 3 (PyFloat 127.76) (PyFloat 85.48)
      (PyFloat 0.5) (PyInt 6) (PyInt 9) (PyInt 5) (PyFloat 14.38) (PyFloat 11.24)
      (PyFloat 3.18) (PyFloat 0.75) (PyFloat 1.0) (PyInt 4) (FillStr (lit "white"))
      empty_heap self svg h1 Hinit) as (width & height & Hw & Hh & _ & Hv).
  vm_compute in Hw, Hh. injection Hw as <-. injection Hh as <-. exact Hv.
Defined.

Lemma fill_matrix_owned_witness :
  exists self svg h1,
    small_plate 1 2 (FillRef 1%positive) heap_1x2 = Constructed self svg h1 /\
    matrix_at h1 (_fill_matrix self) = Some [[lit "red"; lit "blue"]] /\
    matrix_at (overwrite_row 1%positive [lit "black"] h1) (_fill_matrix self)
      = Some [[lit "red"; lit "blue"]].
Proof.
  destruct (small_plate 1 2 (FillRef 1%positive) heap_1x2)
    as [self svg h1|e svg h1] eqn:Hinit; [|vm_compute in Hinit; discriminate Hinit].
  exists self, svg, h1. split; [reflexivity|].
  destruct (proj2 (fill_matrix_owned repr_stub 1 2 (PyFloat 127.76) (PyFloat 85.48)
      (PyFloat 0.5) (PyInt 6) (PyInt 9) (PyInt 5) (PyFloat 14.38) (PyFloat 11.24)
      (PyFloat 3.18) (PyFloat 0.75) (PyFloat 1.0) (PyInt 4) (FillRef 1%positive)
      heap_1x2 self svg h1 Hinit) 1%positive [[lit "red"; lit "blue"]] eq_refl eq_refl)
    as (Hcopy & _ & Hframe).
  split; [exact Hcopy|].
  refine (proj1 (Hframe (overwrite_row 1%positive [lit "black"] h1) _)).
  split; [reflexivity|]. intros l Hl. simpl.
  apply lookup_insert_ne. intros <-. apply Hl. vm_compute. reflexivity.
Defined.

Lemma drawing_order_witness :
  exists self svg h1,
    small_plate 2 3 (FillStr (lit "white")) empty_heap = Constructed self svg h1 /\
    exists outer inner ws rls cls,
      elements svg = [outer; inner] ++ ws ++ rls ++ cls /\
      length ws = 6%nat /\ length rls = 2%nat /\ length cls = 3%nat.
Proof.
  destruct (small_plate 2 3 (FillStr (lit "white")) empty_heap)
    as [self svg h1|e svg h1] eqn:Hinit; [|vm_compute in Hinit; discriminate Hinit].
  exists self, svg, h1. split; [reflexivity|].
  destruct (drawing_order repr_stub 2 3 (PyFloat 127.76) (PyFloat 85.48)
      (PyFloat 0.5) (PyInt 6) (PyInt 9) (PyInt 5) (PyFloat 14.38) (PyFloat 11.24)
      (PyFloat 3.18) (PyFloat 0.75) (PyFloat 1.0) (PyInt 4) (FillStr (lit "white"))
      empty_heap self svg h1 Hinit)
    as (outer & inner & ws & rls & cls & Hel & _ & _ & Hws & Hrls & Hcls & _).
  exists outer, inner, ws, rls, cls. split; [exact Hel|].
  apply (f_equal (@length _)) in Hws, Hrls, Hcls.
  rewrite length_map in Hws, Hrls, Hcls. rewrite Hws, Hrls, Hcls.
  repeat split.
Defined.

Lemma rows_beyond_Z_witness :
  26 < 27 /\
  exists self svg h1,
    small_plate 27 1 (FillStr (lit "white")) empty_heap = Constructed self svg h1 /\
    exists x y,
      List.filter is_text (elements svg) !! 26%nat =
        Some (Text (lit "[") (x, y) (lit "middle") (PyInt 4) (lit "middle") (lit "Futura")).
Proof.
  split; [lia|].
  destruct (proj1 (rows_beyond_Z repr_stub 27 1 (PyFloat 127.76) (PyFloat 85.48)
      (PyFloat 0.5) (PyInt 6) (PyInt 9) (PyInt 5) (PyFloat 14.38) (PyFloat 11.24)
      (PyFloat 3.18) (PyFloat 0.75) (PyFloat 1.0) (PyInt 4) (FillStr (lit "white"))
      empty_heap ltac:(lia) ltac:(modest_tac) ltac:(modest_tac) ltac:(modest_tac)
      ltac:(modest_tac) ltac:(modest_tac) ltac:(modest_tac) ltac:(modest_tac)
      ltac:(modest_tac) ltac:(modest_tac) ltac:(modest_tac) ltac:(modest_tac) I)
      ltac:(lia)) as (self & svg & h1 & Hinit & Hlab).
  exists self, svg, h1. split; [exact Hinit|].
  destruct (Hlab 26 ltac:(lia)) as (x & y & _ & _ & Hl). exists x, y. exact Hl.
Defined.

(** ** Further instances *)

(** A 1 x 2 matrix for a plate of one row and three columns: the entry of the
    third well is missing, and the constructor stops there with two edges and
    two wells drawn. *)
Example undersized_matrix_fails :
  exists d h1,
    small_plate 1 3 (FillRef 1%positive) heap_1x2 = Failed IndexError (Some d) h1 /\
    length (elements d) = 4%nat.
Proof. eexists _, _. split; vm_compute; reflexivity. Qed.

(** No rows: a plate with its edges and column labels only. *)
Example zero_rows_accepted :
  exists self svg h1,
    small_plate 0 3 (FillStr (lit "white")) empty_heap = Constructed self svg h1 /\
    length (elements svg) = 5%nat.
Proof. eexists _, _, _. split; vm_compute; reflexivity. Qed.

(** The bound of [float]: the last integer that converts and the first that
    does not. *)
Example float_limit_sharp :
  is_infinity (Z2F (float_limit - 1)) = false /\
  is_infinity (Z2F float_limit) = true.
Proof. split; vm_compute; reflexivity. Qed.

(** [str] on the column numbers. *)
Example str_int_12 : str_int 12 = lit "12".
Proof. vm_compute. reflexivity. Qed.

(** * Further properties

    Error behaviour, counts, alignment, the heap, the presets and the
    export, beyond the claims above. *)

(** ** Which exception, and why *)

Lemma py_truediv_raise_nonzero a d e :
  PrimFloat.eqb d 0 = false -> py_truediv a d = Raise e -> e = OverflowError.
Proof.
  intros Hd. unfold py_truediv. destruct (to_float a) eqn:E; cbn [bind result_monad].
  - by rewrite Hd.
  - intros [= <-]. by eapply to_float_raise.
Qed.

Ltac raised_tac :=
  repeat match goal with
  | H : py_add _ _ = Raise _ |- _ => apply arith_raise in H
  | H : py_sub _ _ = Raise _ |- _ => apply arith_raise in H
  | H : py_mul _ _ = Raise _ |- _ => apply arith_raise in H
  | H : py_truediv _ _ = Raise _ |- _ =>
      apply py_truediv_raise_nonzero in H; [|reflexivity]
  | H : chr _ = Raise _ |- _ => apply chr_raise in H
  | H : subscript2 _ _ _ _ = Raise _ |- _ => apply subscript2_raise in H
  end; intuition (subst; auto).


Lemma inner_edge_overflow self e : inner_edge self = Raise e -> e = OverflowError.
Proof.
  unfold inner_edge. cbn [bind result_monad]. intros H. raise_cases; raised_tac.
Qed.

Lemma well_raise_kinds h self row col e :
  well h self row col = Raise e ->
  e = OverflowError \/ e = IndexError \/ e = TypeError.
Proof.
  unfold well. cbn [bind result_monad]. intros H. raise_cases; raised_tac.
Qed.

Lemma row_label_raise_kinds self row e :
  row_label self row = Raise e ->
  e = OverflowError \/ (e = ValueError /\ chr (row + 65) = Raise ValueError).
Proof.
  unfold row_label. cbn [bind result_monad]. intros H. raise_cases; raised_tac.
Qed.

Lemma col_label_overflow rf self col e :
  col_label rf self col = Raise e -> e = OverflowError.
Proof.
  unfold col_label. cbn [bind result_monad]. intros H. raise_cases; raised_tac.
Qed.

Lemma emitted_Some_prefix es vs e :
  emitted es = (vs, Some e) ->
  es !! length vs = Some (Raise e) /\ take (length vs) es = map Ok vs.
Proof.
  revert vs. induction es as [|[v|ex] es IH]; intros vs; simpl; [done| |].
  - destruct (emitted es) as [vs' o]. intros [= <- ->].
    destruct (IH vs' eq_refl) as [H1 H2]. simpl. by rewrite H2.
  - by intros [= <- <-].
Qed.

Lemma plate_elements_In rf h self r :
  In r (plate_elements rf h self) <->
  r = Ok (outer_edge self) \/ r = inner_edge self \/
  (exists row col, 0 <= row < _n_rows self /\ 0 <= col < _n_cols self /\
                   r = well h self row col) \/
  (exists row, 0 <= row < _n_rows self /\ r = row_label self row) \/
  (exists col, 0 <= col < _n_cols self /\ r = col_label rf self col).
Proof.
  unfold plate_elements, edges, wells, row_labels, col_labels.
  rewrite !in_app_iff, in_flat_map. simpl. split.
  - intros [[<-|[<-|[]]]|[(row & Hrow & Hr)|[Hr|Hr]]].
    + by left.
    + right; by left.
    + apply in_map_iff in Hr as (col & <- & Hcol). apply In_range in Hrow, Hcol.
      right; right; left. exists row, col. auto.
    + apply in_map_iff in Hr as (row & <- & Hrow). apply In_range in Hrow.
      right; right; right; left. exists row. auto.
    + apply in_map_iff in Hr as (col & <- & Hcol). apply In_range in Hcol.
      right; right; right; right. exists col. auto.
  - intros [->|[->|[(row & col & Hrow & Hcol & ->)|[(row & Hrow & ->)|(col & Hcol & ->)]]]].
    + left; by left.
    + left; right; by left.
    + right; left. exists row. split; [by apply In_range|].
      apply in_map_iff. exists col. split; [done|by apply In_range].
    + right; right; left. apply in_map_iff. exists row. split; [done|by apply In_range].
    + right; right; right. apply in_map_iff. exists col. split; [done|by apply In_range].
Qed.

Lemma row_label_chr self row e :
  chr (row + 65) = Raise e -> row_label self row = Raise e.
Proof. unfold row_label. by intros ->. Qed.

Lemma chr_Raise i e : chr i = Raise e -> i < 0 \/ 1114112 <= i.
Proof.
  unfold chr. destruct (Z.leb_spec 0 i), (Z.ltb_spec i 1114112); simpl; try done; lia.
Qed.

Lemma well_raise_cases h self row col e :
  well h self row col = Raise e ->
  e = OverflowError \/ subscript2 h (_fill_matrix self) row col = Raise e.
Proof.
  unfold well. cbn [bind result_monad]. intros H. raise_cases; raised_tac.
Qed.

Section Failures.
Variable repr_float : float -> pystr.
Variables n_rows n_cols : Z.
Variables plate_length plate_width barrier_thickness well_diameter
  well_separation margin left_padding top_padding edge_corner_radius
  edge_thickness edges_distance label_font_size : number.
Variable well_fill : fill_arg.
Variable h : heap.

Local Abbreviation init :=
  (__init__ repr_float n_rows n_cols plate_length plate_width barrier_thickness
     well_diameter well_separation margin left_padding top_padding
     edge_corner_radius edge_thickness edges_distance label_font_size well_fill h).
Local Abbreviation the_fill_step := (fill_step n_rows n_cols well_fill h).
Local Abbreviation the_geometry :=
  (geometry plate_length plate_width margin left_padding top_padding).
Local Abbreviation the_plate :=
  (plate n_rows n_cols plate_length plate_width barrier_thickness
     well_diameter well_separation margin edge_corner_radius edge_thickness
     edges_distance label_font_size well_fill h).

(** The constructor fails exactly when the geometry or an element raises. *)
Lemma init_Failed e svg h1 :
  init = Failed e svg h1 <->
  h1 = snd the_fill_step /\
  ((the_geometry = Raise e /\ svg = None) \/
   exists top_y left_x vw vh vs,
     the_geometry = Ok (top_y, left_x, vw, vh) /\
     emitted (plate_elements repr_float h1 (the_plate top_y left_x)) = (vs, Some e) /\
     svg = Some (extend (blank repr_float vw vh) vs)).
Proof.
  rewrite (init_unfold repr_float). split.
  - destruct the_geometry as [[[[top_y left_x] vw] vh]|e'].
    + cbn zeta. destruct (emitted _) as [vs [e'|]] eqn:Hem; cbn [fst snd]; [|done].
      intros [= <- <- <-]. split; [done|]. right.
      by exists top_y, left_x, vw, vh, vs.
    + intros [= <- <- <-]. split; [done|]. by left.
  - intros [-> [[-> ->]|(top_y & left_x & vw & vh & vs & -> & Hem & ->)]]; [done|].
    cbn zeta. by rewrite Hem.
Qed.




End Failures.

(** ** The drawing a failure leaves *)

Lemma wells_length h self :
  length (wells h self) = (Z.to_nat (_n_rows self) * Z.to_nat (_n_cols self))%nat.
Proof. unfold wells. by rewrite flat_map_length, !range_length. Qed.

Lemma wells_lookup h self row col :
  0 <= row < _n_rows self -> 0 <= col < _n_cols self ->
  wells h self !! Z.to_nat (row * _n_cols self + col) = Some (well h self row col).
Proof.
  intros Hrow Hcol. unfold wells.
  pose proof (flat_map_lookup (well h self) (range (_n_rows self)) (range (_n_cols self))
                _ _ _ _ (range_lookup _ _ Hrow) (range_lookup _ _ Hcol)) as Hl.
  rewrite range_length in Hl.
  replace (Z.to_nat row * Z.to_nat (_n_cols self) + Z.to_nat col)%nat
    with (Z.to_nat (row * _n_cols self + col)) in Hl by nia.
  done.
Qed.

(** The well at a position of the sequence of wells. *)
Lemma wells_lookup_inv h self k r :
  wells h self !! k = Some r ->
  exists row col, 0 <= row < _n_rows self /\ 0 <= col < _n_cols self /\
    k = Z.to_nat (row * _n_cols self + col) /\ r = well h self row col.
Proof.
  intros Hk. pose proof (lookup_lt_Some _ _ _ Hk) as Hlt. rewrite wells_length in Hlt.
  assert (0 < _n_cols self) by nia.
  set (row := Z.of_nat k / _n_cols self). set (col := Z.of_nat k mod _n_cols self).
  assert (Hrow : 0 <= row < _n_rows self).
  { split; [apply Z.div_pos; lia|]. apply Z.div_lt_upper_bound; nia. }
  assert (Hcol : 0 <= col < _n_cols self) by (apply Z.mod_pos_bound; lia).
  assert (Hk' : k = Z.to_nat (row * _n_cols self + col)).
  { unfold row, col. rewrite (Z.mul_comm (_ / _)), <- Z.div_mod by lia. lia. }
  exists row, col. repeat split; try done; try lia.
  rewrite Hk', wells_lookup in Hk by done. congruence.
Qed.

Lemma row_labels_lookup self k r :
  row_labels self !! k = Some r ->
  0 <= Z.of_nat k < _n_rows self /\ r = row_label self (Z.of_nat k).
Proof.
  unfold row_labels. intros Hk.
  change (map ?f ?l) with (f <$> l) in Hk. rewrite list_lookup_fmap in Hk.
  destruct (range _ !! k) as [row|] eqn:Hrow; [|done]. injection Hk as <-.
  pose proof (lookup_lt_Some _ _ _ Hrow) as Hlt. rewrite range_length in Hlt.
  rewrite <- (Nat2Z.id k), range_lookup in Hrow by lia.
  injection Hrow as <-. split; [lia|done].
Qed.

Lemma col_labels_lookup rf self k r :
  col_labels rf self !! k = Some r ->
  0 <= Z.of_nat k < _n_cols self /\ r = col_label rf self (Z.of_nat k).
Proof.
  unfold col_labels. intros Hk.
  change (map ?f ?l) with (f <$> l) in Hk. rewrite list_lookup_fmap in Hk.
  destruct (range _ !! k) as [col|] eqn:Hcol; [|done]. injection Hk as <-.
  pose proof (lookup_lt_Some _ _ _ Hcol) as Hlt. rewrite range_length in Hlt.
  rewrite <- (Nat2Z.id k), range_lookup in Hcol by lia.
  injection Hcol as <-. split; [lia|done].
Qed.

Lemma take_map_Ok_lookup {A} (es : list (result A)) (vs : list A) k i r :
  take k es = map Ok vs -> (i < k)%nat -> es !! i = Some r -> is_ok r = true.
Proof.
  intros Ht Hi Hr. assert (Hl : take k es !! i = Some r) by (by rewrite lookup_take_lt).
  rewrite Ht in Hl. change (map Ok vs) with (Ok <$> vs) in Hl.
  rewrite list_lookup_fmap in Hl. destruct (vs !! i); [|done]. by injection Hl as <-.
Qed.

Section FailedDrawing.
Variable repr_float : float -> pystr.
Variables n_rows n_cols : Z.
Variables plate_length plate_width barrier_thickness well_diameter
  well_separation margin left_padding top_padding edge_corner_radius
  edge_thickness edges_distance label_font_size : number.
Variable well_fill : fill_arg.
Variable h : heap.

Local Abbreviation init :=
  (__init__ repr_float n_rows n_cols plate_length plate_width barrier_thickness
     well_diameter well_separation margin left_padding top_padding
     edge_corner_radius edge_thickness edges_distance label_font_size well_fill h).
Local Abbreviation the_fill_step := (fill_step n_rows n_cols well_fill h).
Local Abbreviation the_geometry :=
  (geometry plate_length plate_width margin left_padding top_padding).
Local Abbreviation the_plate :=
  (plate n_rows n_cols plate_length plate_width barrier_thickness
     well_diameter well_separation margin edge_corner_radius edge_thickness
     edges_distance label_font_size well_fill h).

(** X3.  A constructor that fails after the drawing was created leaves a
    drawing with its view box set and with exactly the elements that precede
    the failing one, in the order of a complete run: the exception is the one
    raised by the first element that cannot be evaluated, and nothing after
    it is added. *)
Theorem failure_keeps_prefix e d h1 :
  init = Failed e (Some d) h1 ->
  exists top_y left_x vw vh,
    the_geometry = Ok (top_y, left_x, vw, vh) /\
    viewBox d = Some (PyInt 0, PyInt 0, vw, vh) /\
    let planned := plate_elements repr_float h1 (the_plate top_y left_x) in
    planned !! length (elements d) = Some (Raise e) /\
    take (length (elements d)) planned = map Ok (elements d).
Proof.
  intros [-> [[_ ?]|(top_y & left_x & vw & vh & vs & Hg & Hem & [= ->])]]%init_Failed;
    [done|].
  exists top_y, left_x, vw, vh. split; [done|]. split; [done|].
  cbn zeta. by apply emitted_Some_prefix.
Qed.

(** X4.  Where the constructor stopped.  On [IndexError] or [TypeError] the
    elements drawn are the two edges and the wells before the well [(row,
    col)] whose fill could not be read, so their number is [2 + row * n_cols +
    col]; on [ValueError] the edges, every well and the labels of the rows 0
    to 1114046 have been drawn. *)
Theorem failure_position e d h1 :
  init = Failed e (Some d) h1 ->
  (e = IndexError \/ e = TypeError ->
     exists row col, 0 <= row < n_rows /\ 0 <= col < n_cols /\
       subscript2 h1 (fst the_fill_step) row col = Raise e /\
       length (elements d) = Z.to_nat (2 + (row * n_cols + col))) /\
  (e = ValueError ->
     1114047 < n_rows /\
     length (elements d) = Z.to_nat (2 + n_rows * Z.max 0 n_cols + 1114047)).
Proof.
  intros [-> [[_ ?]|(top_y & left_x & vw & vh & vs & Hg & Hem & [= ->])]]%init_Failed;
    [done|].
  apply emitted_Some_prefix in Hem as [Hk Hpre].
  change (elements (extend (blank repr_float vw vh) vs)) with vs.
  set (self := the_plate top_y left_x) in *.
  set (k := length vs) in *.
  unfold plate_elements in Hk.
  apply lookup_app_Some in Hk as [Hk|[Hk1 Hk]].
  { (* the edges *)
    destruct k as [|[|k]]; simpl in Hk; [done| |done].
    injection Hk as Hk. apply inner_edge_overflow in Hk as ->.
    split; [by intros [|]|done]. }
  apply lookup_app_Some in Hk as [Hk|[Hk2 Hk]].
  { (* the wells *)
    apply wells_lookup_inv in Hk as (row & col & Hrow & Hcol & Hkk & Hw).
    change (_n_rows self) with n_rows in *. change (_n_cols self) with n_cols in *.
    symmetry in Hw. split.
    - intros He. exists row, col. split; [done|]. split; [done|].
      apply well_raise_cases in Hw as [->|Hw]; [by destruct He|].
      split; [done|]. simpl in Hk1, Hkk. assert (0 <= row * n_cols) by nia. lia.
    - intros ->. by apply well_raise_kinds in Hw as [|[|]]. }
  rewrite wells_length in Hk2, Hk. change (length (edges self)) with 2%nat in *.
  change (_n_rows self) with n_rows in *. change (_n_cols self) with n_cols in *.
  apply lookup_app_Some in Hk as [Hk|[Hk3 Hk]].
  { (* the row labels *)
    apply row_labels_lookup in Hk as [Hr Hk]. symmetry in Hk.
    change (_n_rows self) with n_rows in *.
    apply row_label_raise_kinds in Hk as Hkind. split.
    - intros [->| ->]; by destruct Hkind as [|[]].
    - intros ->. destruct Hkind as [|[_ Hchr]]; [done|].
      apply chr_Raise in Hchr. split; [lia|].
      set (r := (k - 2 - Z.to_nat n_rows * Z.to_nat n_cols)%nat) in *.
      assert (Hr' : Z.of_nat r = 1114047 \/ 1114047 < Z.of_nat r) by lia.
      destruct Hr' as [Hr'|Hr'].
      + assert (Z.to_nat n_rows * Z.to_nat n_cols = Z.to_nat (n_rows * Z.max 0 n_cols))%nat
          by nia.
        lia.
      + exfalso.
        assert (Hok : is_ok (row_label self 1114047) = true).
        { set (w := (Z.to_nat n_rows * Z.to_nat n_cols)%nat) in *.
          set (j := Z.to_nat 1114047).
          assert (Hj : Z.of_nat j = 1114047) by (unfold j; lia).
          eapply (take_map_Ok_lookup _ _ _ (2 + w + j)%nat _ Hpre); [lia|].
          unfold plate_elements.
          rewrite lookup_app_r by (simpl; lia).
          rewrite lookup_app_r by (rewrite wells_length; simpl; fold w; lia).
          rewrite wells_length. change (length (edges self)) with 2%nat.
          change (_n_rows self) with n_rows. change (_n_cols self) with n_cols.
          fold w.
          rewrite lookup_app_l by (unfold row_labels; rewrite length_map, range_length;
                                    change (_n_rows self) with n_rows; lia).
          unfold row_labels. change (map ?f ?l) with (f <$> l).
          rewrite list_lookup_fmap.
          replace (2 + w + j - 2 - w)%nat with j by lia.
          change (_n_rows self) with n_rows. unfold j.
          by rewrite range_lookup by lia. }
        assert (Hchr' : chr (1114047 + 65) = Raise ValueError) by done.
        by rewrite (row_label_chr _ _ _ Hchr') in Hok. }
  (* the column labels *)
  apply col_labels_lookup in Hk as [Hc Hk]. symmetry in Hk.
  apply col_label_overflow in Hk as ->. split; [by intros [|]|done].
Qed.

End FailedDrawing.

(** ** Counts and empty grids *)

Lemma range_nonpos n : n <= 0 -> range n = [].
Proof. intros Hn. unfold range. by replace (Z.to_nat n) with 0%nat by lia. Qed.

Lemma wells_empty h self :
  _n_rows self <= 0 \/ _n_cols self <= 0 -> wells h self = [].
Proof.
  unfold wells. intros [Hn|Hn]; rewrite (range_nonpos _ Hn); [done|].
  simpl. by induction (range _).
Qed.

Section Grid.
Variable repr_float : float -> pystr.
Variables n_rows n_cols : Z.
Variables plate_length plate_width barrier_thickness well_diameter
  well_separation margin left_padding top_padding edge_corner_radius
  edge_thickness edges_distance label_font_size : number.
Variable well_fill : fill_arg.
Variable h : heap.

Local Abbreviation init :=
  (__init__ repr_float n_rows n_cols plate_length plate_width barrier_thickness
     well_diameter well_separation margin left_padding top_padding
     edge_corner_radius edge_thickness edges_distance label_font_size well_fill h).
Local Abbreviation the_fill_step := (fill_step n_rows n_cols well_fill h).
Local Abbreviation the_geometry :=
  (geometry plate_length plate_width margin left_padding top_padding).
Local Abbreviation the_plate :=
  (plate n_rows n_cols plate_length plate_width barrier_thickness
     well_diameter well_separation margin edge_corner_radius edge_thickness
     edges_distance label_font_size well_fill h).

(** X5.  A constructed plate's drawing holds two rectangles, [n_rows *
    n_cols] circles and [n_rows + n_cols] texts and nothing else, a negative
    [n_rows] or [n_cols] counting as zero. *)
Theorem element_count self svg h1 :
  init = Constructed self svg h1 ->
  length (List.filter is_rect (elements svg)) = 2%nat /\
  length (List.filter is_circle (elements svg)) = (Z.to_nat n_rows * Z.to_nat n_cols)%nat /\
  length (List.filter is_text (elements svg)) = (Z.to_nat n_rows + Z.to_nat n_cols)%nat /\
  length (elements svg) =
    (2 + Z.to_nat n_rows * Z.to_nat n_cols + Z.to_nat n_rows + Z.to_nat n_cols)%nat.
Proof.
  intros H. apply init_kinds in H
    as (top_y & left_x & vw & vh & e2 & ws & rls & cls & _ & Hs & -> & _ & Hw & Hr & Hc
        & -> & -> & ->).
  apply (f_equal length) in Hw, Hr, Hc.
  rewrite wells_length, length_map in Hw.
  unfold row_labels in Hr. unfold col_labels in Hc.
  rewrite !length_map, range_length in Hr, Hc.
  assert (Hn : _n_rows self = n_rows /\ _n_cols self = n_cols) by (by subst self).
  destruct Hn as [Hnr Hnc]. rewrite Hnr, Hnc in *.
  change (elements (extend _ ?vs)) with vs.
  rewrite !length_app. simpl. lia.
Qed.

(** X6.  With no row or no column ([n_rows <= 0] or [n_cols <= 0]) the fill
    matrix is never subscripted: on arguments of ordinary size the constructor
    succeeds whatever [well_fill] is, and draws the two edges and the labels
    only. *)
Theorem empty_grid_ignores_fill :
  n_rows <= 0 \/ n_cols <= 0 ->
  modest plate_length -> modest plate_width ->
  modest well_separation -> modest margin -> modest left_padding ->
  modest top_padding -> modest edge_corner_radius -> modest edges_distance ->
  modest label_font_size ->
  n_rows <= 1114047 -> n_cols <= bound ->
  exists self svg h1,
    init = Constructed self svg h1 /\
    List.filter is_circle (elements svg) = [] /\
    length (elements svg) = (2 + Z.to_nat n_rows + Z.to_nat n_cols)%nat.
Proof.
  intros Hempty Hpl Hpw Hws Hm Hlp Htp Hecr Hed Hfs Hnr Hnc.
  destruct (geometry_ok plate_length plate_width margin left_padding top_padding)
    as (top_y & left_x & vw & vh & Hg & Hty & Hlx); try done.
  destruct the_fill_step as [fm h1] eqn:Hstep.
  set (self := the_plate top_y left_x).
  assert (Hb : 1114047 <= bound) by (apply Z.leb_le; vm_compute; reflexivity).
  assert (Hwells : wells h1 self = []) by (by apply wells_empty).
  destruct (all_Ok (plate_elements repr_float h1 self)) as [vs Hvs].
  { intros r [?|[?|[(row & col & Hrow & Hcol & ?)|[(row & Hrow & ->)|(col & Hcol & ->)]]]]%plate_elements_In.
    - eauto.
    - subst r. by apply inner_edge_ok.
    - simpl in Hrow, Hcol. lia.
    - simpl in Hrow. apply row_label_ok; try done; lia.
    - simpl in Hcol. apply col_label_ok; try done; lia. }
  exists self, (extend (blank repr_float vw vh) vs), h1. split.
  { apply init_Constructed. exists top_y, left_x, vw, vh, vs.
    rewrite Hstep. by repeat split. }
  change (elements (extend _ ?l)) with l.
  apply plate_elements_Ok in Hvs as (e2 & ws & rls & cls & -> & He & Hw & Hr & Hc).
  rewrite Hwells in Hw. destruct ws; [|done].
  pose proof (row_labels_texts _ _ Hr). pose proof (col_labels_texts _ _ _ Hc).
  assert (is_rect e2 = true).
  { apply inner_edge_Ok in He as (? & ? & ? & ? & _ & _ & _ & _ & ->). done. }
  split; [by rewrite circles_of_parts|].
  apply (f_equal length) in Hr, Hc. unfold row_labels in Hr. unfold col_labels in Hc.
  rewrite !length_map, range_length in Hr, Hc. simpl in Hr, Hc.
  rewrite !length_app. simpl. lia.
Qed.

End Grid.

(** ** Positions and fills *)

Section Layout.
Variable repr_float : float -> pystr.
Variables n_rows n_cols : Z.
Variables plate_length plate_width barrier_thickness well_diameter
  well_separation margin left_padding top_padding edge_corner_radius
  edge_thickness edges_distance label_font_size : number.
Variable well_fill : fill_arg.
Variable h : heap.

Local Abbreviation init :=
  (__init__ repr_float n_rows n_cols plate_length plate_width barrier_thickness
     well_diameter well_separation margin left_padding top_padding
     edge_corner_radius edge_thickness edges_distance label_font_size well_fill h).
Local Abbreviation the_fill_step := (fill_step n_rows n_cols well_fill h).
Local Abbreviation the_geometry :=
  (geometry plate_length plate_width margin left_padding top_padding).
Local Abbreviation the_plate :=
  (plate n_rows n_cols plate_length plate_width barrier_thickness
     well_diameter well_separation margin edge_corner_radius edge_thickness
     edges_distance label_font_size well_fill h).

(** The circle of a well of a constructed plate. *)
Lemma well_lookup self svg h1 row col :
  init = Constructed self svg h1 -> 0 <= row < n_rows -> 0 <= col < n_cols ->
  exists e, List.filter is_circle (elements svg) !! Z.to_nat (row * n_cols + col) = Some e /\
            well h1 self row col = Ok e.
Proof.
  intros H Hrow Hcol. apply init_kinds in H
    as (top_y & left_x & vw & vh & e2 & ws & rls & cls & _ & Hs & -> & _ & Hw & _ & _ & _ & -> & _).
  assert (Hn : _n_rows self = n_rows /\ _n_cols self = n_cols) by (by subst self).
  destruct Hn as [Hnr Hnc].
  pose proof (wells_lookup h1 self row col) as Hl. rewrite Hnr, Hnc in Hl.
  destruct (Ok_lookup _ _ _ _ Hw (Hl Hrow Hcol)) as (v & Hv & Hwv). eauto.
Qed.

(** The label of a column of a constructed plate. *)
Lemma col_label_lookup self svg h1 c :
  init = Constructed self svg h1 -> 0 <= c < n_cols ->
  exists e, List.filter is_text (elements svg) !! (Z.to_nat n_rows + Z.to_nat c)%nat = Some e /\
            col_label repr_float self c = Ok e.
Proof.
  intros H Hc. apply init_kinds in H
    as (top_y & left_x & vw & vh & e2 & ws & rls & cls & _ & Hs & -> & _ & _ & Hrl & Hcl & _ & _ & ->).
  assert (Hn : _n_rows self = n_rows /\ _n_cols self = n_cols) by (by subst self).
  destruct Hn as [Hnr Hnc].
  unfold row_labels in Hrl. unfold col_labels in Hcl. rewrite Hnr in Hrl. rewrite Hnc in Hcl.
  destruct (map_Ok_lookup _ _ _ _ _ Hcl (range_lookup _ _ Hc)) as (v & Hv & Hlab).
  exists v. split; [|done].
  rewrite lookup_app_r; rewrite (map_Ok_length _ _ _ Hrl), range_length; [|lia].
  by replace (Z.to_nat n_rows + Z.to_nat c - Z.to_nat n_rows)%nat with (Z.to_nat c) by lia.
Qed.

Lemma init_self self svg h1 :
  init = Constructed self svg h1 ->
  exists top_y left_x,
    py_add margin top_padding = Ok top_y /\
    py_add margin left_padding = Ok left_x /\
    self = the_plate top_y left_x.
Proof.
  intros H. apply init_Constructed in H
    as (top_y & left_x & vw & vh & vs & Hg & -> & _).
  apply geometry_Ok in Hg as (? & ? & _). by exists top_y, left_x.
Qed.

(** X7.  Labels line up with the wells.  The label of a column has the same
    x as the centre of every well of the column, and the y of the label of a
    row is the y of the centres of the row plus [label_font_size / 8.0]; the
    different operand orders of [_draw_wells] and [_draw_labels] give the same
    binary64 numbers. *)
Theorem labels_aligned self svg h1 :
  init = Constructed self svg h1 ->
  forall row col, 0 <= row < n_rows -> 0 <= col < n_cols ->
    exists w rl cl v,
      List.filter is_circle (elements svg) !! Z.to_nat (row * n_cols + col) = Some w /\
      List.filter is_text (elements svg) !! Z.to_nat row = Some rl /\
      List.filter is_text (elements svg) !! (Z.to_nat n_rows + Z.to_nat col)%nat = Some cl /\
      fst (position cl) = fst (position w) /\
      py_truediv label_font_size 8 = Ok v /\
      py_add (snd (position w)) v = Ok (snd (position rl)).
Proof.
  intros H row col Hrow Hcol.
  destruct (well_lookup _ _ _ row col H Hrow Hcol) as (w & Hw & Hwell).
  destruct (row_label_lookup _ _ _ _ _ _ _ _ _ _ _ _ _ _ _ _ _ _ _ _ row H Hrow)
    as (rl & Hrl & Hrlab).
  destruct (col_label_lookup _ _ _ col H Hcol) as (cl & Hcl & Hclab).
  destruct (init_self _ _ _ H) as (top_y & left_x & _ & _ & Hs).
  apply well_Ok in Hwell as (cx & cy & r & fill & Hcx & Hcy & _ & _ & ->).
  apply row_label_Ok in Hrlab as (text & x & y & _ & _ & Hy & ->).
  apply col_label_Ok in Hclab as (x' & y' & Hx' & _ & ->).
  rewrite Hs in Hcx, Hcy, Hy, Hx'.
  cbn [_well_separation _left_x _top_y _label_font_size plate] in Hcx, Hcy, Hy, Hx'.
  destruct (py_mul (PyInt col) well_separation) as [tc|]; [|done].
  destruct (py_mul (PyInt row) well_separation) as [tr|]; [|done].
  cbn [bind result_monad] in Hcx, Hcy, Hy, Hx'.
  rewrite py_add_comm, Hcx in Hx'. injection Hx' as <-.
  rewrite py_add_comm, Hcy in Hy. cbn [bind result_monad] in Hy.
  destruct (py_truediv label_font_size 8) as [v|] eqn:Hv; [|done].
  cbn [bind result_monad] in Hy.
  exists (Circle (cx, cy) r (_barrier_thickness self) (lit "black") fill),
    (Text text (x, y) (lit "middle") (_label_font_size self) (lit "middle") (lit "Futura")),
    (Text (str repr_float (PyInt (col + 1))) (cx, y') (lit "middle")
          (_label_font_size self) (lit "middle") (lit "Futura")), v.
  by rewrite Hs in *.
Qed.

(** X8.  When [margin], [left_padding], [top_padding] and [well_separation]
    are [int]s, the centre of the well [(row, col)] is the exact integer point
    [(margin + left_padding + col * well_separation, margin + top_padding +
    row * well_separation)], with no rounding and no bound on the size of the
    numbers; the radius is a [float] in every case, because of the division
    by [2.0]. *)
Theorem int_geometry_exact self svg h1 m lp tp s :
  init = Constructed self svg h1 ->
  margin = PyInt m -> left_padding = PyInt lp -> top_padding = PyInt tp ->
  well_separation = PyInt s ->
  forall row col, 0 <= row < n_rows -> 0 <= col < n_cols ->
    exists w r,
      List.filter is_circle (elements svg) !! Z.to_nat (row * n_cols + col) = Some w /\
      position w = (PyInt (m + lp + col * s), PyInt (m + tp + row * s)) /\
      w = Circle (position w) (PyFloat r) barrier_thickness (lit "black") (fill_of w).
Proof.
  intros H Hm Hlp Htp Hs row col Hrow Hcol.
  destruct (well_lookup _ _ _ row col H Hrow Hcol) as (w & Hw & Hwell).
  destruct (init_self _ _ _ H) as (top_y & left_x & Hty & Hlx & Hself).
  apply well_Ok in Hwell as (cx & cy & r & fill & Hcx & Hcy & Hr & _ & ->).
  rewrite Hself in Hcx, Hcy, Hr.
  cbn [_well_separation _left_x _top_y _well_diameter plate] in Hcx, Hcy, Hr.
  rewrite Hm, Hlp in Hlx. rewrite Hm, Htp in Hty. rewrite Hs in Hcx, Hcy.
  injection Hlx as <-. injection Hty as <-.
  cbn [bind result_monad] in Hcx, Hcy. injection Hcx as <-. injection Hcy as <-.
  unfold py_truediv in Hr. destruct (to_float well_diameter) as [f|]; [|done].
  cbn [bind result_monad] in Hr. destruct (PrimFloat.eqb 2 0); [done|].
  injection Hr as <-.
  eexists _, _. split; [exact Hw|]. split; [done|]. by rewrite Hself.
Qed.

(** X9.  The colour of each circle is the caller's: with one colour string
    every circle is filled with it, and with a matrix [M] the circle of the
    well [(row, col)] is filled with [M[row][col]]. *)
Theorem fills_follow_argument self svg h1 :
  init = Constructed self svg h1 ->
  forall row col, 0 <= row < n_rows -> 0 <= col < n_cols ->
    exists w,
      List.filter is_circle (elements svg) !! Z.to_nat (row * n_cols + col) = Some w /\
      (forall s, well_fill = FillStr s -> fill_of w = s) /\
      (forall m M, well_fill = FillRef m -> matrix_at h m = Some M ->
         matrix_get M row col = Ok (fill_of w)).
Proof.
  intros H row col Hrow Hcol.
  destruct (well_lookup _ _ _ row col H Hrow Hcol) as (w & Hw & Hwell).
  exists w. split; [done|].
  apply well_Ok in Hwell as (cx & cy & r & fill & _ & _ & _ & Hfill & ->).
  apply init_fill_step in H. unfold fill_step in H. simpl. split.
  - intros s Hwf. rewrite Hwf in H. apply broadcast_spec in H as [HM _].
    rewrite (subscript2_matrix _ _ _ _ _ HM) in Hfill. unfold matrix_get in Hfill.
    rewrite getitem_replicate in Hfill by lia. cbn [bind result_monad] in Hfill.
    rewrite getitem_replicate in Hfill by lia. congruence.
  - intros m M Hwf HM. rewrite Hwf in H.
    destruct (deepcopy_spec _ _ _ _ _ HM H) as (HM' & _).
    by rewrite (subscript2_matrix _ _ _ _ _ HM') in Hfill.
Qed.

End Layout.

(** ** Labels *)

Lemma lit_inj s1 s2 : lit s1 = lit s2 -> s1 = s2.
Proof.
  unfold lit. intros H.
  assert (Hid : forall l, map ascii_of_N (map N_of_ascii l) = l).
  { induction l as [|a l IH]; simpl; [done|]. by rewrite ascii_N_embedding, IH. }
  apply (f_equal (map ascii_of_N)) in H. rewrite !Hid in H.
  apply (f_equal string_of_list_ascii) in H.
  by rewrite !string_of_list_ascii_of_string in H.
Qed.

Lemma to_int_nonnil z :
  Z.to_int z <> Decimal.Pos Decimal.Nil /\ Z.to_int z <> Decimal.Neg Decimal.Nil.
Proof.
  destruct z as [|p|p]; simpl; split; try done; intros [= H];
    by apply Unsigned.to_uint_nonnil in H.
Qed.

(** [str] is injective on [int]. *)
Lemma str_int_inj a b : str_int a = str_int b -> a = b.
Proof.
  unfold str_int. intros H%lit_inj.
  apply (f_equal NilZero.int_of_string) in H.
  destruct (to_int_nonnil a), (to_int_nonnil b).
  rewrite !NilZero.isi in H by done. injection H as H. by apply to_int_inj.
Qed.

Lemma string_of_uint_chars d :
  Forall (fun c => (c < 65)%N) (lit (NilEmpty.string_of_uint d)).
Proof.
  induction d; simpl; try (by constructor); by (constructor; [|exact IHd]).
Qed.

(** The characters of [str(z)] are digits and the minus sign, all below
    ['A']. *)
Lemma str_int_chars z : Forall (fun c => (c < 65)%N) (str_int z).
Proof.
  unfold str_int, NilZero.string_of_int, NilZero.string_of_uint.
  destruct (Z.to_int z) as [d|d]; [|change (lit (String ?a ?s)) with (N_of_ascii a :: lit s);
                                    constructor; [done|]];
    (destruct d; [by repeat constructor|apply string_of_uint_chars..]).
Qed.

Lemma map_Ok_map {A B C} (f : A -> result B) (g : B -> C) (k : A -> C) xs vs :
  map f xs = map Ok vs -> (forall x v, f x = Ok v -> g v = k x) ->
  map g vs = map k xs.
Proof.
  revert vs. induction xs as [|x xs IH]; intros [|v vs]; simpl; try done.
  intros [= Hx H] Hg. f_equal; eauto.
Qed.

Lemma NoDup_range n : NoDup (range n).
Proof.
  unfold range. change (map ?f ?l) with (f <$> l).
  apply (NoDup_fmap_2 _). apply NoDup_seq.
Qed.

Section Labels.
Variable repr_float : float -> pystr.
Variables n_rows n_cols : Z.
Variables plate_length plate_width barrier_thickness well_diameter
  well_separation margin left_padding top_padding edge_corner_radius
  edge_thickness edges_distance label_font_size : number.
Variable well_fill : fill_arg.
Variable h : heap.

Local Abbreviation init :=
  (__init__ repr_float n_rows n_cols plate_length plate_width barrier_thickness
     well_diameter well_separation margin left_padding top_padding
     edge_corner_radius edge_thickness edges_distance label_font_size well_fill h).

Lemma init_label_texts self svg h1 :
  init = Constructed self svg h1 ->
  map text_of (List.filter is_text (elements svg)) =
    map (fun r => [Z.to_N (r + 65)]) (range n_rows) ++
    map (fun c => str_int (c + 1)) (range n_cols).
Proof.
  intros H. apply init_kinds in H
    as (top_y & left_x & vw & vh & e2 & ws & rls & cls & _ & Hs & -> & _ & _ & Hr & Hc & _ & _ & ->).
  assert (Hn : _n_rows self = n_rows /\ _n_cols self = n_cols) by (by subst self).
  destruct Hn as [Hnr Hnc]. unfold row_labels in Hr. unfold col_labels in Hc.
  rewrite Hnr in Hr. rewrite Hnc in Hc. rewrite map_app. f_equal.
  - eapply map_Ok_map; [exact Hr|]. intros r v Hv.
    apply row_label_Ok in Hv as (text & ? & ? & Hchr & _ & _ & ->).
    by apply chr_Ok in Hchr as [-> _].
  - eapply map_Ok_map; [exact Hc|]. intros c v Hv.
    by apply col_label_Ok in Hv as (? & ? & _ & _ & ->).
Qed.

(** X10.  The labels of a constructed plate are pairwise distinct, however
    many rows and columns it has: no two rows and no two columns share a
    label, and no row label is also a column label. *)
Theorem labels_distinct self svg h1 :
  init = Constructed self svg h1 ->
  NoDup (map text_of (List.filter is_text (elements svg))).
Proof.
  intros H. rewrite (init_label_texts _ _ _ H).
  change (map ?f ?l) with (f <$> l). apply NoDup_app. split; [|split].
  - apply NoDup_fmap_2_strong; [|apply NoDup_range].
    intros r r' Hr Hr' [= Heq]. apply elem_of_range in Hr, Hr'. lia.
  - intros t (r & -> & Hr)%list_elem_of_fmap (c & Ht & Hc)%list_elem_of_fmap.
    apply elem_of_range in Hr. pose proof (str_int_chars (c + 1)) as Hch.
    rewrite <- Ht in Hch. apply Forall_cons in Hch as [Hlt _]. lia.
  - apply NoDup_fmap_2_strong; [|apply NoDup_range].
    intros c c' _ _ Heq. apply str_int_inj in Heq. lia.
Qed.

End Labels.

(** ** The heap *)

Lemma deepcopy_row_extends memo h r r' memo' h' :
  deepcopy_row memo h r = (r', memo', h') -> extends h h' /\ matrices h' = matrices h.
Proof.
  unfold deepcopy_row. destruct (memo !! r).
  - intros [= _ _ <-]. split; [apply extends_refl|done].
  - destruct (rowlists h !! r) as [cells|].
    + destruct (alloc_row cells h) as [r1 h1] eqn:Ha. intros [= _ _ <-].
      by apply alloc_row_spec in Ha as (_ & _ & ? & ?).
    + intros [= _ _ <-]. split; [apply extends_refl|done].
Qed.

Lemma deepcopy_rows_extends rs memo h rs' memo' h' :
  deepcopy_rows memo h rs = (rs', memo', h') -> extends h h' /\ matrices h' = matrices h.
Proof.
  revert memo h rs' memo' h'.
  induction rs as [|r rs IH]; intros memo h rs' memo' h'; cbn [deepcopy_rows].
  - intros [= _ _ <-]. split; [apply extends_refl|done].
  - destruct (deepcopy_row memo h r) as [[r1 memo1] h1] eqn:H1.
    destruct (deepcopy_rows memo1 h1 rs) as [[rs2 memo2] h2] eqn:H2.
    intros [= _ _ <-].
    apply deepcopy_row_extends in H1 as [He1 Hm1]. apply IH in H2 as [He2 Hm2].
    split; [by eapply extends_trans|congruence].
Qed.

(** A deep copy changes no object that existed, whatever it is given. *)
Lemma deepcopy_extends h m m' h' : deepcopy h m = (m', h') -> extends h h'.
Proof.
  unfold deepcopy. destruct (matrices h !! m) as [rs|].
  - destruct (deepcopy_rows ∅ h rs) as [[rs' memo'] h1] eqn:Hd. intros Ha.
    apply deepcopy_rows_extends in Hd as [He1 _].
    apply alloc_matrix_spec in Ha as (_ & _ & _ & He2). by eapply extends_trans.
  - intros [= _ <-]. apply extends_refl.
Qed.

Lemma fill_step_extends n_rows n_cols well_fill h :
  extends h (snd (fill_step n_rows n_cols well_fill h)).
Proof.
  unfold fill_step. destruct well_fill as [s|m].
  - destruct (broadcast s n_rows n_cols h) as [fm h1] eqn:Hb.
    by apply broadcast_spec in Hb as [_ ?].
  - destruct (deepcopy h m) as [fm h1] eqn:Hd. by apply deepcopy_extends in Hd.
Qed.

(** The rows of a list comprehension are new objects, one for each element
    of the range. *)
Lemma alloc_rows_fresh {A} (js : list A) cells h rs h' :
  alloc_rows js cells h = (rs, h') ->
  NoDup rs /\ Forall (fun r => r ∉ dom (rowlists h)) rs /\ length rs = length js.
Proof.
  revert h rs h'. induction js as [|j js IH]; intros h rs h'; cbn [alloc_rows length].
  - intros [= <- <-]. split; [constructor|]. split; [constructor|done].
  - destruct (alloc_row cells h) as [r h1] eqn:Hr.
    destruct (alloc_rows js cells h1) as [rs' h2] eqn:Hrs.
    intros [= <- <-].
    apply alloc_row_spec in Hr as (Hfresh & Hr & _ & He1).
    apply IH in Hrs as (Hnd & Hnew & Hlen).
    assert (Hin : r ∈ dom (rowlists h1)) by (apply elem_of_dom; eauto).
    split; [|split].
    + constructor; [|done]. intros Hr'.
      by apply (proj1 (Forall_forall _ _) Hnew) in Hr'.
    + constructor; [done|]. eapply Forall_impl; [exact Hnew|]. simpl.
      intros q Hq Hq'. apply Hq. apply elem_of_dom in Hq' as [c Hc].
      apply elem_of_dom. exists c. eapply lookup_weaken; [exact Hc|apply He1].
    + simpl. by rewrite Hlen.
Qed.

Section Heap.
Variable repr_float : float -> pystr.
Variables n_rows n_cols : Z.
Variables plate_length plate_width barrier_thickness well_diameter
  well_separation margin left_padding top_padding edge_corner_radius
  edge_thickness edges_distance label_font_size : number.
Variable well_fill : fill_arg.
Variable h : heap.

Local Abbreviation init :=
  (__init__ repr_float n_rows n_cols plate_length plate_width barrier_thickness
     well_diameter well_separation margin left_padding top_padding
     edge_corner_radius edge_thickness edges_distance label_font_size well_fill h).
Local Abbreviation the_fill_step := (fill_step n_rows n_cols well_fill h).

(** X11.  Whether it returns a plate or raises, the constructor changes no
    object that existed before the call: the heap it leaves extends the heap
    it was given, so that the caller's fill matrix is never written. *)
Theorem construction_frame : extends h (heap_of init).
Proof.
  assert (Hh : heap_of init = snd the_fill_step).
  { rewrite (init_unfold repr_float).
    destruct (geometry _ _ _ _ _) as [[[[top_y left_x] vw] vh]|e]; [|done].
    cbn zeta. by destruct (snd (emitted _)). }
  rewrite Hh. apply fill_step_extends.
Qed.

(** X12.  With one colour string the fill matrix of the plate is a new list
    of [n_rows] rows that are new, pairwise distinct objects, each holding
    [n_cols] times the colour: the list comprehension of line 79 builds one
    row per index and shares none. *)
Theorem string_fill_rows_fresh self svg h1 s :
  well_fill = FillStr s ->
  __init__ repr_float n_rows n_cols plate_length plate_width barrier_thickness
    well_diameter well_separation margin left_padding top_padding
    edge_corner_radius edge_thickness edges_distance label_font_size well_fill h
    = Constructed self svg h1 ->
  exists rs,
    matrices h1 !! _fill_matrix self = Some rs /\
    (_fill_matrix self ∉ dom (matrices h)) /\
    length rs = Z.to_nat n_rows /\ NoDup rs /\
    Forall (fun r => (r ∉ dom (rowlists h)) /\
                     rowlists h1 !! r = Some (replicate (Z.to_nat n_cols) s)) rs.
Proof.
  intros Hwf H. apply init_fill_step in H. unfold fill_step in H. rewrite Hwf in H.
  unfold broadcast in H.
  destruct (alloc_rows _ _ h) as [rs h0] eqn:Hrs.
  pose proof (alloc_rows_fresh _ _ _ _ _ Hrs) as (Hnd & Hnew & Hlen).
  apply alloc_rows_spec in Hrs as (Hcells & Hmat & He).
  apply alloc_matrix_spec in H as (Hfresh & Hm & Hrow & _).
  rewrite range_length in Hlen. rewrite Hmat in Hfresh.
  exists rs. repeat split; try done.
  rewrite map_const_replicate, !range_length in Hcells. rewrite Hrow.
  apply Forall_forall. intros r Hr. split.
  - by apply (proj1 (Forall_forall _ _) Hnew).
  - apply list_elem_of_lookup in Hr as [i Hi].
    destruct (Forall2_lookup_l _ _ _ _ _ Hcells Hi) as (c & Hc & Hrc).
    apply lookup_replicate in Hc as [-> _]. done.
Qed.

End Heap.

(** ** The presets, in general *)

(** The circles and the label texts of a constructed plate. *)
Lemma init_circles_texts rf n_rows n_cols pl pw bt wd ws m lp tp ecr et ed lfs wf h
    self svg h1 :
  __init__ rf n_rows n_cols pl pw bt wd ws m lp tp ecr et ed lfs wf h
    = Constructed self svg h1 ->
  length (List.filter is_circle (elements svg)) = (Z.to_nat n_rows * Z.to_nat n_cols)%nat /\
  map text_of (List.filter is_text (elements svg)) =
    map (fun r => [Z.to_N (r + 65)]) (range n_rows) ++
    map (fun c => str_int (c + 1)) (range n_cols).
Proof.
  intros H. split; [|by eapply init_label_texts].
  apply init_kinds in H
    as (top_y & left_x & vw & vh & e2 & cs & rls & cls & _ & Hs & -> & _ & Hw & _ & _ & _ & -> & _).
  apply (f_equal length) in Hw. rewrite wells_length, length_map in Hw.
  by subst self.
Qed.

Section MorePresets.
Variable repr_float : float -> pystr.

(** X13.  [Plate96] succeeds on every barrier thickness, edge thickness and
    float argument, on [int] arguments of ordinary size and on a fill that
    covers the 8 x 12 grid; the drawing has 96 circles, the row labels A to H
    and the column labels 1 to 12, in this order. *)
Theorem Plate96_constructs barrier_tickness well_diameter margin
    edge_thickness edge_distance well_fill h :
  modest well_diameter -> modest margin -> modest edge_distance ->
  fill_covers h well_fill 8 12 ->
  exists self svg h1,
    Plate96 repr_float barrier_tickness well_diameter margin
      edge_thickness edge_distance well_fill h = Constructed self svg h1 /\
    length (List.filter is_circle (elements svg)) = 96%nat /\
    map text_of (List.filter is_text (elements svg)) =
      map lit ["A"; "B"; "C"; "D"; "E"; "F"; "G"; "H";
               "1"; "2"; "3"; "4"; "5"; "6"; "7"; "8"; "9"; "10"; "11"; "12"]%string.
Proof.
  intros Hwd Hm Hed Hfill. unfold Plate96.
  destruct (init_succeeds repr_float 8 12 (PyFloat 127.76) (PyFloat 85.48)
              barrier_tickness well_diameter (PyInt 9) margin (PyFloat 14.38)
              (PyFloat 11.24) (PyFloat 3.18) edge_thickness edge_distance (PyInt 4)
              well_fill h) as (self & svg & h1 & H);
    try done; try (apply Z.leb_le; vm_compute; reflexivity).
  exists self, svg, h1. split; [done|].
  by apply init_circles_texts in H as [-> ->].
Qed.

(** X14.  [Plate384] succeeds under the same conditions on its 16 x 24 grid;
    the drawing has 384 circles, the row labels A to P and the column labels
    1 to 24, in this order. *)
Theorem Plate384_constructs barrier_tickness well_diameter margin
    edge_thickness edge_distance well_fill h :
  modest well_diameter -> modest margin -> modest edge_distance ->
  fill_covers h well_fill 16 24 ->
  exists self svg h1,
    Plate384 repr_float barrier_tickness well_diameter margin
      edge_thickness edge_distance well_fill h = Constructed self svg h1 /\
    length (List.filter is_circle (elements svg)) = 384%nat /\
    map text_of (List.filter is_text (elements svg)) =
      map lit ["A"; "B"; "C"; "D"; "E"; "F"; "G"; "H";
               "I"; "J"; "K"; "L"; "M"; "N"; "O"; "P";
               "1"; "2"; "3"; "4"; "5"; "6"; "7"; "8"; "9"; "10"; "11"; "12";
               "13"; "14"; "15"; "16"; "17"; "18"; "19"; "20"; "21"; "22"; "23";
               "24"]%string.
Proof.
  intros Hwd Hm Hed Hfill. unfold Plate384.
  destruct (init_succeeds repr_float 16 24 (PyFloat 127.76) (PyFloat 85.48)
              barrier_tickness well_diameter (PyFloat 4.5) margin (PyFloat 12.7)
              (PyFloat 8.99) (PyFloat 3.18) edge_thickness edge_distance (PyInt 3)
              well_fill h) as (self & svg & h1 & H);
    try done; try (apply Z.leb_le; vm_compute; reflexivity).
  exists self, svg, h1. split; [done|].
  by apply init_circles_texts in H as [-> ->].
Qed.

(** X15.  The two presets describe the same plate outline: called with the
    same thicknesses, diameter, margin and edge distance, [Plate96] and
    [Plate384] give drawings with the same file name, size, view box and edge
    rectangles, whatever the fills. *)
Theorem presets_share_frame barrier_tickness well_diameter margin
    edge_thickness edge_distance well_fill h well_fill' h'
    self svg h1 self' svg' h1' :
  Plate96 repr_float barrier_tickness well_diameter margin
    edge_thickness edge_distance well_fill h = Constructed self svg h1 ->
  Plate384 repr_float barrier_tickness well_diameter margin
    edge_thickness edge_distance well_fill' h' = Constructed self' svg' h1' ->
  filename svg = filename svg' /\ size svg = size svg' /\ viewBox svg = viewBox svg' /\
  List.filter is_rect (elements svg) = List.filter is_rect (elements svg').
Proof.
  unfold Plate96, Plate384. intros H H'.
  apply init_kinds in H
    as (top_y & left_x & vw & vh & e2 & cs & rls & cls & Hg & Hs & -> & He & _ & _ & _ & -> & _).
  apply init_kinds in H'
    as (top_y' & left_x' & vw' & vh' & e2' & cs' & rls' & cls' & Hg' & Hs' & -> & He' & _ & _ & _ & -> & _).
  apply geometry_Ok in Hg as (_ & _ & Hw & Hh).
  apply geometry_Ok in Hg' as (_ & _ & Hw' & Hh').
  assert (vw' = vw) as -> by congruence. assert (vh' = vh) as -> by congruence.
  repeat split.
  apply inner_edge_Ok in He as (ic & w & hh & rx & Hic & Hiw & Hih & Hrx & ->).
  apply inner_edge_Ok in He' as (ic' & w' & hh' & rx' & Hic' & Hiw' & Hih' & Hrx' & ->).
  rewrite Hs in *. rewrite Hs' in *. simpl in *.
  assert (ic' = ic) as -> by congruence. assert (w' = w) as -> by congruence.
  assert (hh' = hh) as -> by congruence. assert (rx' = rx) as -> by congruence.
  done.
Qed.

End MorePresets.

(** ** The calls of the export *)


(** ** The drawing methods on their own *)

Lemma emitted_Forall (P : element -> Prop) es :
  (forall v, In (Ok v) es -> P v) -> Forall P (fst (emitted es)).
Proof.
  induction es as [|[v|ex] es IH]; intros H; simpl; [constructor| |constructor].
  destruct (emitted es) as [vs o]. simpl in *. constructor; [by apply H; left|].
  apply IH. intros; apply H; by right.
Qed.

Lemma emitted_length es : (length (fst (emitted es)) <= length es)%nat.
Proof.
  induction es as [|[v|ex] es IH]; simpl; [lia| |lia].
  destruct (emitted es) as [vs o]. simpl in *. lia.
Qed.

(** X17.  The three drawing methods only append: from any drawing,
    [_draw_edges] adds at most two rectangles, [_draw_wells] adds circles and
    [_draw_labels] adds texts, after the elements already there, and they
    leave the file name, the size and the view box as they are, also when
    they raise. *)
Theorem draw_methods_append repr_float (h : heap) (self : PaperPlate) (d : Drawing) :
  (exists es, snd (_draw_edges self d) = extend d es /\
              (length es <= 2)%nat /\ Forall (fun e => is_rect e = true) es) /\
  (exists es, snd (_draw_wells h self d) = extend d es /\
              Forall (fun e => is_circle e = true) es) /\
  (exists es, snd (_draw_labels repr_float self d) = extend d es /\
              Forall (fun e => is_text e = true) es).
Proof.
  split; [|split].
  - rewrite draw_edges_emit, emit_run. eexists. split; [done|]. split.
    + apply (emitted_length (edges self)).
    + apply emitted_Forall. unfold edges. intros v [[= <-]|[Hv|[]]]; [done|].
      by apply inner_edge_Ok in Hv as (? & ? & ? & ? & _ & _ & _ & _ & ->).
  - rewrite draw_wells_emit, emit_run. eexists. split; [done|].
    apply emitted_Forall. unfold wells. intros v (row & _ & Hv)%in_flat_map.
    apply in_map_iff in Hv as (col & Hv & _).
    by apply well_Ok in Hv as (? & ? & ? & ? & _ & _ & _ & _ & ->).
  - rewrite draw_labels_emit, emit_run. eexists. split; [done|].
    apply emitted_Forall. intros v [Hv|Hv]%in_app_iff.
    + apply in_map_iff in Hv as (row & Hv & _).
      by apply row_label_Ok in Hv as (? & ? & ? & _ & _ & _ & ->).
    + apply in_map_iff in Hv as (col & Hv & _).
      by apply col_label_Ok in Hv as (? & ? & _ & _ & ->).
Qed.

(** ** Instances of the further properties *)



Lemma failure_keeps_prefix_witness :
  exists d h1,
    small_plate 1 3 (FillRef 1%positive) heap_1x2 = Failed IndexError (Some d) h1 /\
    length (elements d) = 4%nat /\
    viewBox d = Some (PyInt 0, PyInt 0, PyFloat 137.76, PyFloat 95.48).
Proof.
  destruct (small_plate 1 3 (FillRef 1%positive) heap_1x2)
    as [self svg h1|e [d|] h1] eqn:Hinit;
    [vm_compute in Hinit; discriminate Hinit| |vm_compute in Hinit; discriminate Hinit].
  assert (e = IndexError) as -> by (vm_compute in Hinit; by injection Hinit as <- _ _).
  exists d, h1. split; [reflexivity|].
  destruct (failure_keeps_prefix repr_stub 1 3 (PyFloat 127.76) (PyFloat 85.48)
      (PyFloat 0.5) (PyInt 6) (PyInt 9) (PyInt 5) (PyFloat 14.38) (PyFloat 11.24)
      (PyFloat 3.18) (PyFloat 0.75) (PyFloat 1.0) (PyInt 4) (FillRef 1%positive)
      heap_1x2 IndexError d h1 Hinit) as (top_y & left_x & vw & vh & Hg & Hv & _).
  split; [vm_compute in Hinit; by injection Hinit as <- _|].
  vm_compute in Hg. injection Hg as _ _ <- <-. exact Hv.
Defined.

Lemma failure_position_witness :
  exists d h1,
    small_plate 1 3 (FillRef 1%positive) heap_1x2 = Failed IndexError (Some d) h1 /\
    exists row col, 0 <= row < 1 /\ 0 <= col < 3 /\
      length (elements d) = Z.to_nat (2 + (row * 3 + col)).
Proof.
  destruct (small_plate 1 3 (FillRef 1%positive) heap_1x2)
    as [self svg h1|e [d|] h1] eqn:Hinit;
    [vm_compute in Hinit; discriminate Hinit| |vm_compute in Hinit; discriminate Hinit].
  assert (e = IndexError) as -> by (vm_compute in Hinit; by injection Hinit as <- _ _).
  exists d, h1. split; [reflexivity|].
  destruct (proj1 (failure_position repr_stub 1 3 (PyFloat 127.76) (PyFloat 85.48)
      (PyFloat 0.5) (PyInt 6) (PyInt 9) (PyInt 5) (PyFloat 14.38) (PyFloat 11.24)
      (PyFloat 3.18) (PyFloat 0.75) (PyFloat 1.0) (PyInt 4) (FillRef 1%positive)
      heap_1x2 IndexError d h1 Hinit) (or_introl eq_refl))
    as (row & col & Hrow & Hcol & _ & Hlen).
  exists row, col. split; [exact Hrow|]. split; [exact Hcol|exact Hlen].
Defined.

Lemma element_count_witness :
  exists self svg h1,
    small_plate 2 3 (FillStr (lit "white")) empty_heap = Constructed self svg h1 /\
    length (elements svg) = 13%nat.
Proof.
  destruct (small_plate 2 3 (FillStr (lit "white")) empty_heap)
    as [self svg h1|e svg h1] eqn:Hinit; [|vm_compute in Hinit; discriminate Hinit].
  exists self, svg, h1. split; [reflexivity|].
  exact (proj2 (proj2 (proj2 (element_count repr_stub 2 3 (PyFloat 127.76) (PyFloat 85.48)
      (PyFloat 0.5) (PyInt 6) (PyInt 9) (PyInt 5) (PyFloat 14.38) (PyFloat 11.24)
      (PyFloat 3.18) (PyFloat 0.75) (PyFloat 1.0) (PyInt 4) (FillStr (lit "white"))
      empty_heap self svg h1 Hinit)))).
Defined.

Lemma empty_grid_ignores_fill_witness :
  exists self svg h1,
    small_plate 0 3 (FillRef 7%positive) empty_heap = Constructed self svg h1 /\
    List.filter is_circle (elements svg) = [] /\
    length (elements svg) = 5%nat.
Proof.
  exact (empty_grid_ignores_fill repr_stub 0 3 (PyFloat 127.76) (PyFloat 85.48)
      (PyFloat 0.5) (PyInt 6) (PyInt 9) (PyInt 5) (PyFloat 14.38) (PyFloat 11.24)
      (PyFloat 3.18) (PyFloat 0.75) (PyFloat 1.0) (PyInt 4) (FillRef 7%positive)
      empty_heap (or_introl (Z.le_refl 0)) ltac:(modest_tac) ltac:(modest_tac)
      ltac:(modest_tac) ltac:(modest_tac) ltac:(modest_tac) ltac:(modest_tac)
      ltac:(modest_tac) ltac:(modest_tac) ltac:(modest_tac) ltac:(lia)
      ltac:(modest_tac)).
Defined.

Lemma labels_aligned_witness :
  exists self svg h1,
    small_plate 2 3 (FillStr (lit "white")) empty_heap = Constructed self svg h1 /\
    exists w rl cl,
      List.filter is_circle (elements svg) !! 5%nat = Some w /\
      List.filter is_text (elements svg) !! 1%nat = Some rl /\
      List.filter is_text (elements svg) !! 4%nat = Some cl /\
      fst (position cl) = fst (position w) /\
      py_add (snd (position w)) (PyFloat 0.5) = Ok (snd (position rl)).
Proof.
  destruct (small_plate 2 3 (FillStr (lit "white")) empty_heap)
    as [self svg h1|e svg h1] eqn:Hinit; [|vm_compute in Hinit; discriminate Hinit].
  exists self, svg, h1. split; [reflexivity|].
  destruct (labels_aligned repr_stub 2 3 (PyFloat 127.76) (PyFloat 85.48)
      (PyFloat 0.5) (PyInt 6) (PyInt 9) (PyInt 5) (PyFloat 14.38) (PyFloat 11.24)
      (PyFloat 3.18) (PyFloat 0.75) (PyFloat 1.0) (PyInt 4) (FillStr (lit "white"))
      empty_heap self svg h1 Hinit 1 2 ltac:(lia) ltac:(lia))
    as (w & rl & cl & v & Hw & Hrl & Hcl & Hx & Hv & Hy).
  vm_compute in Hv. injection Hv as <-.
  exists w, rl, cl. repeat split; assumption.
Defined.

Lemma int_geometry_exact_witness :
  exists self svg h1,
    int_plate 2 3 (FillStr (lit "white")) empty_heap = Constructed self svg h1 /\
    exists w r,
      List.filter is_circle (elements svg) !! 5%nat = Some w /\
      position w = (PyInt 37, PyInt 25) /\
      w = Circle (position w) (PyFloat r) (PyInt 1) (lit "black") (fill_of w).
Proof.
  destruct (int_plate 2 3 (FillStr (lit "white")) empty_heap)
    as [self svg h1|e svg h1] eqn:Hinit; [|vm_compute in Hinit; discriminate Hinit].
  exists self, svg, h1. split; [reflexivity|].
  exact (int_geometry_exact repr_stub 2 3 (PyInt 128) (PyInt 86) (PyInt 1)
      (PyInt 6) (PyInt 9) (PyInt 5) (PyInt 14) (PyInt 11) (PyInt 3)
      (PyInt 1) (PyInt 1) (PyInt 4) (FillStr (lit "white")) empty_heap
      self svg h1 5 14 11 9 Hinit eq_refl eq_refl eq_refl eq_refl
      1 2 ltac:(lia) ltac:(lia)).
Defined.

Lemma fills_follow_argument_witness :
  exists self svg h1,
    small_plate 1 2 (FillRef 1%positive) heap_1x2 = Constructed self svg h1 /\
    exists w,
      List.filter is_circle (elements svg) !! 1%nat = Some w /\
      Ok (lit "blue") = Ok (fill_of w).
Proof.
  destruct (small_plate 1 2 (FillRef 1%positive) heap_1x2)
    as [self svg h1|e svg h1] eqn:Hinit; [|vm_compute in Hinit; discriminate Hinit].
  exists self, svg, h1. split; [reflexivity|].
  destruct (fills_follow_argument repr_stub 1 2 (PyFloat 127.76) (PyFloat 85.48)
      (PyFloat 0.5) (PyInt 6) (PyInt 9) (PyInt 5) (PyFloat 14.38) (PyFloat 11.24)
      (PyFloat 3.18) (PyFloat 0.75) (PyFloat 1.0) (PyInt 4) (FillRef 1%positive)
      heap_1x2 self svg h1 Hinit 0 1 ltac:(lia) ltac:(lia)) as (w & Hw & _ & Hfill).
  exists w. split; [exact Hw|].
  exact (Hfill 1%positive [[lit "red"; lit "blue"]] eq_refl eq_refl).
Defined.

Lemma labels_distinct_witness :
  exists self svg h1,
    small_plate 2 3 (FillStr (lit "white")) empty_heap = Constructed self svg h1 /\
    NoDup (map text_of (List.filter is_text (elements svg))).
Proof.
  destruct (small_plate 2 3 (FillStr (lit "white")) empty_heap)
    as [self svg h1|e svg h1] eqn:Hinit; [|vm_compute in Hinit; discriminate Hinit].
  exists self, svg, h1. split; [reflexivity|].
  exact (labels_distinct repr_stub 2 3 (PyFloat 127.76) (PyFloat 85.48)
      (PyFloat 0.5) (PyInt 6) (PyInt 9) (PyInt 5) (PyFloat 14.38) (PyFloat 11.24)
      (PyFloat 3.18) (PyFloat 0.75) (PyFloat 1.0) (PyInt 4) (FillStr (lit "white"))
      empty_heap self svg h1 Hinit).
Defined.

Lemma string_fill_rows_fresh_witness :
  exists self svg h1,
    small_plate 2 3 (FillStr (lit "white")) heap_1x2 = Constructed self svg h1 /\
    exists rs,
      matrices h1 !! _fill_matrix self = Some rs /\
      length rs = 2%nat /\ NoDup rs.
Proof.
  destruct (small_plate 2 3 (FillStr (lit "white")) heap_1x2)
    as [self svg h1|e svg h1] eqn:Hinit; [|vm_compute in Hinit; discriminate Hinit].
  exists self, svg, h1. split; [reflexivity|].
  destruct (string_fill_rows_fresh repr_stub 2 3 (PyFloat 127.76) (PyFloat 85.48)
      (PyFloat 0.5) (PyInt 6) (PyInt 9) (PyInt 5) (PyFloat 14.38) (PyFloat 11.24)
      (PyFloat 3.18) (PyFloat 0.75) (PyFloat 1.0) (PyInt 4) (FillStr (lit "white"))
      heap_1x2 self svg h1 (lit "white") eq_refl Hinit)
    as (rs & Hm & _ & Hlen & Hnd & _).
  exists rs. split; [exact Hm|]. split; [exact Hlen|exact Hnd].
Defined.

Lemma Plate96_constructs_witness :
  exists self svg h1,
    Plate96 repr_stub (PyFloat 0.5) (PyInt 6) (PyInt 5) default_edge_thickness
      default_edge_distance default_well_fill empty_heap = Constructed self svg h1 /\
    length (List.filter is_circle (elements svg)) = 96%nat /\
    map text_of (List.filter is_text (elements svg)) =
      map lit ["A"; "B"; "C"; "D"; "E"; "F"; "G"; "H";
               "1"; "2"; "3"; "4"; "5"; "6"; "7"; "8"; "9"; "10"; "11"; "12"]%string.
Proof.
  exact (Plate96_constructs repr_stub (PyFloat 0.5) (PyInt 6) (PyInt 5)
      default_edge_thickness default_edge_distance default_well_fill empty_heap
      ltac:(modest_tac) ltac:(modest_tac) ltac:(modest_tac) I).
Defined.

Lemma Plate384_constructs_witness :
  exists self svg h1,
    Plate384 repr_stub (PyFloat 0.5) (PyInt 3) (PyInt 5) default_edge_thickness
      default_edge_distance default_well_fill empty_heap = Constructed self svg h1 /\
    length (List.filter is_circle (elements svg)) = 384%nat /\
    map text_of (List.filter is_text (elements svg)) =
      map lit ["A"; "B"; "C"; "D"; "E"; "F"; "G"; "H";
               "I"; "J"; "K"; "L"; "M"; "N"; "O"; "P";
               "1"; "2"; "3"; "4"; "5"; "6"; "7"; "8"; "9"; "10"; "11"; "12";
               "13"; "14"; "15"; "16"; "17"; "18"; "19"; "20"; "21"; "22"; "23";
               "24"]%string.
Proof.
  exact (Plate384_constructs repr_stub (PyFloat 0.5) (PyInt 3) (PyInt 5)
      default_edge_thickness default_edge_distance default_well_fill empty_heap
      ltac:(modest_tac) ltac:(modest_tac) ltac:(modest_tac) I).
Defined.

Lemma presets_share_frame_witness :
  exists self svg h1 self' svg' h1',
    Plate96 repr_stub (PyFloat 0.5) (PyInt 6) (PyInt 5) default_edge_thickness
      default_edge_distance default_well_fill empty_heap = Constructed self svg h1 /\
    Plate384 repr_stub (PyFloat 0.5) (PyInt 6) (PyInt 5) default_edge_thickness
      default_edge_distance default_well_fill empty_heap = Constructed self' svg' h1' /\
    size svg = size svg' /\
    List.filter is_rect (elements svg) = List.filter is_rect (elements svg').
Proof.
  destruct (Plate96 repr_stub (PyFloat 0.5) (PyInt 6) (PyInt 5) default_edge_thickness
              default_edge_distance default_well_fill empty_heap)
    as [self svg h1|e svg h1] eqn:H96; [|vm_compute in H96; discriminate H96].
  destruct (Plate384 repr_stub (PyFloat 0.5) (PyInt 6) (PyInt 5) default_edge_thickness
              default_edge_distance default_well_fill empty_heap)
    as [self' svg' h1'|e svg' h1'] eqn:H384; [|vm_compute in H384; discriminate H384].
  exists self, svg, h1, self', svg', h1'. split; [reflexivity|]. split; [reflexivity|].
  destruct (presets_share_frame repr_stub (PyFloat 0.5) (PyInt 6) (PyInt 5)
      default_edge_thickness default_edge_distance default_well_fill empty_heap
      default_well_fill empty_heap self svg h1 self' svg' h1' H96 H384)
    as (_ & Hsize & _ & Hrects).
  split; [exact Hsize|exact Hrects].
Defined.
